(** * Voxel Engine commit-date verifier: a shallow embedding

    The verified program is [voxel_verification_sample.py]: it loads two
    credentials, fetches two files through the GitHub contents API, checks
    them against the expectations held in [CONFIG] and reports on standard
    output and standard error.

    Python values are modelled as follows.
    - a [str] is the list of its Unicode code points ([list N]);
    - [bytes] is the list of its octets ([list N], each below 256);
    - a dictionary with string keys read by key is a [gmap], a dictionary
      whose order is observable is an association list;
    - printing, the process environment, the HTTP exchange and exceptions
      are the effects of the monad [M] below.

    What belongs to the interpreter and its libraries rather than to the
    program (the Unicode tables, the base64 and text decoders) is taken as
    an interface ([UnicodeDB], [Codecs]); every theorem holds for all its
    instances, and a reference instance runs the examples. *)

From Stdlib Require Import ZArith NArith List String Ascii Bool Lia Floats.
From stdpp Require Import base option list gmap.

Local Open Scope N_scope.

(** ** Python strings *)

Abbreviation str := (list N) (only parsing).
Abbreviation bytes := (list N) (only parsing).

(** The octets of a source literal. *)
Fixpoint octets (s : string) : bytes :=
  match s with
  | EmptyString => []
  | String a s' => N_of_ascii a :: octets s'
  end.

(** The code points of a well-formed UTF-8 octet sequence (the reading of
    the literals of this file, which are all well formed). *)
Fixpoint utf8_points (bs : bytes) : str :=
  match bs with
  | [] => []
  | b0 :: r0 =>
    if b0 <? 128 then b0 :: utf8_points r0
    else if b0 <? 224 then
      match r0 with
      | b1 :: r1 => ((b0 - 192) * 64 + (b1 - 128)) :: utf8_points r1
      | _ => []
      end
    else if b0 <? 240 then
      match r0 with
      | b1 :: b2 :: r2 =>
        ((b0 - 224) * 4096 + (b1 - 128) * 64 + (b2 - 128)) :: utf8_points r2
      | _ => []
      end
    else
      match r0 with
      | b1 :: b2 :: b3 :: r3 =>
        ((b0 - 240) * 262144 + (b1 - 128) * 4096 + (b2 - 128) * 64 + (b3 - 128))
          :: utf8_points r3
      | _ => []
      end
  end.

(** [u "..."] is the Python string written ["..."] in the source. *)
Definition u (s : string) : str := utf8_points (octets s).
Arguments u : simpl never.

Definition LF : N := 10.

(** [str(n)] for a non-negative [int]. *)
Fixpoint uint_digits (d : Decimal.uint) : str :=
  match d with
  | Decimal.Nil => []
  | Decimal.D0 d => 48 :: uint_digits d
  | Decimal.D1 d => 49 :: uint_digits d
  | Decimal.D2 d => 50 :: uint_digits d
  | Decimal.D3 d => 51 :: uint_digits d
  | Decimal.D4 d => 52 :: uint_digits d
  | Decimal.D5 d => 53 :: uint_digits d
  | Decimal.D6 d => 54 :: uint_digits d
  | Decimal.D7 d => 55 :: uint_digits d
  | Decimal.D8 d => 56 :: uint_digits d
  | Decimal.D9 d => 57 :: uint_digits d
  end.

Definition str_of_nat (n : nat) : str := uint_digits (Nat.to_uint n).

(** [str(z)] for an [int]. *)
Definition str_of_int (z : Z) : str :=
  match z with
  | Zneg p => 45 :: uint_digits (Pos.to_uint p)
  | _ => uint_digits (N.to_uint (Z.to_N z))
  end.

(** [bool(s)] for a string, and for an optional string ([None] is false). *)
Definition nonempty (s : str) : bool :=
  match s with [] => false | _ :: _ => true end.

Definition truthy (o : option str) : bool :=
  match o with Some s => nonempty s | None => false end.

(** [s.replace(c, "")] for a one-character [c]. *)
Definition remove_char (c : N) (s : str) : str :=
  List.filter (fun x => negb (x =? c)) s.

(** [needle in hay]: [needle] occurs in [hay] as a contiguous run. *)
Fixpoint starts_with (needle hay : str) : bool :=
  match needle, hay with
  | [], _ => true
  | _ :: _, [] => false
  | a :: needle', b :: hay' => (a =? b) && starts_with needle' hay'
  end.

Fixpoint py_in (needle hay : str) : bool :=
  starts_with needle hay ||
  match hay with
  | [] => false
  | _ :: hay' => py_in needle hay'
  end.

(** The declarative reading of "is a substring of". *)
Definition substring (needle hay : str) : Prop :=
  exists before after, hay = before ++ needle ++ after.

(** ** The Unicode character database

    [str.strip] removes the characters [str.isspace] accepts, and [\d] in a
    [str] pattern accepts the characters of category Nd. Both tables belong
    to the interpreter's Unicode database, not to the program; they are
    fixed on ASCII, where every version agrees. *)

Definition ascii_space (c : N) : bool :=
  ((9 <=? c) && (c <=? 13)) || ((28 <=? c) && (c <=? 32)).

Definition ascii_digit (c : N) : bool := (48 <=? c) && (c <=? 57).

Class UnicodeDB := {
  isspace : N -> bool;
  isdecimal : N -> bool;
  isspace_ascii : forall c, c < 128 -> isspace c = ascii_space c;
  isdecimal_ascii : forall c, c < 128 -> isdecimal c = ascii_digit c
}.

Section Strings.
Context `{UnicodeDB}.

Fixpoint lstrip (s : str) : str :=
  match s with
  | [] => []
  | c :: s' => if isspace c then lstrip s' else s
  end.

Definition rstrip (s : str) : str := rev (lstrip (rev s)).

(** [s.strip()] *)
Definition strip (s : str) : str := rstrip (lstrip s).

End Strings.

(** ** Regular expressions

    The patterns the configuration can hold: a sequence of anchors and of
    atoms repeated a fixed number of times. [render] gives the pattern
    text, which the diagnostics print. *)

Inductive atom :=
| Lit (c : N)     (* the character c itself *)
| Digit.          (* \d *)

Inductive item :=
| Bol                        (* ^ *)
| Eol                        (* $ *)
| Rep (a : atom) (n : nat).  (* a{n} *)

Abbreviation regex := (list item) (only parsing).

Definition special (c : N) : bool :=
  existsb (N.eqb c) (u ".^$*+?{}[]\|()").

Definition render_atom (a : atom) : str :=
  match a with
  | Lit c => if special c then [92; c] else [c]
  | Digit => u "\d"
  end.

Definition render_item (i : item) : str :=
  match i with
  | Bol => u "^"
  | Eol => u "$"
  | Rep a n =>
    render_atom a ++
    (if Nat.eqb n 1 then [] else u "{" ++ str_of_nat n ++ u "}")
  end.

Definition render (r : regex) : str := concat (map render_item r).

Section Regex.
Context `{UnicodeDB}.

Definition atom_matches (a : atom) (c : N) : bool :=
  match a with
  | Lit d => c =? d
  | Digit => isdecimal c
  end.

(** Exactly [n] characters accepted by [a]; what follows them. *)
Fixpoint match_rep (a : atom) (n : nat) (s : str) : option str :=
  match n with
  | O => Some s
  | S n' =>
    match s with
    | c :: s' => if atom_matches a c then match_rep a n' s' else None
    | [] => None
    end
  end.

(** [$] (without MULTILINE): at the end of the string, or just before a
    newline that ends the string. *)
Definition at_end (s : str) : bool :=
  match s with
  | [] => true
  | [c] => c =? LF
  | _ => false
  end.

(** The items against the text left at position [pos]; the position the
    match ends at. *)
Fixpoint match_items (r : regex) (pos : nat) (s : str) : option nat :=
  match r with
  | [] => Some pos
  | Bol :: r' => if Nat.eqb pos 0 then match_items r' pos s else None
  | Eol :: r' => if at_end s then match_items r' pos s else None
  | Rep a n :: r' =>
    match match_rep a n s with
    | Some s' => match_items r' (pos + n)%nat s'
    | None => None
    end
  end.

(** [bool(m)] for the result of a match: a match object is always true. *)
Definition is_match (m : option str) : bool :=
  match m with Some _ => true | None => false end.

(** [re.match(r, s)]: a match starting at position 0; the matched text. *)
Definition re_match (r : regex) (s : str) : option str :=
  match match_items r 0 s with
  | Some e => Some (take e s)
  | None => None
  end.

End Regex.

(** ** Exceptions, Python objects and the outside world *)

(** An exception: its class and [str(e)]. Only instances of [Exception]
    are modelled (not an interrupt or an interpreter exit). *)
Inductive exn := Exception (class : string) (text : str).

Definition str_of_exn (e : exn) : str :=
  match e with Exception _ text => text end.

(** The outcome of an expression that may raise. *)
Inductive Exc (A : Type) :=
| Ret (a : A)
| Raise (e : exn).
Arguments Ret {A} a.
Arguments Raise {A} e.

#[global] Instance Exc_ret : MRet Exc := fun A (a : A) => Ret a.

#[global] Instance Exc_bind : MBind Exc := fun A B (k : A -> Exc B) (r : Exc A) =>
  match r with
  | Ret a => k a
  | Raise e => Raise e
  end.

(** The objects [response.json()] can produce. *)
#[warnings="-register-all"]
Inductive pyval :=
| PNone
| PBool (b : bool)
| PInt (z : Z)
| PFloat (f : float)
| PStr (s : str)
| PList (l : list pyval)
| PDict (d : list (str * pyval)).

(** [bool(v)] *)
Definition py_bool (v : pyval) : bool :=
  match v with
  | PNone => false
  | PBool b => b
  | PInt z => negb (z =? 0)%Z
  | PFloat f => negb (PrimFloat.eqb f PrimFloat.zero)
  | PStr s => nonempty s
  | PList l => match l with [] => false | _ => true end
  | PDict d => match d with [] => false | _ => true end
  end.

(** [type(v).__name__] *)
Definition type_name (v : pyval) : str :=
  match v with
  | PNone => u "NoneType"
  | PBool _ => u "bool"
  | PInt _ => u "int"
  | PFloat _ => u "float"
  | PStr _ => u "str"
  | PList _ => u "list"
  | PDict _ => u "dict"
  end.

Definition AttributeError (v : pyval) (attr : string) : exn :=
  Exception "AttributeError"
    (u "'" ++ type_name v ++ u "' object has no attribute '" ++ u attr ++ u "'").

Fixpoint assoc (k : str) (d : list (str * pyval)) : option pyval :=
  match d with
  | [] => None
  | (k', v) :: d' => if decide (k = k') then Some v else assoc k d'
  end.

(** [v.get(key, default)] *)
Definition py_get (v : pyval) (key : str) (default : pyval) : Exc pyval :=
  match v with
  | PDict d => Ret (match assoc key d with Some x => x | None => default end)
  | _ => Raise (AttributeError v "get")
  end.

(** [v.replace(c, "")] for a one-character string [c]. *)
Definition py_replace (v : pyval) (c : N) : Exc str :=
  match v with
  | PStr s => Ret (remove_char c s)
  | _ => Raise (AttributeError v "replace")
  end.

(** The decoders of the interpreter's library: [base64.b64decode] on a
    string and [bytes.decode] under a named encoding. The program relies
    on them as they are; their behaviour on the empty input is all that is
    fixed here. *)
Class Codecs := {
  b64decode : str -> Exc bytes;
  bytes_decode : str -> bytes -> Exc str;
  b64decode_empty : b64decode [] = Ret [];
  bytes_decode_empty : bytes_decode (u "utf-8") [] = Ret []
}.

(** An HTTP GET as [requests.get] receives it. *)
Record Request := {
  url : str;
  headers : list (str * str);
  timeout : Z
}.

(** What [requests.get] does: it raises, or it returns a response, of which
    the program reads [status_code] and [json()]. *)
Inductive Reply :=
| Raised (e : exn)
| Response (status_code : Z) (json : Exc pyval).

Inductive stream := stdout | stderr.

(** What a run does that is visible outside: lines printed and requests
    sent, in order. *)
Inductive event :=
| Print (f : stream) (text : str)
| HttpGet (rq : Request).

(** The surroundings of a run: the variables an environment file defines
    (none for a missing file) and the reply of the remote service to each
    request. *)
Record World := {
  dotenv_values : str -> gmap (list N) (list N);
  requests_get : Request -> Reply
}.

(** The state of the process: [os.environ] and what it has emitted. *)
Record State := {
  os_environ : gmap (list N) (list N);
  trace : list event
}.

(** ** The monad of the program *)

Definition M (A : Type) : Type := World -> State -> Exc A * State.

#[global] Instance M_ret : MRet M := fun A (a : A) _ st => (Ret a, st).

#[global] Instance M_bind : MBind M := fun A B (k : A -> M B) (m : M A) w st =>
  match m w st with
  | (Ret a, st') => k a w st'
  | (Raise e, st') => (Raise e, st')
  end.

(** An expression that may raise, evaluated in place. *)
Definition lift {A} (r : Exc A) : M A := fun _ st => (r, st).

(** [try: m except Exception as e: handler e] *)
Definition try_except {A} (m : M A) (handler : exn -> M A) : M A :=
  fun w st =>
    match m w st with
    | (Ret a, st') => (Ret a, st')
    | (Raise e, st') => handler e w st'
    end.

(** The state after the events [out]. *)
Definition emits (st : State) (out : list event) : State :=
  {| os_environ := os_environ st; trace := trace st ++ out |}.

Definition emit (e : event) (st : State) : State := emits st [e].

(** [print(text)] and [print(text, file=sys.stderr)] *)
Definition print (f : stream) (text : str) : M unit :=
  fun _ st => (Ret tt, emit (Print f text) st).

(** [load_dotenv(path)]: the variables of the file are added to
    [os.environ]; one that is set already keeps its value. *)
Definition load_dotenv (path : str) : M unit :=
  fun w st =>
    (Ret tt, {| os_environ := os_environ st ∪ dotenv_values w path;
                trace := trace st |}).

(** [os.environ.get(name)] *)
Definition environ_get (name : str) : M (option str) :=
  fun _ st => (Ret (os_environ st !! name), st).

(** [requests.get(url, headers=..., timeout=...)] *)
Definition http_get (rq : Request) : M (Z * Exc pyval) :=
  fun w st =>
    match requests_get w rq with
    | Raised e => (Raise e, emit (HttpGet rq) st)
    | Response status body => (Ret (status, body), emit (HttpGet rq) st)
    end.

(** [for x in l: ...] over a loop variable [s]. *)
Fixpoint for_each {A S} (l : list A) (body : A -> S -> M S) (s : S) : M S :=
  match l with
  | [] => mret s
  | x :: l' => s' ← body x s; for_each l' body s'
  end.

(** ** 1) Configuration

    One record per section of the [CONFIG] dictionary, field for key. The
    keys [path], [must_exist] and [encoding], which both files have, are
    prefixed with the name of their file, and [timeout] with [repo]. The
    pattern is held as a [regex]; [render] gives back its text. *)

Record EnvConfig := {
  github_token_var : str;
  github_org_var : str;
  env_file : str
}.

Record RepoConfig := {
  repo_name : str;
  target_branch : str;
  api_version : str;
  repo_timeout : Z
}.

Record ContentSchema := {
  format : str;
  pattern : regex;
  expected_value : str
}.

Record AnswerFile := {
  answer_path : str;
  answer_must_exist : bool;
  answer_encoding : str;
  content_schema : ContentSchema
}.

Record ContentChecks := {
  required_section : str;
  required_entries : list str;
  check_entries : bool
}.

Record ReferenceFile := {
  reference_path : str;
  reference_must_exist : bool;
  reference_encoding : str;
  content_checks : ContentChecks
}.

Record FilesToVerify := {
  answer_file : AnswerFile;
  reference_file : ReferenceFile
}.

Record VerificationFlow := {
  check_answer_file_existence : bool;
  check_answer_format : bool;
  verify_answer_value : bool;
  check_reference_file : bool;
  check_section_existence : bool;
  check_required_entries : bool
}.

Record Config := {
  ENV_CONFIG : EnvConfig;
  REPO_CONFIG : RepoConfig;
  FILES_TO_VERIFY : FilesToVerify;
  VERIFICATION_FLOW : VerificationFlow
}.

(** The pattern [^\d{4}-\d{2}-\d{2}$]. *)
Definition date_pattern : regex :=
  [Bol; Rep Digit 4; Rep (Lit 45) 1; Rep Digit 2; Rep (Lit 45) 1; Rep Digit 2; Eol].

Definition CONFIG : Config := {|
  ENV_CONFIG := {|
    github_token_var := u "MCP_GITHUB_TOKEN";
    github_org_var := u "GITHUB_EVAL_ORG";
    env_file := u ".mcp_env"
  |};
  REPO_CONFIG := {|
    repo_name := u "voxel-engine-docs";
    target_branch := u "main";
    api_version := u "v3";
    repo_timeout := 10
  |};
  FILES_TO_VERIFY := {|
    answer_file := {|
      answer_path := u "ANSWER.md";
      answer_must_exist := true;
      answer_encoding := u "utf-8";
      content_schema := {|
        format := u "date";
        pattern := date_pattern;
        expected_value := u "2023-11-15"
      |}
    |};
    reference_file := {|
      reference_path := u "README.md";
      reference_must_exist := true;
      reference_encoding := u "utf-8";
      content_checks := {|
        required_section := u "## Voxel Engine Implementation";
        required_entries :=
          [u "C++ Voxel Engine Fundamentals"; u "Vulkan-based Voxel Rendering"];
        check_entries := true
      |}
    |}
  |};
  VERIFICATION_FLOW := {|
    check_answer_file_existence := true;
    check_answer_format := true;
    verify_answer_value := true;
    check_reference_file := true;
    check_section_existence := true;
    check_required_entries := true
  |}
|}.

Section Verifier.
Context `{UnicodeDB} `{Codecs}.
Variable cfg : Config.

(** ** The lines the program prints

    Each is the f-string of the source, named after what it reports. *)

Definition answer_name : str := answer_path (answer_file (FILES_TO_VERIFY cfg)).
Definition reference_name : str :=
  reference_path (reference_file (FILES_TO_VERIFY cfg)).
Definition the_pattern : regex :=
  pattern (content_schema (answer_file (FILES_TO_VERIFY cfg))).
Definition the_expected : str :=
  expected_value (content_schema (answer_file (FILES_TO_VERIFY cfg))).
Definition the_section : str :=
  required_section (content_checks (reference_file (FILES_TO_VERIFY cfg))).
Definition the_entries : list str :=
  required_entries (content_checks (reference_file (FILES_TO_VERIFY cfg))).

Definition variable_missing (var : str) : str :=
  u "❌ 未找到环境变量 " ++ var ++ u "（检查" ++ env_file (ENV_CONFIG cfg) ++ u "）".
Definition api_not_found (endpoint : str) : str :=
  u "⚠️ API资源未找到：" ++ endpoint ++ u "（404）".
Definition api_failed (endpoint : str) (status_code : Z) : str :=
  u "❌ API请求失败：" ++ endpoint ++ u "（状态码：" ++ str_of_int status_code ++ u "）".
Definition api_exception (endpoint : str) (e : exn) : str :=
  u "❌ API调用异常：" ++ endpoint ++ u "（错误：" ++ str_of_exn e ++ u "）".
Definition file_not_found (branch file_path : str) : str :=
  u "❌ 未在分支 '" ++ branch ++ u "' 找到文件 '" ++ file_path ++ u "'".
Definition decode_failed (file_path : str) (e : exn) : str :=
  u "❌ 文件 '" ++ file_path ++ u "' 解码失败（错误：" ++ str_of_exn e ++ u "）".

Definition answer_missing : str :=
  u "❌ 验证失败：" ++ answer_name ++ u " 不存在或无法读取".
Definition answer_exists : str := u "✅ 验证通过：" ++ answer_name ++ u " 存在".
Definition format_wrong : str :=
  u "❌ 验证失败：内容格式不符合要求（预期：" ++ render the_pattern ++ u "）".
Definition format_right : str :=
  u "✅ 验证通过：内容格式正确（匹配 " ++ render the_pattern ++ u "）".
Definition value_wrong (actual : str) : str :=
  u "❌ 验证失败：内容值不匹配（预期：" ++ the_expected ++ u "，实际：" ++ actual ++ u "）".
Definition value_right : str := u "✅ 验证通过：内容值正确（" ++ the_expected ++ u "）".
Definition reference_missing : str :=
  u "❌ 验证失败：" ++ reference_name ++ u " 不存在或无法读取".
Definition reference_exists : str := u "✅ 验证通过：" ++ reference_name ++ u " 存在".
Definition section_missing : str :=
  u "❌ 验证失败：" ++ reference_name ++ u " 中未找到 '" ++ the_section ++ u "' 章节".
Definition section_found : str := u "✅ 验证通过：找到 '" ++ the_section ++ u "' 章节".
Definition entry_missing (entry : str) : str :=
  u "⚠️ 警告：" ++ reference_name ++ u " 中未找到条目 '" ++ entry ++ u "'".
Definition entries_complete : str :=
  u "✅ 验证通过：所有必需条目均存在（共" ++ str_of_nat (length the_entries) ++ u "条）".
Definition entries_incomplete : str := u "❌ 验证失败：部分必需条目缺失".

(** ["=" * 60] *)
Definition rule : str := repeat 61 60.
Arguments rule : simpl never.

Definition opening : str := u "🔍 开始Voxel Engine提交日期验证流程...".
Definition step1 : str := LF :: u "【步骤1/3】加载环境配置...".
Definition environment_incomplete : str := u "❌ 环境配置不完整，终止验证".
Definition environment_loaded (github_org : str) : str :=
  u "✅ 环境配置加载完成（组织：" ++ github_org ++ u "，仓库："
    ++ repo_name (REPO_CONFIG cfg) ++ u "）".
Definition step2 : str := LF :: u "【步骤2/3】验证答案文件...".
Definition answer_failed : str := LF :: u "❌ 答案文件验证失败".
Definition step3 : str := LF :: u "【步骤3/3】验证参考文件...".
Definition reference_failed : str := LF :: u "❌ 参考文件验证失败".
Definition all_passed : str := u "🎉 所有Voxel Engine提交日期验证项通过！".
Definition summary_title : str := u "📋 验证汇总：".
Definition summary_repo (github_org : str) : str :=
  u "   - 仓库：" ++ github_org ++ u "/" ++ repo_name (REPO_CONFIG cfg).
Definition summary_branch : str :=
  u "   - 分支：" ++ target_branch (REPO_CONFIG cfg).
Definition summary_answer : str :=
  u "   - 答案文件：" ++ answer_name ++ u "（值：" ++ the_expected ++ u "）".
Definition summary_reference : str :=
  u "   - 参考文件：" ++ reference_name ++ u "（章节：" ++ the_section ++ u "）".

(** ** 2) Tools *)

Definition _load_environment : M (option str * option str) :=
  load_dotenv (env_file (ENV_CONFIG cfg));;
  github_token ← environ_get (github_token_var (ENV_CONFIG cfg));
  github_org ← environ_get (github_org_var (ENV_CONFIG cfg));
  (if negb (truthy github_token)
   then print stderr (variable_missing (github_token_var (ENV_CONFIG cfg)))
   else mret tt);;
  (if negb (truthy github_org)
   then print stderr (variable_missing (github_org_var (ENV_CONFIG cfg)))
   else mret tt);;
  mret (github_token, github_org).

Definition _build_headers (github_token : str) : list (str * str) :=
  [ (u "Authorization", u "Bearer " ++ github_token);
    (u "Accept",
     u "application/vnd.github." ++ api_version (REPO_CONFIG cfg) ++ u "+json");
    (u "User-Agent", u "voxel-engine-verifier") ].

Definition _call_github_api (endpoint : str) (headers : list (str * str))
    (org : str) : M (bool * pyval) :=
  let repo_name := repo_name (REPO_CONFIG cfg) in
  let api_url :=
    u "https://api.github.com/repos/" ++ org ++ u "/" ++ repo_name ++ u "/"
      ++ endpoint in
  try_except
    ('(status_code, json) ←
       http_get {| url := api_url; headers := headers;
                   timeout := repo_timeout (REPO_CONFIG cfg) |};
     if (status_code =? 200)%Z then
       body ← lift json;
       mret (true, body)
     else if (status_code =? 404)%Z then
       print stderr (api_not_found endpoint);;
       mret (false, PNone)
     else
       print stderr (api_failed endpoint status_code);;
       mret (false, PNone))
    (fun e =>
       print stderr (api_exception endpoint e);;
       mret (false, PNone)).

(** The body of the [try] block of [_get_file_content]: the [content]
    field without its newlines, base64-decoded, then decoded as text. *)
Definition decode_content (file_data : pyval) : Exc str :=
  content ← py_get file_data (u "content") (PStr []);
  base64_content ← py_replace content LF;
  raw ← b64decode base64_content;
  bytes_decode (answer_encoding (answer_file (FILES_TO_VERIFY cfg))) raw.

Definition _get_file_content (file_path : str) (headers : list (str * str))
    (org : str) (ref : option str) : M (option str) :=
  let branch :=
    if truthy ref then default [] ref else target_branch (REPO_CONFIG cfg) in
  '(success, file_data) ←
    _call_github_api (u "contents/" ++ file_path ++ u "?ref=" ++ branch)
      headers org;
  if negb success || negb (py_bool file_data) then
    print stderr (file_not_found branch file_path);;
    mret None
  else
    try_except
      (text ← lift (decode_content file_data);
       mret (Some text))
      (fun e =>
         print stderr (decode_failed file_path e);;
         mret None).

(** ** 3) The checks *)

Definition _verify_answer_file_existence (content : option str) : M bool :=
  if check_answer_file_existence (VERIFICATION_FLOW cfg) then
    if negb (truthy content) then
      print stderr answer_missing;;
      mret false
    else
      print stdout answer_exists;;
      mret true
  else mret true.

Definition _verify_answer_format (content : str) : M bool :=
  if check_answer_format (VERIFICATION_FLOW cfg) then
    let pattern := pattern (content_schema (answer_file (FILES_TO_VERIFY cfg))) in
    if negb (is_match (re_match pattern (strip content))) then
      print stderr format_wrong;;
      mret false
    else
      print stdout format_right;;
      mret true
  else mret true.

Definition _verify_answer_value (content : str) : M bool :=
  if verify_answer_value (VERIFICATION_FLOW cfg) then
    let expected :=
      expected_value (content_schema (answer_file (FILES_TO_VERIFY cfg))) in
    if negb (bool_decide (strip content = expected)) then
      print stderr (value_wrong (strip content));;
      mret false
    else
      print stdout value_right;;
      mret true
  else mret true.

Definition _verify_reference_file (content : option str) : M bool :=
  if check_reference_file (VERIFICATION_FLOW cfg) && negb (truthy content) then
    print stderr reference_missing;;
    mret false
  else
    (if check_reference_file (VERIFICATION_FLOW cfg)
     then print stdout reference_exists
     else mret tt);;
    mret true.

Definition _verify_required_section (content : str) : M bool :=
  if check_section_existence (VERIFICATION_FLOW cfg) then
    let section :=
      required_section (content_checks (reference_file (FILES_TO_VERIFY cfg))) in
    if negb (py_in section content) then
      print stderr section_missing;;
      mret false
    else
      print stdout section_found;;
      mret true
  else mret true.

Definition _verify_required_entries (content : str) : M bool :=
  if check_required_entries (VERIFICATION_FLOW cfg)
     && check_entries (content_checks (reference_file (FILES_TO_VERIFY cfg)))
  then
    let entries :=
      required_entries (content_checks (reference_file (FILES_TO_VERIFY cfg))) in
    all_present ←
      for_each entries
        (fun (entry : str) (all_present : bool) =>
           if negb (py_in entry content) then
             print stderr (entry_missing entry);;
             mret false
           else mret all_present)
        true;
    if (all_present : bool) then
      print stdout entries_complete;;
      mret true
    else
      print stderr entries_incomplete;;
      mret false
  else mret true.

(** ** 4) The main flow *)

(** [check(content) if content else False] *)
Definition guarded (content : option str) (check : str -> M bool) : M bool :=
  match content with
  | Some s => if nonempty s then check s else mret false
  | None => mret false
  end.

(** [all([_verify_answer_file_existence(c),
          _verify_answer_format(c) if c else False,
          _verify_answer_value(c) if c else False])]: the list is built
    first, every element in order, and [all] is taken of it. *)
Definition answer_checks (answer_content : option str) : M bool :=
  a1 ← _verify_answer_file_existence answer_content;
  a2 ← guarded answer_content _verify_answer_format;
  a3 ← guarded answer_content _verify_answer_value;
  mret (forallb id [a1; a2; a3]).

(** [all([_verify_reference_file(c),
          _verify_required_section(c) if c else False,
          _verify_required_entries(c) if c else False])] *)
Definition reference_checks (reference_content : option str) : M bool :=
  r1 ← _verify_reference_file reference_content;
  r2 ← guarded reference_content _verify_required_section;
  r3 ← guarded reference_content _verify_required_entries;
  mret (forallb id [r1; r2; r3]).

Definition run_verification : M bool :=
  print stdout opening;;
  print stdout rule;;
  (* step 1: the environment *)
  print stdout step1;;
  '(github_token, github_org) ← _load_environment;
  if negb (truthy github_token) || negb (truthy github_org) then
    print stderr environment_incomplete;;
    mret false
  else
  let github_token := default [] github_token in
  let github_org := default [] github_org in
  let headers := _build_headers github_token in
  print stdout (environment_loaded github_org);;
  (* step 2: the answer file *)
  print stdout step2;;
  answer_content ←
    _get_file_content (answer_path (answer_file (FILES_TO_VERIFY cfg)))
      headers github_org None;
  answer_ok ← answer_checks answer_content;
  if negb answer_ok then
    print stderr answer_failed;;
    mret false
  else
  (* step 3: the reference file *)
  print stdout step3;;
  reference_content ←
    _get_file_content (reference_path (reference_file (FILES_TO_VERIFY cfg)))
      headers github_org None;
  reference_ok ← reference_checks reference_content;
  if negb reference_ok then
    print stderr reference_failed;;
    mret false
  else
  (* every check passed *)
  print stdout (LF :: rule);;
  print stdout all_passed;;
  print stdout summary_title;;
  print stdout (summary_repo github_org);;
  print stdout summary_branch;;
  print stdout summary_answer;;
  print stdout summary_reference;;
  print stdout rule;;
  mret true.

(** The entry point, [sys.exit(0 if verification_result else 1)]: the exit
    status of the process. An exception that reaches the top level ends the
    process with status 1 (the traceback it prints is not modelled). *)
Definition main (w : World) (st : State) : Z * State :=
  match run_verification w st with
  | (Ret verification_result, st') => (if verification_result then 0 else 1, st')%Z
  | (Raise _, st') => (1%Z, st')
  end.

End Verifier.

(** ** A reference interpreter library

    Instances of the two library interfaces, so that the program can be run
    on concrete inputs. Every theorem below is stated for all instances. *)

Definition in_range (lo hi c : N) : bool := (lo <=? c) && (c <=? hi).

(** [str.isspace]: the white space of Unicode. *)
Definition unicode_space (c : N) : bool :=
  in_range 9 13 c || in_range 28 32 c || (c =? 133) || (c =? 160)
  || (c =? 5760) || in_range 8192 8202 c || in_range 8232 8233 c
  || (c =? 8239) || (c =? 8287) || (c =? 12288).

(** Category Nd, for the scripts of the Basic Multilingual Plane listed
    here: ASCII, Arabic-Indic, extended Arabic-Indic, Devanagari, Bengali,
    Thai and the fullwidth forms. *)
Definition unicode_decimal (c : N) : bool :=
  in_range 48 57 c || in_range 1632 1641 c || in_range 1776 1785 c
  || in_range 2406 2415 c || in_range 2534 2543 c || in_range 3664 3673 c
  || in_range 65296 65305 c.

(** The index of a character in the base64 alphabet. *)
Definition b64_index (c : N) : option N :=
  if in_range 65 90 c then Some (c - 65)
  else if in_range 97 122 c then Some (c - 71)
  else if in_range 48 57 c then Some (c + 4)
  else if c =? 43 then Some 62
  else if c =? 47 then Some 63
  else None.

(** [binascii.a2b_base64] in its default, lenient mode: characters outside
    the alphabet are skipped, and a pad that completes a quad ends the
    input. [quad_pos] counts the characters of the current quad, [leftchar]
    holds its pending bits, [pads] the pads seen in a row, [n] the octets
    produced. *)
Fixpoint a2b_base64 (s : list N) (quad_pos leftchar pads : N) (n : nat)
    : Exc bytes :=
  match s with
  | [] =>
    if quad_pos =? 0 then Ret []
    else if quad_pos =? 1 then
      Raise (Exception "binascii.Error"
               (u "Invalid base64-encoded string: number of data characters ("
                  ++ str_of_nat (n / 3 * 4 + 1)
                  ++ u ") cannot be 1 more than a multiple of 4"))
    else Raise (Exception "binascii.Error" (u "Incorrect padding"))
  | c :: s' =>
    if c =? 61 then
      if (2 <=? quad_pos) && (4 <=? quad_pos + (pads + 1)) then Ret []
      else a2b_base64 s' quad_pos leftchar
             (if 2 <=? quad_pos then pads + 1 else pads) n
    else
      match b64_index c with
      | None => a2b_base64 s' quad_pos leftchar pads n
      | Some v =>
        if quad_pos =? 0 then a2b_base64 s' 1 v 0 n
        else
          let '(octet, pending) :=
            if quad_pos =? 1 then (leftchar * 4 + v / 16, v mod 16)
            else if quad_pos =? 2 then (leftchar * 16 + v / 4, v mod 4)
            else (leftchar * 64 + v, 0) in
          match a2b_base64 s' ((quad_pos + 1) mod 4) pending 0 (S n) with
          | Ret out => Ret (octet :: out)
          | Raise e => Raise e
          end
      end
  end.

(** [base64.b64decode(s)] for a string [s]. *)
Definition base64_b64decode (s : str) : Exc bytes :=
  if forallb (fun c => c <? 128) s then a2b_base64 s 0 0 0 0
  else Raise (Exception "ValueError"
                (u "string argument should contain only ASCII characters")).

Definition continuation (b : N) : bool := in_range 128 191 b.

(** The text of the error is abridged: the offending octet and its position
    are left out. *)
Definition UnicodeDecodeError : exn :=
  Exception "UnicodeDecodeError" (u "'utf-8' codec can't decode bytes").

Definition cons_points (c : N) (r : Exc str) : Exc str :=
  match r with
  | Ret s => Ret (c :: s)
  | Raise e => Raise e
  end.

(** Strict UTF-8: only the well-formed sequences of the Unicode standard
    (no overlong form, no surrogate, nothing above U+10FFFF). *)
Fixpoint utf8_decode (bs : bytes) : Exc str :=
  match bs with
  | [] => Ret []
  | b0 :: r0 =>
    if b0 <? 128 then cons_points b0 (utf8_decode r0)
    else if in_range 194 223 b0 then
      match r0 with
      | b1 :: r1 =>
        if continuation b1
        then cons_points ((b0 - 192) * 64 + (b1 - 128)) (utf8_decode r1)
        else Raise UnicodeDecodeError
      | _ => Raise UnicodeDecodeError
      end
    else if in_range 224 239 b0 then
      match r0 with
      | b1 :: b2 :: r2 =>
        if in_range (if b0 =? 224 then 160 else 128)
                    (if b0 =? 237 then 159 else 191) b1
           && continuation b2
        then cons_points ((b0 - 224) * 4096 + (b1 - 128) * 64 + (b2 - 128))
               (utf8_decode r2)
        else Raise UnicodeDecodeError
      | _ => Raise UnicodeDecodeError
      end
    else if in_range 240 244 b0 then
      match r0 with
      | b1 :: b2 :: b3 :: r3 =>
        if in_range (if b0 =? 240 then 144 else 128)
                    (if b0 =? 244 then 143 else 191) b1
           && continuation b2 && continuation b3
        then cons_points ((b0 - 240) * 262144 + (b1 - 128) * 4096
                            + (b2 - 128) * 64 + (b3 - 128))
               (utf8_decode r3)
        else Raise UnicodeDecodeError
      | _ => Raise UnicodeDecodeError
      end
    else Raise UnicodeDecodeError
  end.

(** [raw.decode(encoding)], for the one encoding the configuration names;
    any other name is reported as unknown. *)
Definition decode_bytes (encoding : str) (raw : bytes) : Exc str :=
  if bool_decide (encoding = u "utf-8") then utf8_decode raw
  else Raise (Exception "LookupError" (u "unknown encoding: " ++ encoding)).

Lemma in_range_above lo hi c : c < lo -> in_range lo hi c = false.
Proof.
  intros Hc. unfold in_range. destruct (N.leb_spec lo c); [lia | reflexivity].
Qed.

Lemma eqb_above c n : c < n -> (c =? n) = false.
Proof. intros Hc. apply N.eqb_neq. lia. Qed.

Lemma unicode_space_ascii c : c < 128 -> unicode_space c = ascii_space c.
Proof.
  intros Hc. unfold unicode_space.
  rewrite !(in_range_above 8192), !(in_range_above 8232) by lia.
  rewrite (eqb_above c 133), (eqb_above c 160), (eqb_above c 5760),
    (eqb_above c 8239), (eqb_above c 8287), (eqb_above c 12288) by lia.
  rewrite !orb_false_r. reflexivity.
Qed.

Lemma unicode_decimal_ascii c : c < 128 -> unicode_decimal c = ascii_digit c.
Proof.
  intros Hc. unfold unicode_decimal.
  rewrite (in_range_above 1632), (in_range_above 1776), (in_range_above 2406),
    (in_range_above 2534), (in_range_above 3664), (in_range_above 65296) by lia.
  rewrite !orb_false_r. reflexivity.
Qed.

Definition reference_unicode : UnicodeDB := {|
  isspace := unicode_space;
  isdecimal := unicode_decimal;
  isspace_ascii := unicode_space_ascii;
  isdecimal_ascii := unicode_decimal_ascii
|}.

Definition reference_codecs : Codecs := {|
  b64decode := base64_b64decode;
  bytes_decode := decode_bytes;
  b64decode_empty := eq_refl;
  bytes_decode_empty := eq_refl
|}.

(** ** Sample surroundings

    A process that has the token in its environment and finds the
    organisation in [.mcp_env], and a remote service that serves the two
    files as the contents API does: a JSON object whose [content] field is
    the file in base64, broken into lines. *)

(** A process that has emitted nothing yet and has an empty environment:
    no token (the organisation still comes from the environment file). *)
Definition the_beginning : State := {| os_environ := ∅; trace := [] |}.

(** The same with the token set. *)

Definition sample_state : State := {|
  os_environ := {[ u "MCP_GITHUB_TOKEN" := u "ghp_example" ]};
  trace := []
|}.

Definition sample_dotenv (path : str) : gmap (list N) (list N) :=
  if bool_decide (path = u ".mcp_env")
  then {[ u "GITHUB_EVAL_ORG" := u "acme" ]}
  else ∅.

Definition file_reply (path content : str) : Reply :=
  Response 200
    (Ret (PDict [ (u "name", PStr path);
                  (u "path", PStr path);
                  (u "encoding", PStr (u "base64"));
                  (u "content", PStr content) ])).

Definition not_found : Reply :=
  Response 404 (Ret (PDict [ (u "message", PStr (u "Not Found")) ])).

Definition sample_url (path : str) : str :=
  u "https://api.github.com/repos/acme/voxel-engine-docs/contents/" ++ path
    ++ u "?ref=main".

(** A service holding the two given replies for the two files. *)
Definition service (answer readme : Reply) (rq : Request) : Reply :=
  if bool_decide (url rq = sample_url (u "ANSWER.md")) then answer
  else if bool_decide (url rq = sample_url (u "README.md")) then readme
  else not_found.

Definition mock (answer readme : Reply) : World := {|
  dotenv_values := sample_dotenv;
  requests_get := service answer readme
|}.

(** [2023-11-15] and a newline. *)
Definition answer_b64 : str := u "MjAyMy0xMS0xNQo=" ++ [LF].

(** [2023-11-16] *)
Definition wrong_answer_b64 : str := u "MjAyMy0xMS0xNg==" ++ [LF].

(** A README with the heading and both entries. *)
Definition readme_b64 : str :=
  u "IyBWb3hlbCBFbmdpbmUgRG9jcwoKIyMgVm94ZWwgRW5naW5lIEltcGxlbWVudGF0aW9uCgotIEMr"
  ++ [LF] ++
  u "KyBWb3hlbCBFbmdpbmUgRnVuZGFtZW50YWxzCi0gVnVsa2FuLWJhc2VkIFZveGVsIFJlbmRlcmlu"
  ++ [LF] ++ u "Zwo=" ++ [LF].

(** The same README without its second entry. *)
Definition short_readme_b64 : str :=
  u "IyBWb3hlbCBFbmdpbmUgRG9jcwoKIyMgVm94ZWwgRW5naW5lIEltcGxlbWVudGF0aW9uCgotIEMr"
  ++ [LF] ++ u "KyBWb3hlbCBFbmdpbmUgRnVuZGFtZW50YWxzCg==" ++ [LF].

(** That shorter README, decoded. *)
Definition short_readme : str :=
  u "# Voxel Engine Docs" ++ [LF; LF] ++ u "## Voxel Engine Implementation"
    ++ [LF; LF] ++ u "- C++ Voxel Engine Fundamentals" ++ [LF].

(** The service with both files as expected. *)
Definition good_world : World :=
  mock (file_reply (u "ANSWER.md") answer_b64)
       (file_reply (u "README.md") readme_b64).

(** [CONFIG] with every check of the verification flow switched off. *)
Definition unchecked : Config := {|
  ENV_CONFIG := ENV_CONFIG CONFIG;
  REPO_CONFIG := REPO_CONFIG CONFIG;
  FILES_TO_VERIFY := FILES_TO_VERIFY CONFIG;
  VERIFICATION_FLOW := {|
    check_answer_file_existence := false;
    check_answer_format := false;
    verify_answer_value := false;
    check_reference_file := false;
    check_section_existence := false;
    check_required_entries := false
  |}
|}.

(** [CONFIG] with [check_entries] switched off in the reference file's
    [content_checks]; the verification flow is left as it is. *)
Definition entries_unchecked : Config := {|
  ENV_CONFIG := ENV_CONFIG CONFIG;
  REPO_CONFIG := REPO_CONFIG CONFIG;
  FILES_TO_VERIFY := {|
    answer_file := answer_file (FILES_TO_VERIFY CONFIG);
    reference_file := {|
      reference_path := u "README.md";
      reference_must_exist := true;
      reference_encoding := u "utf-8";
      content_checks := {|
        required_section := u "## Voxel Engine Implementation";
        required_entries :=
          [u "C++ Voxel Engine Fundamentals"; u "Vulkan-based Voxel Rendering"];
        check_entries := false
      |}
    |}
  |};
  VERIFICATION_FLOW := VERIFICATION_FLOW CONFIG
|}.

(** A service whose answer file holds the wrong date. *)
Definition wrong_answer_world : World :=
  mock (file_reply (u "ANSWER.md") wrong_answer_b64)
       (file_reply (u "README.md") readme_b64).

(** A service whose README lacks its second entry. *)
Definition short_readme_world : World :=
  mock (file_reply (u "ANSWER.md") answer_b64)
       (file_reply (u "README.md") short_readme_b64).

(** A service that has neither file. *)
Definition empty_world : World := mock not_found not_found.

(** A service whose answer file is not base64 ([M] alone is one character
    more than a whole number of quads). *)
Definition garbled_world : World :=
  mock (file_reply (u "ANSWER.md") (u "M")) not_found.

(** A service that answers 200 with an object that has no [content]. *)
Definition contentless_world : World :=
  mock (Response 200 (Ret (PDict [ (u "name", PStr (u "ANSWER.md")) ])))
       not_found.

(** A service that answers the request for the answer file as the contents
    API answers for a directory: with a list of entries. *)
Definition directory_world : World :=
  mock (Response 200
          (Ret (PList [ PDict [ (u "name", PStr (u "notes.txt"));
                                (u "type", PStr (u "file")) ] ])))
       not_found.

(** A service whose reply for the answer file has [null] for [content]. *)
Definition null_content_world : World :=
  mock (Response 200
          (Ret (PDict [ (u "name", PStr (u "ANSWER.md"));
                        (u "content", PNone) ])))
       not_found.

(** A service that sends the answer file in one line of base64, and
    nothing else. *)
Definition bare_world : World :=
  mock (Response 200 (Ret (PDict [ (u "content", PStr (u "MjAyMy0xMS0xNQo=")) ])))
       not_found.


(** ** The vocabulary of the statements *)

(** [m], in the world [w], ends with [r] and emits exactly [out], whatever
    the state of the process it starts in; the environment is left as it
    was. *)
Definition runs {A} (m : M A) (w : World) (r : Exc A) (out : list event)
    : Prop :=
  forall st, m w st = (r, emits st out).

(** [m] returns [a] in the world [w], whatever the state it starts in. *)
Definition returns {A} (m : M A) (w : World) (a : A) : Prop :=
  forall st, fst (m w st) = Ret a.

(** The events a computation added to the trace of [st]. *)
Definition emitted_since (st st' : State) (out : list event) : Prop :=
  trace st' = trace st ++ out.

Definition is_request (e : event) : bool :=
  match e with HttpGet _ => true | Print _ _ => false end.

Definition on_stderr (e : event) : bool :=
  match e with Print stderr _ => true | _ => false end.

(** The request [_get_file_content] sends for [file_path]. *)
Definition contents_request (cfg : Config) (file_path : str)
    (headers : list (str * str)) (org : str) (ref : option str) : Request := {|
  url := u "https://api.github.com/repos/" ++ org ++ u "/"
           ++ repo_name (REPO_CONFIG cfg) ++ u "/"
           ++ (u "contents/" ++ file_path ++ u "?ref="
                 ++ (if truthy ref then default [] ref
                     else target_branch (REPO_CONFIG cfg)));
  headers := headers;
  timeout := repo_timeout (REPO_CONFIG cfg)
|}.

(** The credentials a run finds: the two variables, looked up in the
    environment of the process completed by the environment file. *)
Definition credentials (cfg : Config) (w : World) (st : State)
    : option str * option str :=
  let environ := os_environ st ∪ dotenv_values w (env_file (ENV_CONFIG cfg)) in
  (environ !! github_token_var (ENV_CONFIG cfg),
   environ !! github_org_var (ENV_CONFIG cfg)).

(** The environment after [load_dotenv]. *)
Definition loaded (cfg : Config) (w : World) (st : State)
    : gmap (list N) (list N) :=
  os_environ st ∪ dotenv_values w (env_file (ENV_CONFIG cfg)).

(** The lines [_load_environment] prints about missing variables. *)
Definition loading_messages (cfg : Config) (creds : option str * option str)
    : list event :=
  (if truthy creds.1 then []
   else [Print stderr (variable_missing cfg (github_token_var (ENV_CONFIG cfg)))])
  ++
  (if truthy creds.2 then []
   else [Print stderr (variable_missing cfg (github_org_var (ENV_CONFIG cfg)))]).

(** What a run prints before it reads the credentials. *)
Definition prologue : list event :=
  [Print stdout opening; Print stdout rule; Print stdout step1].

(** The closing summary of a successful run. *)
Definition summary (cfg : Config) (github_org : str) : list event :=
  [Print stdout (LF :: rule); Print stdout all_passed; Print stdout summary_title;
   Print stdout (summary_repo cfg github_org); Print stdout (summary_branch cfg);
   Print stdout (summary_answer cfg); Print stdout (summary_reference cfg);
   Print stdout rule].

(** Four decimal digits, a hyphen, two digits, a hyphen, two digits, and
    nothing else: the texts [^\d{4}-\d{2}-\d{2}$] is meant to accept. *)
Definition date_shaped `{UnicodeDB} (s : str) : Prop :=
  exists y1 y2 y3 y4 m1 m2 d1 d2,
    s = [y1; y2; y3; y4; 45; m1; m2; 45; d1; d2]
    /\ Forall (fun c => isdecimal c = true) [y1; y2; y3; y4; m1; m2; d1; d2].

(** What a check emits and returns: [passing] when it returns [True];
    when it returns [False], lines on standard error only, and at least
    one. It sends no request, and the world makes no difference to it. *)
Definition reports (check : M bool) (passing : list event) : Prop :=
  exists ok out,
    (forall w, runs check w (Ret ok) out)
    /\ existsb is_request out = false
    /\ (ok = true -> out = passing)
    /\ (ok = false -> out <> [] /\ forallb on_stderr out = true).

(** The line of a check that passes, when the check is switched on. *)
Definition passing_line (flag : bool) (text : str) : list event :=
  if flag then [Print stdout text] else [].

(** The lines of the three checks of the answer file when they all pass,
    and of the three checks of the reference file. *)
Definition answer_passed (cfg : Config) : list event :=
  let flow := VERIFICATION_FLOW cfg in
  passing_line (check_answer_file_existence flow) (answer_exists cfg)
  ++ passing_line (check_answer_format flow) (format_right cfg)
  ++ passing_line (verify_answer_value flow) (value_right cfg).

Definition reference_passed (cfg : Config) : list event :=
  let flow := VERIFICATION_FLOW cfg in
  passing_line (check_reference_file flow) (reference_exists cfg)
  ++ passing_line (check_section_existence flow) (section_found cfg)
  ++ passing_line
       (check_required_entries flow
        && check_entries (content_checks (reference_file (FILES_TO_VERIFY cfg))))
       (entries_complete cfg).


Definition requests_sent (out : list event) : list event :=
  List.filter is_request out.

(** [cfg] under another verification flow. *)
Definition with_flow (cfg : Config) (flow : VerificationFlow) : Config := {|
  ENV_CONFIG := ENV_CONFIG cfg;
  REPO_CONFIG := REPO_CONFIG cfg;
  FILES_TO_VERIFY := FILES_TO_VERIFY cfg;
  VERIFICATION_FLOW := flow
|}.

(** Every check that [flow'] switches on is switched on in [flow]. *)
Definition relaxes (flow' flow : VerificationFlow) : Prop :=
  (check_answer_file_existence flow' = true ->
   check_answer_file_existence flow = true)
  /\ (check_answer_format flow' = true -> check_answer_format flow = true)
  /\ (verify_answer_value flow' = true -> verify_answer_value flow = true)
  /\ (check_reference_file flow' = true -> check_reference_file flow = true)
  /\ (check_section_existence flow' = true ->
      check_section_existence flow = true)
  /\ (check_required_entries flow' = true ->
      check_required_entries flow = true).

(** * Proofs *)

(** ** Strings *)

Lemma starts_with_spec needle hay :
  starts_with needle hay = true <-> exists after, hay = needle ++ after.
Proof.
  revert hay. induction needle as [|a needle IH]; intros hay; simpl.
  - split; [intros _; exists hay; reflexivity | reflexivity].
  - destruct hay as [|b hay].
    + split; [discriminate | intros [after Hafter]; discriminate].
    + rewrite andb_true_iff, N.eqb_eq, IH. split.
      * intros [-> [after ->]]. exists after. reflexivity.
      * intros [after Hafter]. injection Hafter as -> ->. eauto.
Qed.

Lemma py_in_spec needle hay : py_in needle hay = true <-> substring needle hay.
Proof.
  unfold substring. induction hay as [|b hay IH]; simpl.
  - rewrite orb_false_r, starts_with_spec. split.
    + intros [after Hafter]. exists [], after. exact Hafter.
    + intros [before [after Hhay]].
      destruct before; [exists after; exact Hhay | discriminate].
  - rewrite orb_true_iff, starts_with_spec, IH. split.
    + intros [[after Hafter] | [before [after Hhay]]].
      * exists [], after. exact Hafter.
      * exists (b :: before), after. rewrite Hhay. reflexivity.
    + intros [before [after Hhay]]. destruct before as [|c before].
      * left. exists after. exact Hhay.
      * right. injection Hhay as _ Hhay. exists before, after. exact Hhay.
Qed.

Lemma py_in_false needle hay : py_in needle hay = false <-> ~ substring needle hay.
Proof.
  rewrite <- py_in_spec. destruct (py_in needle hay); split; congruence.
Qed.

#[global] Instance substring_dec needle hay : Decision (substring needle hay).
Proof.
  refine (cast_if (decide (py_in needle hay = true)));
    by rewrite <- py_in_spec.
Defined.

(** ** States and runs *)

Lemma emits_nil st : emits st [] = st.
Proof. destruct st. unfold emits. simpl. rewrite app_nil_r. reflexivity. Qed.

Lemma emits_app st out1 out2 : emits (emits st out1) out2 = emits st (out1 ++ out2).
Proof. unfold emits. simpl. rewrite app_assoc. reflexivity. Qed.

Lemma runs_det {A} (m : M A) w r1 r2 out1 out2 :
  runs m w r1 out1 -> runs m w r2 out2 -> r1 = r2 /\ out1 = out2.
Proof.
  intros H1 H2. specialize (H1 the_beginning). rewrite (H2 the_beginning) in H1.
  injection H1 as -> Hst. split; [reflexivity | symmetry; exact Hst].
Qed.

Lemma runs_returns {A} (m : M A) w a out : runs m w (Ret a) out -> returns m w a.
Proof. intros Hm st. rewrite Hm. reflexivity. Qed.

Lemma runs_ret {A} (a : A) w : runs (mret a) w (Ret a) [].
Proof. intros st. unfold mret, M_ret. rewrite emits_nil. reflexivity. Qed.

Lemma runs_print f text w : runs (print f text) w (Ret tt) [Print f text].
Proof. intros st. reflexivity. Qed.

Lemma runs_lift {A} (r : Exc A) w : runs (lift r) w r [].
Proof. intros st. unfold lift. rewrite emits_nil. reflexivity. Qed.

Lemma runs_bind {A B} (m : M A) (k : A -> M B) w a r out1 out2 out :
  runs m w (Ret a) out1 -> runs (k a) w r out2 -> out = out1 ++ out2 ->
  runs (m ≫= k) w r out.
Proof.
  intros Hm Hk -> st. unfold mbind, M_bind. rewrite Hm, Hk, emits_app.
  reflexivity.
Qed.

Lemma runs_bind_raise {A B} (m : M A) (k : A -> M B) w e out :
  runs m w (Raise e) out -> runs (m ≫= k) w (Raise e) out.
Proof. intros Hm st. unfold mbind, M_bind. rewrite Hm. reflexivity. Qed.

Lemma runs_try {A} (m : M A) handler w a out :
  runs m w (Ret a) out -> runs (try_except m handler) w (Ret a) out.
Proof. intros Hm st. unfold try_except. rewrite Hm. reflexivity. Qed.

Lemma runs_except {A} (m : M A) handler w e r out1 out2 out :
  runs m w (Raise e) out1 -> runs (handler e) w r out2 -> out = out1 ++ out2 ->
  runs (try_except m handler) w r out.
Proof.
  intros Hm Hh -> st. unfold try_except. rewrite Hm, Hh, emits_app.
  reflexivity.
Qed.

Lemma runs_http_get rq w :
  runs (http_get rq) w
    (match requests_get w rq with
     | Raised e => Raise e
     | Response status body => Ret (status, body)
     end)
    [HttpGet rq].
Proof. intros st. unfold http_get. destruct (requests_get w rq); reflexivity. Qed.

(** Solves a [runs] goal along the structure of the program, once the
    tests it makes have been decided. *)
Ltac run :=
  first
    [ apply runs_ret
    | apply runs_print
    | apply runs_lift
    | eassumption
    | eapply runs_bind; [ run | run | reflexivity ] ].

(** ** The checks, one by one *)

Section Checks.
Context `{UnicodeDB} `{Codecs}.
Variables (cfg : Config) (w : World).

Lemma existence_runs content :
  runs (_verify_answer_file_existence cfg content) w
    (Ret (negb (check_answer_file_existence (VERIFICATION_FLOW cfg))
          || truthy content))
    (if check_answer_file_existence (VERIFICATION_FLOW cfg)
     then [if truthy content then Print stdout (answer_exists cfg)
           else Print stderr (answer_missing cfg)]
     else []).
Proof.
  unfold _verify_answer_file_existence.
  destruct (check_answer_file_existence _), (truthy content); simpl; run.
Qed.

Lemma format_runs content :
  let ok := is_match (re_match (the_pattern cfg) (strip content)) in
  runs (_verify_answer_format cfg content) w
    (Ret (negb (check_answer_format (VERIFICATION_FLOW cfg)) || ok))
    (if check_answer_format (VERIFICATION_FLOW cfg)
     then [if ok then Print stdout (format_right cfg)
           else Print stderr (format_wrong cfg)]
     else []).
Proof.
  unfold _verify_answer_format, the_pattern.
  destruct (check_answer_format _), (is_match _); simpl; run.
Qed.

Lemma value_runs content :
  let ok := bool_decide (strip content = the_expected cfg) in
  runs (_verify_answer_value cfg content) w
    (Ret (negb (verify_answer_value (VERIFICATION_FLOW cfg)) || ok))
    (if verify_answer_value (VERIFICATION_FLOW cfg)
     then [if ok then Print stdout (value_right cfg)
           else Print stderr (value_wrong cfg (strip content))]
     else []).
Proof.
  unfold _verify_answer_value, the_expected.
  destruct (verify_answer_value _), (bool_decide _); simpl; run.
Qed.

Lemma reference_runs content :
  runs (_verify_reference_file cfg content) w
    (Ret (negb (check_reference_file (VERIFICATION_FLOW cfg)) || truthy content))
    (if check_reference_file (VERIFICATION_FLOW cfg)
     then [if truthy content then Print stdout (reference_exists cfg)
           else Print stderr (reference_missing cfg)]
     else []).
Proof.
  unfold _verify_reference_file.
  destruct (check_reference_file _), (truthy content); simpl; run.
Qed.

Lemma section_runs content :
  let ok := py_in (the_section cfg) content in
  runs (_verify_required_section cfg content) w
    (Ret (negb (check_section_existence (VERIFICATION_FLOW cfg)) || ok))
    (if check_section_existence (VERIFICATION_FLOW cfg)
     then [if ok then Print stdout (section_found cfg)
           else Print stderr (section_missing cfg)]
     else []).
Proof.
  unfold _verify_required_section, the_section.
  destruct (check_section_existence _), (py_in _ _); simpl; run.
Qed.

(** The warnings of the loop over the entries: one for each entry that is
    not in the content, in the order of the list. *)
Definition warnings (content : str) (entries : list str) : list event :=
  map (fun entry => Print stderr (entry_missing cfg entry))
      (List.filter (fun entry => negb (py_in entry content)) entries).

Lemma entries_loop content entries all_present :
  runs (for_each entries
          (fun (entry : str) (all_present : bool) =>
             if negb (py_in entry content) then
               print stderr (entry_missing cfg entry);;
               mret false
             else mret all_present)
          all_present) w
    (Ret (all_present && forallb (fun entry => py_in entry content) entries))
    (warnings content entries).
Proof.
  revert all_present. unfold warnings.
  induction entries as [|entry entries IH]; intros all_present; simpl.
  - rewrite andb_true_r. run.
  - destruct (py_in entry content); simpl.
    + eapply runs_bind; [apply runs_ret | apply IH | reflexivity].
    + rewrite andb_false_r.
      eapply runs_bind; [run | apply (IH false) | reflexivity].
Qed.

Lemma entries_runs content :
  let gate :=
    check_required_entries (VERIFICATION_FLOW cfg)
    && check_entries (content_checks (reference_file (FILES_TO_VERIFY cfg))) in
  let ok := forallb (fun entry => py_in entry content) (the_entries cfg) in
  runs (_verify_required_entries cfg content) w
    (Ret (negb gate || ok))
    (if gate
     then warnings content (the_entries cfg)
          ++ [if ok then Print stdout (entries_complete cfg)
              else Print stderr entries_incomplete]
     else []).
Proof.
  unfold _verify_required_entries, the_entries.
  destruct (_ && _); simpl; [|run].
  eapply runs_bind; [apply entries_loop | | reflexivity]. simpl.
  destruct (forallb _ _); run.
Qed.

Lemma guarded_runs content (check : str -> M bool) :
  truthy content = false -> runs (guarded content check) w (Ret false) [].
Proof.
  destruct content as [[|c s]|]; simpl; intros Hc; try discriminate; run.
Qed.

Lemma guarded_present s (check : str -> M bool) :
  nonempty s = true -> guarded (Some s) check = check s.
Proof. intros Hs. simpl. rewrite Hs. reflexivity. Qed.

End Checks.

(** ** Fetching a file *)

Section Fetch.
Context `{UnicodeDB} `{Codecs}.
Variables (cfg : Config) (w : World).
Variables (file_path : str) (headers : list (str * str)) (org : str).
Variable ref : option str.

Let branch : str :=
  if truthy ref then default [] ref else target_branch (REPO_CONFIG cfg).
Let endpoint : str := u "contents/" ++ file_path ++ u "?ref=" ++ branch.
Let rq : Request := contents_request cfg file_path headers org ref.
Let lost : event := Print stderr (file_not_found branch file_path).

Lemma call_raised e :
  requests_get w rq = Raised e ->
  runs (_call_github_api cfg endpoint headers org) w (Ret (false, PNone))
    [HttpGet rq; Print stderr (api_exception endpoint e)].
Proof.
  intros Hreply. pose proof (runs_http_get rq w) as Hget.
  rewrite Hreply in Hget. unfold _call_github_api.
  eapply runs_except; [eapply runs_bind_raise, Hget | run | reflexivity].
Qed.

Lemma call_status status body :
  requests_get w rq = Response status body -> status <> 200%Z ->
  runs (_call_github_api cfg endpoint headers org) w (Ret (false, PNone))
    [HttpGet rq;
     Print stderr (if (status =? 404)%Z then api_not_found endpoint
                   else api_failed endpoint status)].
Proof.
  intros Hreply Hstatus. pose proof (runs_http_get rq w) as Hget.
  rewrite Hreply in Hget. unfold _call_github_api.
  eapply runs_try, runs_bind; [exact Hget | | reflexivity]. simpl.
  destruct (Z.eqb_spec status 200) as [|_]; [contradiction|].
  destruct (status =? 404)%Z; run.
Qed.

Lemma call_unreadable e :
  requests_get w rq = Response 200 (Raise e) ->
  runs (_call_github_api cfg endpoint headers org) w (Ret (false, PNone))
    [HttpGet rq; Print stderr (api_exception endpoint e)].
Proof.
  intros Hreply. pose proof (runs_http_get rq w) as Hget.
  rewrite Hreply in Hget. unfold _call_github_api.
  eapply runs_except;
    [eapply runs_bind;
       [exact Hget | simpl; apply runs_bind_raise, runs_lift | reflexivity]
    | run | reflexivity].
Qed.

Lemma call_success v :
  requests_get w rq = Response 200 (Ret v) ->
  runs (_call_github_api cfg endpoint headers org) w (Ret (true, v)) [HttpGet rq].
Proof.
  intros Hreply. pose proof (runs_http_get rq w) as Hget.
  rewrite Hreply in Hget. unfold _call_github_api.
  eapply runs_try, runs_bind; [exact Hget | | reflexivity]. simpl. run.
Qed.

(** After a call that failed: the one more line, and [None]. *)
Lemma fetch_after_failure out :
  runs (_call_github_api cfg endpoint headers org) w (Ret (false, PNone)) out ->
  runs (_get_file_content cfg file_path headers org ref) w (Ret None)
    (out ++ [lost]).
Proof.
  intros Hcall. unfold _get_file_content. fold branch. fold endpoint.
  eapply runs_bind; [exact Hcall | | reflexivity]. simpl. run.
Qed.

Lemma fetch_raised e :
  requests_get w rq = Raised e ->
  runs (_get_file_content cfg file_path headers org ref) w (Ret None)
    [HttpGet rq; Print stderr (api_exception endpoint e); lost].
Proof. intros Hreply. apply (fetch_after_failure _ (call_raised e Hreply)). Qed.

Lemma fetch_status status body :
  requests_get w rq = Response status body -> status <> 200%Z ->
  runs (_get_file_content cfg file_path headers org ref) w (Ret None)
    [HttpGet rq;
     Print stderr (if (status =? 404)%Z then api_not_found endpoint
                   else api_failed endpoint status);
     lost].
Proof.
  intros Hreply Hstatus.
  apply (fetch_after_failure _ (call_status status body Hreply Hstatus)).
Qed.

Lemma fetch_unreadable e :
  requests_get w rq = Response 200 (Raise e) ->
  runs (_get_file_content cfg file_path headers org ref) w (Ret None)
    [HttpGet rq; Print stderr (api_exception endpoint e); lost].
Proof. intros Hreply. apply (fetch_after_failure _ (call_unreadable e Hreply)). Qed.

Lemma fetch_empty v :
  requests_get w rq = Response 200 (Ret v) -> py_bool v = false ->
  runs (_get_file_content cfg file_path headers org ref) w (Ret None)
    [HttpGet rq; lost].
Proof.
  intros Hreply Hv. unfold _get_file_content. fold branch. fold endpoint.
  eapply runs_bind; [exact (call_success v Hreply) | | reflexivity].
  simpl. rewrite Hv. simpl. run.
Qed.

Lemma fetch_undecodable v e :
  requests_get w rq = Response 200 (Ret v) -> py_bool v = true ->
  decode_content cfg v = Raise e ->
  runs (_get_file_content cfg file_path headers org ref) w (Ret None)
    [HttpGet rq; Print stderr (decode_failed file_path e)].
Proof.
  intros Hreply Hv Hdecode. unfold _get_file_content. fold branch. fold endpoint.
  eapply runs_bind; [exact (call_success v Hreply) | | reflexivity].
  simpl. rewrite Hv. simpl.
  rewrite Hdecode.
  eapply runs_except; [apply runs_bind_raise, runs_lift | run | reflexivity].
Qed.

Lemma fetch_decoded v text :
  requests_get w rq = Response 200 (Ret v) -> py_bool v = true ->
  decode_content cfg v = Ret text ->
  runs (_get_file_content cfg file_path headers org ref) w (Ret (Some text))
    [HttpGet rq].
Proof.
  intros Hreply Hv Hdecode. unfold _get_file_content. fold branch. fold endpoint.
  eapply runs_bind; [exact (call_success v Hreply) | | reflexivity].
  simpl. rewrite Hv. simpl. rewrite Hdecode. apply runs_try. run.
Qed.

(** Whatever the reply, the fetch returns, a text or [None], after its one
    request; everything else it emits goes to standard error, and it emits
    something exactly when it returns [None]. *)
Lemma fetch_total :
  exists content out,
    runs (_get_file_content cfg file_path headers org ref) w (Ret content)
      (HttpGet rq :: out)
    /\ forallb on_stderr out = true
    /\ (content = None <-> out <> []).
Proof.
  destruct (requests_get w rq) as [e | status [v | e]] eqn:Hreply.
  - eexists _, _. split; [apply (fetch_raised e Hreply) | done].
  - destruct (Z.eq_dec status 200%Z) as [-> | Hstatus].
    + destruct (py_bool v) eqn:Hv.
      * destruct (decode_content cfg v) as [text | e] eqn:Hdecode.
        -- eexists _, _. split; [apply (fetch_decoded v text Hreply Hv Hdecode)|].
           done.
        -- eexists _, _. split;
             [apply (fetch_undecodable v e Hreply Hv Hdecode) | done].
      * eexists _, _. split; [apply (fetch_empty v Hreply Hv) | done].
    + eexists _, _. split; [apply (fetch_status status _ Hreply Hstatus) | done].
  - destruct (Z.eq_dec status 200%Z) as [-> | Hstatus].
    + eexists _, _. split; [apply (fetch_unreadable e Hreply) | done].
    + eexists _, _. split; [apply (fetch_status status _ Hreply Hstatus) | done].
Qed.

End Fetch.

(** ** The main flow *)

Lemma runs_at {A} (m : M A) w r out st st' :
  runs m w r out -> st' = emits st out -> m w st = (r, st').
Proof. intros Hm ->. apply Hm. Qed.

Lemma bind_at {A B} (m : M A) (k : A -> M B) w st a st' :
  m w st = (Ret a, st') -> (m ≫= k) w st = k a w st'.
Proof. intros Hm. unfold mbind, M_bind. rewrite Hm. reflexivity. Qed.

Section Orchestrator.
Context `{UnicodeDB} `{Codecs}.
Variables (cfg : Config) (w : World).

Lemma answer_checks_absent content e out :
  truthy content = false ->
  runs (_verify_answer_file_existence cfg content) w (Ret e) out ->
  runs (answer_checks cfg content) w (Ret false) out.
Proof.
  intros Hc He. unfold answer_checks.
  eapply runs_bind; [exact He | | symmetry; apply app_nil_r].
  eapply runs_bind; [apply (guarded_runs w content _ Hc) | | reflexivity].
  eapply runs_bind; [apply (guarded_runs w content _ Hc) | | reflexivity].
  simpl. rewrite andb_false_r. run.
Qed.

Lemma answer_checks_present s e f v out_e out_f out_v :
  nonempty s = true ->
  runs (_verify_answer_file_existence cfg (Some s)) w (Ret e) out_e ->
  runs (_verify_answer_format cfg s) w (Ret f) out_f ->
  runs (_verify_answer_value cfg s) w (Ret v) out_v ->
  runs (answer_checks cfg (Some s)) w (Ret (e && f && v))
    (out_e ++ out_f ++ out_v).
Proof.
  intros Hs He Hf Hv. unfold answer_checks. rewrite !guarded_present by exact Hs.
  eapply runs_bind; [exact He | | reflexivity].
  eapply runs_bind; [exact Hf | | reflexivity].
  eapply runs_bind; [exact Hv | | symmetry; apply app_nil_r].
  simpl. rewrite andb_true_r, andb_assoc. run.
Qed.

Lemma reference_checks_absent content e out :
  truthy content = false ->
  runs (_verify_reference_file cfg content) w (Ret e) out ->
  runs (reference_checks cfg content) w (Ret false) out.
Proof.
  intros Hc He. unfold reference_checks.
  eapply runs_bind; [exact He | | symmetry; apply app_nil_r].
  eapply runs_bind; [apply (guarded_runs w content _ Hc) | | reflexivity].
  eapply runs_bind; [apply (guarded_runs w content _ Hc) | | reflexivity].
  simpl. rewrite andb_false_r. run.
Qed.

Lemma reference_checks_present s e f v out_e out_f out_v :
  nonempty s = true ->
  runs (_verify_reference_file cfg (Some s)) w (Ret e) out_e ->
  runs (_verify_required_section cfg s) w (Ret f) out_f ->
  runs (_verify_required_entries cfg s) w (Ret v) out_v ->
  runs (reference_checks cfg (Some s)) w (Ret (e && f && v))
    (out_e ++ out_f ++ out_v).
Proof.
  intros Hs He Hf Hv. unfold reference_checks.
  rewrite !guarded_present by exact Hs.
  eapply runs_bind; [exact He | | reflexivity].
  eapply runs_bind; [exact Hf | | reflexivity].
  eapply runs_bind; [exact Hv | | symmetry; apply app_nil_r].
  simpl. rewrite andb_true_r, andb_assoc. run.
Qed.

Lemma load_environment_eq st :
  _load_environment cfg w st =
  (Ret (credentials cfg w st),
   {| os_environ := loaded cfg w st;
      trace := trace st ++ loading_messages cfg (credentials cfg w st) |}).
Proof.
  unfold _load_environment, credentials, loading_messages, loaded.
  unfold mbind, M_bind, load_dotenv, environ_get. simpl.
  destruct (truthy _), (truthy _); unfold print, mret, M_ret, emit, emits;
    simpl; rewrite <- ?app_assoc, ?app_nil_r; reflexivity.
Qed.

Lemma load_environment_returns st :
  fst (_load_environment cfg w st) = Ret (credentials cfg w st).
Proof. rewrite load_environment_eq. reflexivity. Qed.

Lemma credentials_emits st out :
  credentials cfg w (emits st out) = credentials cfg w st.
Proof. reflexivity. Qed.

Lemma loaded_emits st out : loaded cfg w (emits st out) = loaded cfg w st.
Proof. reflexivity. Qed.

Lemma run_without_credentials st :
  truthy (credentials cfg w st).1 && truthy (credentials cfg w st).2 = false ->
  run_verification cfg w st =
  (Ret false,
   {| os_environ := loaded cfg w st;
      trace := trace st ++ prologue
                 ++ loading_messages cfg (credentials cfg w st)
                 ++ [Print stderr environment_incomplete] |}).
Proof.
  intros Hcreds. unfold run_verification.
  do 3 (erewrite bind_at; [|apply runs_print]).
  erewrite bind_at; [|apply load_environment_eq].
  rewrite !credentials_emits, !loaded_emits.
  destruct (credentials cfg w st) as [token org]. simpl in Hcreds.
  cbv beta iota. rewrite <- negb_andb, Hcreds. simpl.
  unfold mbind, M_bind, print, mret, M_ret, emit, emits, prologue. simpl.
  rewrite <- !app_assoc. reflexivity.
Qed.

(** Steps through a sequence of binds whose first computations are known. *)
Ltac step :=
  eapply runs_bind;
    [ first [ apply runs_print | eassumption ] | cbv beta | reflexivity ].

Lemma run_answer_failed st token org a out_a out_c :
  credentials cfg w st = (Some token, Some org) ->
  nonempty token = true -> nonempty org = true ->
  runs (_get_file_content cfg (answer_name cfg) (_build_headers cfg token)
          org None) w (Ret a) out_a ->
  runs (answer_checks cfg a) w (Ret false) out_c ->
  run_verification cfg w st =
  (Ret false,
   {| os_environ := loaded cfg w st;
      trace := trace st ++ prologue
                 ++ [Print stdout (environment_loaded cfg org);
                     Print stdout step2]
                 ++ out_a ++ out_c ++ [Print stderr answer_failed] |}).
Proof.
  intros Hcreds Htoken Horg Ha Hc. unfold run_verification.
  do 3 (erewrite bind_at; [|apply runs_print]).
  erewrite bind_at; [|apply load_environment_eq].
  rewrite !credentials_emits, !loaded_emits, Hcreds.
  cbv beta iota. unfold loading_messages. simpl. rewrite Htoken, Horg. simpl.
  eapply runs_at.
  - do 2 step. unfold answer_name in Ha. do 2 step. simpl. run.
  - unfold emits, prologue. simpl. rewrite <- !app_assoc. reflexivity.
Qed.

Lemma run_to_the_end st token org a out_a out_c r out_r ok out_v :
  credentials cfg w st = (Some token, Some org) ->
  nonempty token = true -> nonempty org = true ->
  runs (_get_file_content cfg (answer_name cfg) (_build_headers cfg token)
          org None) w (Ret a) out_a ->
  runs (answer_checks cfg a) w (Ret true) out_c ->
  runs (_get_file_content cfg (reference_name cfg) (_build_headers cfg token)
          org None) w (Ret r) out_r ->
  runs (reference_checks cfg r) w (Ret ok) out_v ->
  run_verification cfg w st =
  (Ret ok,
   {| os_environ := loaded cfg w st;
      trace := trace st ++ prologue
                 ++ [Print stdout (environment_loaded cfg org);
                     Print stdout step2]
                 ++ out_a ++ out_c ++ [Print stdout step3] ++ out_r ++ out_v
                 ++ (if ok then summary cfg org
                     else [Print stderr reference_failed]) |}).
Proof.
  intros Hcreds Htoken Horg Ha Hc Hr Hv. unfold run_verification.
  do 3 (erewrite bind_at; [|apply runs_print]).
  erewrite bind_at; [|apply load_environment_eq].
  rewrite !credentials_emits, !loaded_emits, Hcreds.
  cbv beta iota. unfold loading_messages. simpl. rewrite Htoken, Horg. simpl.
  unfold answer_name in Ha. unfold reference_name in Hr.
  destruct ok; (eapply runs_at;
    [ do 4 step; simpl; do 3 step; simpl
    | unfold emits, prologue, summary; simpl; rewrite <- !app_assoc;
      reflexivity ]).
  - do 8 step. apply runs_ret.
  - step. apply runs_ret.
Qed.

End Orchestrator.

Lemma returns_of_runs {A} (m : M A) w r out a :
  runs m w r out -> returns m w a -> r = Ret a.
Proof.
  intros Hm Ha. specialize (Ha the_beginning). rewrite Hm in Ha. exact Ha.
Qed.

Lemma all_entries_present content entries :
  forallb (fun entry => py_in entry content) entries = true
  <-> Forall (fun entry => substring entry content) entries.
Proof.
  induction entries as [|entry entries IH]; simpl.
  - split; [constructor | reflexivity].
  - rewrite andb_true_iff, py_in_spec, IH. split.
    + intros [Hentry Hentries]. by constructor.
    + intros Hall. inversion Hall; subst. by split.
Qed.

Lemma missing_entries content entries :
  filter (fun entry => ~ substring entry content) entries
  = List.filter (fun entry => negb (py_in entry content)) entries.
Proof.
  induction entries as [|entry entries IH]; [reflexivity|].
  rewrite filter_cons. simpl. rewrite IH.
  destruct (py_in entry content) eqn:Hentry; simpl.
  - apply py_in_spec in Hentry. by rewrite decide_False by tauto.
  - apply py_in_false in Hentry. by rewrite decide_True.
Qed.

Lemma none_missing content entries :
  List.filter (fun entry => negb (py_in entry content)) entries = []
  <-> forallb (fun entry => py_in entry content) entries = true.
Proof.
  induction entries as [|entry entries IH]; simpl; [done|].
  destruct (py_in entry content); simpl; [exact IH | done].
Qed.

Lemma short_readme_missing :
  filter (fun entry => ~ substring entry short_readme) (the_entries CONFIG)
  = [u "Vulkan-based Voxel Rendering"].
Proof. vm_compute. reflexivity. Qed.

(** The three checks of the answer file are combined with "and", behind
    the guard on the content. *)
Lemma answer_checks_true `{UnicodeDB} (cfg : Config) (w : World)
    (content : option str) :
  returns (answer_checks cfg content) w true
  <-> exists s, content = Some s /\ s <> []
      /\ returns (_verify_answer_file_existence cfg content) w true
      /\ returns (_verify_answer_format cfg s) w true
      /\ returns (_verify_answer_value cfg s) w true.
Proof.
  pose proof (existence_runs cfg w content) as He. split.
  - intros Htrue. destruct (truthy content) eqn:Hc.
    + destruct content as [s|]; [|discriminate]. exists s.
      pose proof (format_runs cfg w s) as Hf.
      pose proof (value_runs cfg w s) as Hv. cbv zeta in Hf, Hv.
      pose proof (answer_checks_present cfg w s _ _ _ _ _ _ Hc He Hf Hv) as Hall.
      apply (returns_of_runs _ _ _ _ _ Hall) in Htrue.
      injection Htrue as Htrue. apply andb_true_iff in Htrue as [Htrue Hvalue].
      apply andb_true_iff in Htrue as [Hexists Hformat].
      rewrite Hexists in He. rewrite Hformat in Hf. rewrite Hvalue in Hv.
      split; [reflexivity|]. split; [by destruct s|].
      repeat split; eapply runs_returns; eassumption.
    + pose proof (answer_checks_absent cfg w content _ _ Hc He) as Hall.
      apply (returns_of_runs _ _ _ _ _ Hall) in Htrue. discriminate.
  - intros (s & -> & Hs & Hexists & Hformat & Hvalue).
    assert (nonempty s = true) as Hc by (by destruct s).
    pose proof (format_runs cfg w s) as Hf.
    pose proof (value_runs cfg w s) as Hv. cbv zeta in Hf, Hv.
    apply (returns_of_runs _ _ _ _ _ He) in Hexists.
    apply (returns_of_runs _ _ _ _ _ Hf) in Hformat.
    apply (returns_of_runs _ _ _ _ _ Hv) in Hvalue.
    rewrite Hexists in He. rewrite Hformat in Hf. rewrite Hvalue in Hv.
    eapply runs_returns, (answer_checks_present cfg w s _ _ _ _ _ _ Hc He Hf Hv).
Qed.

(** ** Dates *)

Section Dates.
Context `{UnicodeDB}.

Lemma lstrip_head s c s' : lstrip s = c :: s' -> isspace c = false.
Proof.
  induction s as [|a s IH]; simpl; [discriminate|].
  destruct (isspace a) eqn:Ha; [exact IH|]. intros [= <- _]. exact Ha.
Qed.

Lemma strip_last content s c : strip content = s ++ [c] -> isspace c = false.
Proof.
  unfold strip, rstrip. intros Hstrip.
  apply (f_equal (@rev N)) in Hstrip. rewrite rev_involutive, rev_app_distr in Hstrip.
  simpl in Hstrip. eapply lstrip_head, Hstrip.
Qed.

Lemma isspace_LF : isspace LF = true.
Proof. rewrite isspace_ascii by (unfold LF; lia). reflexivity. Qed.

Lemma lstrip_clean c s : isspace c = false -> lstrip (c :: s) = c :: s.
Proof. intros Hc. simpl. rewrite Hc. reflexivity. Qed.

Lemma strip_clean a s z :
  isspace a = false -> isspace z = false ->
  strip (a :: s ++ [z]) = a :: s ++ [z].
Proof.
  intros Ha Hz. unfold strip, rstrip. rewrite (lstrip_clean a) by exact Ha.
  change (a :: s ++ [z]) with ((a :: s) ++ [z]) at 1.
  rewrite rev_app_distr.
  change (rev [z] ++ rev (a :: s)) with (z :: rev (a :: s)).
  rewrite (lstrip_clean z) by exact Hz.
  change (z :: rev (a :: s)) with (rev [z] ++ rev (a :: s)).
  rewrite <- rev_app_distr, rev_involutive. reflexivity.
Qed.

(** What [re.match] accepts for the pattern: a date, possibly followed by
    one newline (which [$] lets through). *)
Lemma re_match_date s :
  is_match (re_match date_pattern s) = true
  <-> date_shaped s \/ exists s', s = s' ++ [LF] /\ date_shaped s'.
Proof.
  unfold re_match, date_pattern, date_shaped. split.
  - destruct s as [|y1 [|y2 [|y3 [|y4 [|h1 [|m1 [|m2 [|h2 [|d1 [|d2 s]]]]]]]]]];
      simpl; try discriminate;
      repeat (match goal with
              | |- context [isdecimal ?c] => destruct (isdecimal c) eqn:?
              | |- context [?c =? 45] => destruct (N.eqb_spec c 45)
              end; simpl; try discriminate).
    destruct s as [|nl [|? ?]]; simpl; try discriminate.
    + intros _. left. subst. eexists _, _, _, _, _, _, _, _.
      split; [reflexivity|]. repeat constructor; assumption.
    + destruct (N.eqb_spec nl LF) as [->|]; [|discriminate].
      intros _. right. exists [y1; y2; y3; y4; h1; m1; m2; h2; d1; d2].
      split; [reflexivity|]. subst.
      eexists _, _, _, _, _, _, _, _. split; [reflexivity|].
      repeat constructor; assumption.
  - assert (forall s', date_shaped s' ->
              forall tail, at_end tail = true ->
              is_match (match match_items date_pattern 0 (s' ++ tail) with
                        | Some e => Some (take e (s' ++ tail))
                        | None => None
                        end) = true) as Hshape.
    { intros s' (y1 & y2 & y3 & y4 & m1 & m2 & d1 & d2 & -> & Hdigits) tail Htail.
      repeat match goal with
             | Hd : Forall _ (_ :: _) |- _ => inversion Hd; clear Hd; subst
             end.
      unfold date_pattern.
      destruct tail as [|c [|? ?]]; try discriminate; simpl in Htail |- *;
        repeat (match goal with
                | Hd : isdecimal _ = true |- _ => rewrite Hd; clear Hd
                end; simpl);
        rewrite ?Htail; reflexivity. }
    intros [Hs | (s' & -> & Hs)].
    + specialize (Hshape s Hs [] eq_refl). rewrite app_nil_r in Hshape.
      exact Hshape.
    + exact (Hshape s' Hs [LF] eq_refl).
Qed.

(** After [strip] the newline case is gone. *)
Lemma re_match_stripped content :
  is_match (re_match date_pattern (strip content)) = true
  <-> date_shaped (strip content).
Proof.
  rewrite re_match_date. split; [|by left].
  intros [Hs | (s' & Hstrip & _)]; [exact Hs|].
  apply strip_last in Hstrip. rewrite isspace_LF in Hstrip. discriminate.
Qed.

End Dates.

Lemma rendered_date_pattern : render date_pattern = u "^\d{4}-\d{2}-\d{2}$".
Proof. vm_compute. reflexivity. Qed.

Lemma format_right_text :
  format_right CONFIG = u "✅ 验证通过：内容格式正确（匹配 ^\d{4}-\d{2}-\d{2}$）".
Proof. vm_compute. reflexivity. Qed.

Lemma value_wrong_text :
  value_wrong CONFIG (u "2023-11-16")
  = u "❌ 验证失败：内容值不匹配（预期：2023-11-15，实际：2023-11-16）".
Proof. vm_compute. reflexivity. Qed.

Lemma the_day_after `{UnicodeDB} :
  strip (u "2023-11-16") = u "2023-11-16"
  /\ date_shaped (u "2023-11-16")
  /\ u "2023-11-16" <> u "2023-11-15".
Proof.
  assert (u "2023-11-16" = 50 :: [48; 50; 51; 45; 49; 49; 45; 49] ++ [54]) as ->
    by (vm_compute; reflexivity).
  assert (forall c, c < 128 -> ascii_space c = false -> isspace c = false)
    as Hspace by (intros c Hc <-; by apply isspace_ascii).
  assert (forall c, c < 128 -> ascii_digit c = true -> isdecimal c = true)
    as Hdigit by (intros c Hc <-; by apply isdecimal_ascii).
  split; [apply strip_clean; by apply Hspace|]. split.
  - eexists _, _, _, _, _, _, _, _. split; [reflexivity|].
    repeat constructor; by apply Hdigit.
  - vm_compute. discriminate.
Qed.

(** ** What a run depends on *)

(** The three checks of the reference file are combined with "and", behind
    the guard on the content. *)
Lemma reference_checks_true (cfg : Config) (w : World) (content : option str) :
  returns (reference_checks cfg content) w true
  <-> exists s, content = Some s /\ s <> []
      /\ returns (_verify_reference_file cfg content) w true
      /\ returns (_verify_required_section cfg s) w true
      /\ returns (_verify_required_entries cfg s) w true.
Proof.
  pose proof (reference_runs cfg w content) as He. split.
  - intros Htrue. destruct (truthy content) eqn:Hc.
    + destruct content as [s|]; [|discriminate]. exists s.
      pose proof (section_runs cfg w s) as Hf.
      pose proof (entries_runs cfg w s) as Hv. cbv zeta in Hf, Hv.
      pose proof (reference_checks_present cfg w s _ _ _ _ _ _ Hc He Hf Hv)
        as Hall.
      apply (returns_of_runs _ _ _ _ _ Hall) in Htrue.
      injection Htrue as Htrue. apply andb_true_iff in Htrue as [Htrue Hentries].
      apply andb_true_iff in Htrue as [Hexists Hsection].
      rewrite Hexists in He. rewrite Hsection in Hf. rewrite Hentries in Hv.
      split; [reflexivity|]. split; [by destruct s|].
      repeat split; eapply runs_returns; eassumption.
    + pose proof (reference_checks_absent cfg w content _ _ Hc He) as Hall.
      apply (returns_of_runs _ _ _ _ _ Hall) in Htrue. discriminate.
  - intros (s & -> & Hs & Hexists & Hsection & Hentries).
    assert (nonempty s = true) as Hc by (by destruct s).
    pose proof (section_runs cfg w s) as Hf.
    pose proof (entries_runs cfg w s) as Hv. cbv zeta in Hf, Hv.
    apply (returns_of_runs _ _ _ _ _ He) in Hexists.
    apply (returns_of_runs _ _ _ _ _ Hf) in Hsection.
    apply (returns_of_runs _ _ _ _ _ Hv) in Hentries.
    rewrite Hexists in He. rewrite Hsection in Hf. rewrite Hentries in Hv.
    eapply runs_returns,
      (reference_checks_present cfg w s _ _ _ _ _ _ Hc He Hf Hv).
Qed.

(** The checks do not look at the world. *)
Lemma answer_checks_anywhere `{UnicodeDB} (cfg : Config) (content : option str) :
  exists ok out, forall w, runs (answer_checks cfg content) w (Ret ok) out.
Proof.
  destruct (truthy content) eqn:Hc.
  - destruct content as [s|]; [|discriminate]. eexists _, _. intros w.
    eapply answer_checks_present;
      [exact Hc | apply existence_runs | apply format_runs | apply value_runs].
  - eexists _, _. intros w.
    eapply answer_checks_absent; [exact Hc | apply existence_runs].
Qed.

Lemma reference_checks_anywhere (cfg : Config) (content : option str) :
  exists ok out, forall w, runs (reference_checks cfg content) w (Ret ok) out.
Proof.
  destruct (truthy content) eqn:Hc.
  - destruct content as [s|]; [|discriminate]. eexists _, _. intros w.
    eapply reference_checks_present;
      [exact Hc | apply reference_runs | apply section_runs | apply entries_runs].
  - eexists _, _. intros w.
    eapply reference_checks_absent; [exact Hc | apply reference_runs].
Qed.

(** A fetch looks at the world through the reply to its request only. *)
Lemma fetch_depends_on_reply `{Codecs} (cfg : Config) (w1 w2 : World)
    (file_path : str) (headers : list (str * str)) (org : str)
    (ref : option str) content out :
  requests_get w1 (contents_request cfg file_path headers org ref)
  = requests_get w2 (contents_request cfg file_path headers org ref) ->
  runs (_get_file_content cfg file_path headers org ref) w1 (Ret content) out ->
  runs (_get_file_content cfg file_path headers org ref) w2 (Ret content) out.
Proof.
  intros Hsame Hruns.
  assert (forall content' out',
            runs (_get_file_content cfg file_path headers org ref) w1
              (Ret content') out' ->
            runs (_get_file_content cfg file_path headers org ref) w2
              (Ret content') out' ->
            runs (_get_file_content cfg file_path headers org ref) w2
              (Ret content) out) as Hboth.
  { intros content' out' H1 H2.
    destruct (runs_det _ _ _ _ _ _ Hruns H1) as [[= ->] ->]. exact H2. }
  destruct (requests_get w2 _) as [e | status [v | e]] eqn:Hreply.
  - eapply Hboth; eapply fetch_raised; eassumption.
  - destruct (Z.eq_dec status 200%Z) as [-> | Hstatus].
    + destruct (py_bool v) eqn:Hv.
      * destruct (decode_content cfg v) as [text | e] eqn:Hdecode.
        -- eapply Hboth; eapply fetch_decoded; eassumption.
        -- eapply Hboth; eapply fetch_undecodable; eassumption.
      * eapply Hboth; eapply fetch_empty; eassumption.
    + eapply Hboth; eapply fetch_status; eassumption.
  - destruct (Z.eq_dec status 200%Z) as [-> | Hstatus].
    + eapply Hboth; eapply fetch_unreadable; eassumption.
    + eapply Hboth; eapply fetch_status; eassumption.
Qed.

Lemma fetch_anyhow `{Codecs} (cfg : Config) (w : World) (file_path : str)
    (headers : list (str * str)) (org : str) (ref : option str) :
  exists content out,
    runs (_get_file_content cfg file_path headers org ref) w (Ret content) out.
Proof.
  destruct (fetch_total cfg w file_path headers org ref)
    as (content & out & Hruns & _).
  eauto.
Qed.

Lemma credentials_present cfg w st :
  truthy (credentials cfg w st).1 && truthy (credentials cfg w st).2 = true ->
  exists token org,
    credentials cfg w st = (Some token, Some org)
    /\ nonempty token = true /\ nonempty org = true.
Proof.
  destruct (credentials cfg w st) as [[token|] [org|]]; simpl;
    rewrite ?andb_false_r; try discriminate.
  intros [Htoken Horg]%andb_true_iff. eauto.
Qed.

(** The result of a run and what it emits are determined by the
    credentials it finds and by the replies to the two requests it may
    send. *)
Lemma run_verification_depends `{UnicodeDB} `{Codecs} (cfg : Config)
    (w1 w2 : World) (st1 st2 : State) :
  credentials cfg w1 st1 = credentials cfg w2 st2 ->
  (forall token org file_path,
     credentials cfg w1 st1 = (Some token, Some org) ->
     file_path = answer_name cfg \/ file_path = reference_name cfg ->
     let rq :=
       contents_request cfg file_path (_build_headers cfg token) org None in
     requests_get w1 rq = requests_get w2 rq) ->
  exists result out,
    run_verification cfg w1 st1
    = (Ret result,
       {| os_environ := loaded cfg w1 st1; trace := trace st1 ++ out |})
    /\ run_verification cfg w2 st2
       = (Ret result,
          {| os_environ := loaded cfg w2 st2; trace := trace st2 ++ out |}).
Proof.
  intros Hcreds Hreplies.
  destruct (truthy (credentials cfg w1 st1).1
            && truthy (credentials cfg w1 st1).2) eqn:Hfound.
  - destruct (credentials_present _ _ _ Hfound)
      as (token & org & Hcreds1 & Htoken & Horg).
    assert (credentials cfg w2 st2 = (Some token, Some org)) as Hcreds2
      by congruence.
    destruct (fetch_anyhow cfg w1 (answer_name cfg) (_build_headers cfg token)
                org None) as (a & out_a & Ha1).
    pose proof (fetch_depends_on_reply _ _ _ _ _ _ _ _ _
                  (Hreplies _ _ _ Hcreds1 (or_introl eq_refl)) Ha1) as Ha2.
    destruct (answer_checks_anywhere cfg a) as ([|] & out_c & Hc).
    + destruct (fetch_anyhow cfg w1 (reference_name cfg)
                  (_build_headers cfg token) org None) as (r & out_r & Hr1).
      pose proof (fetch_depends_on_reply _ _ _ _ _ _ _ _ _
                    (Hreplies _ _ _ Hcreds1 (or_intror eq_refl)) Hr1) as Hr2.
      destruct (reference_checks_anywhere cfg r) as (ok & out_v & Hv).
      eexists _, _. split.
      * exact (run_to_the_end cfg w1 st1 token org a out_a out_c r out_r ok
                 out_v Hcreds1 Htoken Horg Ha1 (Hc w1) Hr1 (Hv w1)).
      * exact (run_to_the_end cfg w2 st2 token org a out_a out_c r out_r ok
                 out_v Hcreds2 Htoken Horg Ha2 (Hc w2) Hr2 (Hv w2)).
    + eexists _, _. split.
      * exact (run_answer_failed cfg w1 st1 token org a out_a out_c
                 Hcreds1 Htoken Horg Ha1 (Hc w1)).
      * exact (run_answer_failed cfg w2 st2 token org a out_a out_c
                 Hcreds2 Htoken Horg Ha2 (Hc w2)).
  - eexists _, _. split.
    + exact (run_without_credentials cfg w1 st1 Hfound).
    + rewrite Hcreds in Hfound |- *.
      exact (run_without_credentials cfg w2 st2 Hfound).
Qed.

(** A run always returns: it never raises, and it leaves the environment
    completed by the environment file. *)
Lemma run_verification_returns `{UnicodeDB} `{Codecs} (cfg : Config)
    (w : World) (st : State) :
  exists result out,
    run_verification cfg w st
    = (Ret result,
       {| os_environ := loaded cfg w st; trace := trace st ++ out |}).
Proof.
  destruct (run_verification_depends cfg w w st st eq_refl)
    as (result & out & Hrun & _); [reflexivity | eauto].
Qed.

(** Loading the environment file a second time changes nothing. *)
Lemma loaded_twice cfg w st :
  loaded cfg w {| os_environ := loaded cfg w st; trace := trace st |}
  = loaded cfg w st.
Proof.
  unfold loaded. simpl.
  rewrite <- (assoc_L (∪)), (idemp_L (∪)). reflexivity.
Qed.

(** Run again in the state the first run left, the verification returns
    the same result and emits the same events once more. *)
Lemma run_verification_twice `{UnicodeDB} `{Codecs} (cfg : Config)
    (w : World) (st : State) :
  exists result out environ,
    run_verification cfg w st
    = (Ret result, {| os_environ := environ; trace := trace st ++ out |})
    /\ run_verification cfg w
         {| os_environ := environ; trace := trace st ++ out |}
       = (Ret result,
          {| os_environ := environ; trace := (trace st ++ out) ++ out |}).
Proof.
  destruct (run_verification_returns cfg w st) as (result & out & Hrun).
  exists result, out, (loaded cfg w st). split; [exact Hrun|].
  set (st' := {| os_environ := loaded cfg w st; trace := trace st ++ out |}).
  assert (loaded cfg w st' = loaded cfg w st) as Hloaded
    by apply (loaded_twice cfg w st).
  destruct (run_verification_depends cfg w w st st') as (r & o & H1 & H2).
  - unfold credentials. fold (loaded cfg w st) (loaded cfg w st').
    rewrite Hloaded. reflexivity.
  - reflexivity.
  - rewrite Hrun in H1. injection H1 as <- Hout. apply app_inv_head in Hout.
    subst o. rewrite H2, Hloaded. reflexivity.
Qed.

(** What makes a run succeed, for any configuration. *)
Lemma run_verification_true `{UnicodeDB} `{Codecs} (cfg : Config)
    (w : World) (st : State) :
  fst (run_verification cfg w st) = Ret true
  <-> exists token org answer reference,
        credentials cfg w st = (Some token, Some org)
        /\ nonempty token = true /\ nonempty org = true
        /\ returns (_get_file_content cfg (answer_name cfg)
                      (_build_headers cfg token) org None) w (Some answer)
        /\ returns (answer_checks cfg (Some answer)) w true
        /\ returns (_get_file_content cfg (reference_name cfg)
                      (_build_headers cfg token) org None) w (Some reference)
        /\ returns (reference_checks cfg (Some reference)) w true.
Proof.
  split.
  - intros Htrue.
    destruct (truthy (credentials cfg w st).1 && truthy (credentials cfg w st).2)
      eqn:Hfound;
      [|rewrite (run_without_credentials cfg w st Hfound) in Htrue;
        discriminate].
    destruct (credentials_present _ _ _ Hfound)
      as (token & org & Hcreds & Htoken & Horg).
    destruct (fetch_anyhow cfg w (answer_name cfg) (_build_headers cfg token)
                org None) as (a & out_a & Ha).
    destruct (answer_checks_anywhere cfg a) as ([|] & out_c & Hc);
      [|rewrite (run_answer_failed cfg w st token org a out_a out_c
                   Hcreds Htoken Horg Ha (Hc w)) in Htrue; discriminate].
    destruct (fetch_anyhow cfg w (reference_name cfg)
                (_build_headers cfg token) org None) as (r & out_r & Hr).
    destruct (reference_checks_anywhere cfg r) as (ok & out_v & Hv).
    rewrite (run_to_the_end cfg w st token org a out_a out_c r out_r ok out_v
               Hcreds Htoken Horg Ha (Hc w) Hr (Hv w)) in Htrue.
    injection Htrue as ->.
    pose proof (runs_returns _ _ _ _ (Hc w)) as Hanswer.
    pose proof (runs_returns _ _ _ _ (Hv w)) as Hreference.
    destruct (proj1 (answer_checks_true cfg w a) Hanswer) as (answer & -> & _).
    destruct (proj1 (reference_checks_true cfg w r) Hreference)
      as (reference & -> & _).
    exists token, org, answer, reference.
    repeat split; try assumption; eapply runs_returns; eassumption.
  - intros (token & org & answer & reference & Hcreds & Htoken & Horg
            & Ha & Hc & Hr & Hv).
    destruct (fetch_anyhow cfg w (answer_name cfg) (_build_headers cfg token)
                org None) as (a & out_a & Ha').
    apply (returns_of_runs _ _ _ _ _ Ha') in Ha as [= ->].
    destruct (answer_checks_anywhere cfg (Some answer)) as (ok & out_c & Hc').
    apply (returns_of_runs _ _ _ _ _ (Hc' w)) in Hc as [= ->].
    destruct (fetch_anyhow cfg w (reference_name cfg)
                (_build_headers cfg token) org None) as (r & out_r & Hr').
    apply (returns_of_runs _ _ _ _ _ Hr') in Hr as [= ->].
    destruct (reference_checks_anywhere cfg (Some reference))
      as (ok & out_v & Hv').
    apply (returns_of_runs _ _ _ _ _ (Hv' w)) in Hv as [= ->].
    rewrite (run_to_the_end cfg w st token org _ out_a out_c _ out_r true out_v
               Hcreds Htoken Horg Ha' (Hc' w) Hr' (Hv' w)).
    reflexivity.
Qed.

(** A decoding error of either library function is an error of the [try]
    block, whatever else the reply holds. *)
Lemma decode_content_raises `{Codecs} (cfg : Config) d s e :
  assoc (u "content") d = Some (PStr s) ->
  b64decode (remove_char LF s) = Raise e
  \/ (exists raw, b64decode (remove_char LF s) = Ret raw
        /\ bytes_decode (answer_encoding (answer_file (FILES_TO_VERIFY cfg))) raw
           = Raise e) ->
  decode_content cfg (PDict d) = Raise e.
Proof.
  intros Hcontent Herror. unfold decode_content. simpl. rewrite Hcontent. simpl.
  destruct Herror as [-> | (raw & -> & Hraw)]; [reflexivity | exact Hraw].
Qed.

(** ** Calls to the API *)

Section Api.
Variables (cfg : Config) (w : World).
Variables (endpoint : str) (sent : list (str * str)) (org : str).

Let rq : Request := {|
  url := u "https://api.github.com/repos/" ++ org ++ u "/"
           ++ repo_name (REPO_CONFIG cfg) ++ u "/" ++ endpoint;
  headers := sent;
  timeout := repo_timeout (REPO_CONFIG cfg)
|}.

Lemma api_raised e :
  requests_get w rq = Raised e ->
  runs (_call_github_api cfg endpoint sent org) w (Ret (false, PNone))
    [HttpGet rq; Print stderr (api_exception endpoint e)].
Proof.
  intros Hreply. pose proof (runs_http_get rq w) as Hget.
  rewrite Hreply in Hget. unfold _call_github_api.
  eapply runs_except; [eapply runs_bind_raise, Hget | run | reflexivity].
Qed.

Lemma api_status status body :
  requests_get w rq = Response status body -> status <> 200%Z ->
  runs (_call_github_api cfg endpoint sent org) w (Ret (false, PNone))
    [HttpGet rq;
     Print stderr (if (status =? 404)%Z then api_not_found endpoint
                   else api_failed endpoint status)].
Proof.
  intros Hreply Hstatus. pose proof (runs_http_get rq w) as Hget.
  rewrite Hreply in Hget. unfold _call_github_api.
  eapply runs_try, runs_bind; [exact Hget | | reflexivity]. simpl.
  destruct (Z.eqb_spec status 200) as [|_]; [contradiction|].
  destruct (status =? 404)%Z; run.
Qed.

Lemma api_unreadable e :
  requests_get w rq = Response 200 (Raise e) ->
  runs (_call_github_api cfg endpoint sent org) w (Ret (false, PNone))
    [HttpGet rq; Print stderr (api_exception endpoint e)].
Proof.
  intros Hreply. pose proof (runs_http_get rq w) as Hget.
  rewrite Hreply in Hget. unfold _call_github_api.
  eapply runs_except;
    [eapply runs_bind;
       [exact Hget | simpl; apply runs_bind_raise, runs_lift | reflexivity]
    | run | reflexivity].
Qed.

Lemma api_success v :
  requests_get w rq = Response 200 (Ret v) ->
  runs (_call_github_api cfg endpoint sent org) w (Ret (true, v)) [HttpGet rq].
Proof.
  intros Hreply. pose proof (runs_http_get rq w) as Hget.
  rewrite Hreply in Hget. unfold _call_github_api.
  eapply runs_try, runs_bind; [exact Hget | | reflexivity]. simpl. run.
Qed.

End Api.

(** ** Replies of an unexpected shape *)

Lemma decode_content_not_a_dict `{Codecs} (cfg : Config) (v : pyval) :
  (forall d, v <> PDict d) ->
  decode_content cfg v = Raise (AttributeError v "get").
Proof.
  intros Hv. destruct v; try reflexivity. destruct (Hv d eq_refl).
Qed.

Lemma decode_content_not_a_string `{Codecs} (cfg : Config) d (x : pyval) :
  assoc (u "content") d = Some x -> (forall s, x <> PStr s) ->
  decode_content cfg (PDict d) = Raise (AttributeError x "replace").
Proof.
  intros Hcontent Hx. unfold decode_content. simpl. rewrite Hcontent. simpl.
  destruct x; try reflexivity. destruct (Hx s eq_refl).
Qed.

Lemma decode_content_string `{Codecs} (cfg : Config) d (s : str) :
  assoc (u "content") d = Some (PStr s) ->
  decode_content cfg (PDict d)
  = raw ← b64decode (remove_char LF s);
    bytes_decode (answer_encoding (answer_file (FILES_TO_VERIFY cfg))) raw.
Proof.
  intros Hcontent. unfold decode_content. simpl. rewrite Hcontent. reflexivity.
Qed.

Lemma assoc_nonempty k d (x : pyval) : assoc k d = Some x -> py_bool (PDict d) = true.
Proof. destruct d; [discriminate | reflexivity]. Qed.

(** ** White space around the answer *)

Section Padding.
Context `{UnicodeDB}.

Lemma lstrip_blank s : forallb isspace s = true -> lstrip s = [].
Proof.
  induction s as [|c s IH]; simpl; [reflexivity|].
  intros [Hc Hs]%andb_true_iff. rewrite Hc. exact (IH Hs).
Qed.

Lemma lstrip_app s t :
  lstrip (s ++ t) = if forallb isspace s then lstrip t else lstrip s ++ t.
Proof.
  induction s as [|c s IH]; simpl; [reflexivity|].
  destruct (isspace c); simpl; [exact IH | reflexivity].
Qed.

Lemma forallb_rev {A} (f : A -> bool) l : forallb f (rev l) = forallb f l.
Proof.
  induction l as [|a l IH]; simpl; [reflexivity|].
  rewrite forallb_app, IH. simpl. rewrite andb_true_r. apply andb_comm.
Qed.

Lemma rstrip_app s t :
  rstrip (s ++ t) = if forallb isspace t then rstrip s else s ++ rstrip t.
Proof.
  unfold rstrip. rewrite rev_app_distr, lstrip_app, forallb_rev.
  destruct (forallb isspace t); [reflexivity|].
  rewrite rev_app_distr, rev_involutive. reflexivity.
Qed.

(** [strip] does not see white space added on either side. *)
Lemma strip_padding before s after :
  forallb isspace before = true -> forallb isspace after = true ->
  strip (before ++ s ++ after) = strip s.
Proof.
  intros Hbefore Hafter. unfold strip.
  rewrite lstrip_app, Hbefore, lstrip_app.
  destruct (forallb isspace s) eqn:Hs.
  - rewrite (lstrip_blank after Hafter), (lstrip_blank s Hs). reflexivity.
  - rewrite rstrip_app, Hafter. reflexivity.
Qed.

End Padding.

(** ** Substrings *)

Lemma substring_extended needle hay before after :
  substring needle hay -> substring needle (before ++ hay ++ after).
Proof.
  intros (b & a & ->). exists (before ++ b), (a ++ after).
  rewrite <- !app_assoc. reflexivity.
Qed.

Lemma py_in_extended needle hay before after :
  py_in needle hay = true -> py_in needle (before ++ hay ++ after) = true.
Proof. rewrite !py_in_spec. apply substring_extended. Qed.

Lemma all_entries_extended content before after entries :
  forallb (fun entry => py_in entry content) entries = true ->
  forallb (fun entry => py_in entry (before ++ content ++ after)) entries = true.
Proof.
  induction entries as [|entry entries IH]; [reflexivity|]. simpl.
  intros [Hentry Hall]%andb_true_iff.
  rewrite (py_in_extended _ _ before after Hentry). exact (IH Hall).
Qed.

(** ** Lines and requests *)



Lemma requests_sent_app out1 out2 :
  requests_sent (out1 ++ out2) = requests_sent out1 ++ requests_sent out2.
Proof. apply List.filter_app. Qed.

Lemma no_request_sent out : existsb is_request out = false -> requests_sent out = [].
Proof.
  induction out as [|e out IH]; [reflexivity|]. simpl.
  destruct (is_request e); [discriminate | exact IH].
Qed.

Lemma stderr_no_request out : forallb on_stderr out = true -> existsb is_request out = false.
Proof.
  induction out as [|e out IH]; [reflexivity|]. simpl.
  destruct e as [[|] text | rq]; simpl; try discriminate. exact IH.
Qed.

Lemma stderr_at_the_end out line : existsb on_stderr (out ++ [Print stderr line]) = true.
Proof. rewrite existsb_app. apply orb_true_r. Qed.

Lemma passing_line_quiet flag text :
  existsb on_stderr (passing_line flag text) = false
  /\ existsb is_request (passing_line flag text) = false.
Proof. destruct flag; split; reflexivity. Qed.

Lemma answer_passed_quiet cfg :
  existsb on_stderr (answer_passed cfg) = false
  /\ existsb is_request (answer_passed cfg) = false.
Proof.
  unfold answer_passed. cbv zeta. rewrite !existsb_app.
  split; rewrite ?(proj1 (passing_line_quiet _ _)),
           ?(proj2 (passing_line_quiet _ _)); reflexivity.
Qed.

Lemma reference_passed_quiet cfg :
  existsb on_stderr (reference_passed cfg) = false
  /\ existsb is_request (reference_passed cfg) = false.
Proof.
  unfold reference_passed. cbv zeta. rewrite !existsb_app.
  split; rewrite ?(proj1 (passing_line_quiet _ _)),
           ?(proj2 (passing_line_quiet _ _)); reflexivity.
Qed.

Lemma warnings_on_stderr cfg content entries :
  forallb on_stderr (warnings cfg content entries) = true.
Proof.
  unfold warnings. induction entries as [|entry entries IH]; [reflexivity|].
  simpl. destruct (py_in entry content); simpl; exact IH.
Qed.

(** ** What each check reports *)

(** Settles what is left of [reports] once the verdict is known. *)
Ltac verdict :=
  cbv beta iota zeta delta [negb orb passing_line];
  lazymatch goal with
  | |- _ /\ (true = true -> _) /\ _ =>
      split; [reflexivity | split; [intros _; reflexivity | discriminate]]
  | |- _ /\ (false = true -> _) /\ _ =>
      split; [reflexivity
             | split; [discriminate
                      | intros _; split; [discriminate | reflexivity]]]
  end.

Section Reports.
Context `{UnicodeDB} `{Codecs}.
Variable cfg : Config.

Lemma existence_reports content :
  reports (_verify_answer_file_existence cfg content)
    (passing_line (check_answer_file_existence (VERIFICATION_FLOW cfg))
       (answer_exists cfg)).
Proof.
  eexists _, _. split; [intros w; apply existence_runs|].
  destruct (check_answer_file_existence _), (truthy content); verdict.
Qed.

Lemma format_reports content :
  reports (_verify_answer_format cfg content)
    (passing_line (check_answer_format (VERIFICATION_FLOW cfg))
       (format_right cfg)).
Proof.
  eexists _, _. split; [intros w; apply format_runs|].
  destruct (check_answer_format _), (is_match _); verdict.
Qed.

Lemma value_reports content :
  reports (_verify_answer_value cfg content)
    (passing_line (verify_answer_value (VERIFICATION_FLOW cfg))
       (value_right cfg)).
Proof.
  eexists _, _. split; [intros w; apply value_runs|].
  destruct (verify_answer_value _), (bool_decide _); verdict.
Qed.

Lemma reference_reports content :
  reports (_verify_reference_file cfg content)
    (passing_line (check_reference_file (VERIFICATION_FLOW cfg))
       (reference_exists cfg)).
Proof.
  eexists _, _. split; [intros w; apply reference_runs|].
  destruct (check_reference_file _), (truthy content); verdict.
Qed.

Lemma section_reports content :
  reports (_verify_required_section cfg content)
    (passing_line (check_section_existence (VERIFICATION_FLOW cfg))
       (section_found cfg)).
Proof.
  eexists _, _. split; [intros w; apply section_runs|].
  destruct (check_section_existence _), (py_in _ _); verdict.
Qed.

Lemma entries_reports content :
  reports (_verify_required_entries cfg content)
    (passing_line
       (check_required_entries (VERIFICATION_FLOW cfg)
        && check_entries (content_checks (reference_file (FILES_TO_VERIFY cfg))))
       (entries_complete cfg)).
Proof.
  eexists _, _. split; [intros w; apply entries_runs|].
  destruct (_ && _); [|verdict].
  pose proof (warnings_on_stderr cfg content (the_entries cfg)) as Hwarnings.
  destruct (forallb _ (the_entries cfg)) eqn:Hall.
  - apply none_missing in Hall. unfold warnings in *. rewrite Hall.
    change ([] ++ ?l) with l. verdict.
  - cbv beta iota zeta delta [negb orb passing_line].
    split; [|split; [discriminate|intros _; split]].
    + rewrite existsb_app, (stderr_no_request _ Hwarnings). reflexivity.
    + intros [_ Hnil]%app_eq_nil. discriminate.
    + rewrite forallb_app, Hwarnings. reflexivity.
Qed.

(** The three checks of a file together. *)
Lemma answer_checks_cases content :
  exists ok out,
    (forall w, runs (answer_checks cfg content) w (Ret ok) out)
    /\ existsb is_request out = false
    /\ (ok = true -> out = answer_passed cfg).
Proof.
  destruct (existence_reports content) as (e & out_e & He & Hqe & Hpe & _).
  destruct (truthy content) eqn:Hc.
  - destruct content as [s|]; [|discriminate].
    destruct (format_reports s) as (f & out_f & Hf & Hqf & Hpf & _).
    destruct (value_reports s) as (v & out_v & Hv & Hqv & Hpv & _).
    exists (e && f && v), (out_e ++ out_f ++ out_v).
    split; [intros w; apply answer_checks_present; auto|]. split.
    + rewrite !existsb_app, Hqe, Hqf, Hqv. reflexivity.
    + intros [[-> ->]%andb_true_iff ->]%andb_true_iff.
      rewrite Hpe, Hpf, Hpv by reflexivity. reflexivity.
  - exists false, out_e.
    split; [intros w; eapply answer_checks_absent; eauto|].
    split; [exact Hqe | discriminate].
Qed.

Lemma reference_checks_cases content :
  exists ok out,
    (forall w, runs (reference_checks cfg content) w (Ret ok) out)
    /\ existsb is_request out = false
    /\ (ok = true -> out = reference_passed cfg).
Proof.
  destruct (reference_reports content) as (e & out_e & He & Hqe & Hpe & _).
  destruct (truthy content) eqn:Hc.
  - destruct content as [s|]; [|discriminate].
    destruct (section_reports s) as (f & out_f & Hf & Hqf & Hpf & _).
    destruct (entries_reports s) as (v & out_v & Hv & Hqv & Hpv & _).
    exists (e && f && v), (out_e ++ out_f ++ out_v).
    split; [intros w; apply reference_checks_present; auto|]. split.
    + rewrite !existsb_app, Hqe, Hqf, Hqv. reflexivity.
    + intros [[-> ->]%andb_true_iff ->]%andb_true_iff.
      rewrite Hpe, Hpf, Hpv by reflexivity. reflexivity.
  - exists false, out_e.
    split; [intros w; eapply reference_checks_absent; eauto|].
    split; [exact Hqe | discriminate].
Qed.

(** A fetch, seen from two worlds that reply alike, under any headers and
    for any organisation: the same content and the same lines. *)
Lemma fetch_cases (w1 w2 : World) (file_path : str)
    (headers1 headers2 : list (str * str)) (org1 org2 : str) (ref : option str) :
  let rq1 := contents_request cfg file_path headers1 org1 ref in
  let rq2 := contents_request cfg file_path headers2 org2 ref in
  requests_get w1 rq1 = requests_get w2 rq2 ->
  exists content err,
    runs (_get_file_content cfg file_path headers1 org1 ref) w1 (Ret content)
      (HttpGet rq1 :: err)
    /\ runs (_get_file_content cfg file_path headers2 org2 ref) w2 (Ret content)
         (HttpGet rq2 :: err)
    /\ forallb on_stderr err = true
    /\ (content = None <-> err <> []).
Proof.
  cbv zeta. intros Hsame.
  destruct (requests_get w2 _) as [e | status [v | e]] eqn:Hreply.
  - eexists _, _. split; [apply (fetch_raised _ _ _ _ _ _ e Hsame)|].
    split; [apply (fetch_raised _ _ _ _ _ _ e Hreply) | done].
  - destruct (Z.eq_dec status 200%Z) as [-> | Hstatus].
    + destruct (py_bool v) eqn:Hv.
      * destruct (decode_content cfg v) as [text | e] eqn:Hdecode.
        -- eexists _, _.
           split; [apply (fetch_decoded _ _ _ _ _ _ v text Hsame Hv Hdecode)|].
           split; [apply (fetch_decoded _ _ _ _ _ _ v text Hreply Hv Hdecode)|].
           done.
        -- eexists _, _.
           split; [apply (fetch_undecodable _ _ _ _ _ _ v e Hsame Hv Hdecode)|].
           split; [apply (fetch_undecodable _ _ _ _ _ _ v e Hreply Hv Hdecode)|].
           done.
      * eexists _, _. split; [apply (fetch_empty _ _ _ _ _ _ v Hsame Hv)|].
        split; [apply (fetch_empty _ _ _ _ _ _ v Hreply Hv) | done].
    + eexists _, _.
      split; [apply (fetch_status _ _ _ _ _ _ status _ Hsame Hstatus)|].
      split; [apply (fetch_status _ _ _ _ _ _ status _ Hreply Hstatus) | done].
  - destruct (Z.eq_dec status 200%Z) as [-> | Hstatus].
    + eexists _, _. split; [apply (fetch_unreadable _ _ _ _ _ _ e Hsame)|].
      split; [apply (fetch_unreadable _ _ _ _ _ _ e Hreply) | done].
    + eexists _, _.
      split; [apply (fetch_status _ _ _ _ _ _ status _ Hsame Hstatus)|].
      split; [apply (fetch_status _ _ _ _ _ _ status _ Hreply Hstatus) | done].
Qed.

End Reports.

(** ** The shape of a run *)

(** What a run is: it stops for want of credentials, or after the step of
    the answer file, or it goes to the end. *)
Lemma run_verification_cases `{UnicodeDB} `{Codecs} (cfg : Config) (w : World)
    (st : State) :
  (truthy (credentials cfg w st).1 && truthy (credentials cfg w st).2 = false
   /\ run_verification cfg w st
      = (Ret false,
         {| os_environ := loaded cfg w st;
            trace := trace st ++ prologue
                       ++ loading_messages cfg (credentials cfg w st)
                       ++ [Print stderr environment_incomplete] |}))
  \/ exists token org a err_a ok_a out_c,
       let sent := _build_headers cfg token in
       let rq_a := contents_request cfg (answer_name cfg) sent org None in
       let rq_r := contents_request cfg (reference_name cfg) sent org None in
       let start :=
         prologue ++ [Print stdout (environment_loaded cfg org);
                      Print stdout step2] in
       credentials cfg w st = (Some token, Some org)
       /\ nonempty token = true /\ nonempty org = true
       /\ runs (_get_file_content cfg (answer_name cfg) sent org None) w
            (Ret a) (HttpGet rq_a :: err_a)
       /\ forallb on_stderr err_a = true
       /\ (a = None <-> err_a <> [])
       /\ runs (answer_checks cfg a) w (Ret ok_a) out_c
       /\ existsb is_request out_c = false
       /\ (ok_a = true -> out_c = answer_passed cfg)
       /\ ((ok_a = false
            /\ run_verification cfg w st
               = (Ret false,
                  {| os_environ := loaded cfg w st;
                     trace := trace st ++ start ++ (HttpGet rq_a :: err_a)
                                ++ out_c ++ [Print stderr answer_failed] |}))
           \/ (ok_a = true
               /\ exists r err_r ok out_v,
                    runs (_get_file_content cfg (reference_name cfg) sent org
                            None) w (Ret r) (HttpGet rq_r :: err_r)
                    /\ forallb on_stderr err_r = true
                    /\ (r = None <-> err_r <> [])
                    /\ runs (reference_checks cfg r) w (Ret ok) out_v
                    /\ existsb is_request out_v = false
                    /\ (ok = true -> out_v = reference_passed cfg)
                    /\ run_verification cfg w st
                       = (Ret ok,
                          {| os_environ := loaded cfg w st;
                             trace := trace st ++ start
                                        ++ (HttpGet rq_a :: err_a) ++ out_c
                                        ++ [Print stdout step3]
                                        ++ (HttpGet rq_r :: err_r) ++ out_v
                                        ++ (if ok then summary cfg org
                                            else [Print stderr
                                                    reference_failed]) |}))).
Proof.
  destruct (truthy (credentials cfg w st).1 && truthy (credentials cfg w st).2)
    eqn:Hfound;
    [|left; split; [reflexivity | exact (run_without_credentials cfg w st Hfound)]].
  right.
  destruct (credentials_present _ _ _ Hfound)
    as (token & org & Hcreds & Htoken & Horg).
  destruct (fetch_cases cfg w w (answer_name cfg) (_build_headers cfg token)
              (_build_headers cfg token) org org None eq_refl)
    as (a & err_a & Ha & _ & Herr_a & Hnone_a).
  destruct (answer_checks_cases cfg a) as (ok_a & out_c & Hc & Hqc & Hpc).
  exists token, org, a, err_a, ok_a, out_c. cbv zeta.
  do 9 (split; [first [assumption | apply Hc]|]).
  destruct ok_a.
  - right. split; [reflexivity|].
    destruct (fetch_cases cfg w w (reference_name cfg) (_build_headers cfg token)
                (_build_headers cfg token) org org None eq_refl)
      as (r & err_r & Hr & _ & Herr_r & Hnone_r).
    destruct (reference_checks_cases cfg r) as (ok & out_v & Hv & Hqv & Hpv).
    exists r, err_r, ok, out_v.
    do 6 (split; [first [assumption | apply Hv]|]).
    rewrite (run_to_the_end cfg w st token org a _ out_c r _ ok out_v
               Hcreds Htoken Horg Ha (Hc w) Hr (Hv w)).
    rewrite <- !app_assoc. reflexivity.
  - left. split; [reflexivity|].
    rewrite (run_answer_failed cfg w st token org a _ out_c
               Hcreds Htoken Horg Ha (Hc w)).
    rewrite <- !app_assoc. reflexivity.
Qed.

Lemma fetched_quietly (content : option str) (s : str) (err : list event) :
  content = Some s -> (content = None <-> err <> []) -> err = [].
Proof.
  intros -> Hnone. destruct err as [|e err]; [reflexivity|].
  assert (Some s = None) by (by apply Hnone). discriminate.
Qed.

Lemma start_quiet (cfg : Config) (org text : str) :
  existsb on_stderr (prologue ++ [Print stdout (environment_loaded cfg org);
                                  Print stdout text]) = false.
Proof. reflexivity. Qed.

Lemma summary_quiet (cfg : Config) (org : str) :
  existsb on_stderr (summary cfg org) = false.
Proof. reflexivity. Qed.

(** ** Switching checks off *)

Lemma relaxed_check (flag flag' test : bool) :
  (flag' = true -> flag = true) ->
  negb flag || test = true -> negb flag' || test = true.
Proof. destruct flag, flag', test; simpl; intros Hflag; auto. Qed.

Section Relaxed.
Context `{UnicodeDB}.
Variables (cfg : Config) (flow' : VerificationFlow) (w : World).
Hypothesis Hrelaxes : relaxes flow' (VERIFICATION_FLOW cfg).

Lemma existence_relaxed content :
  returns (_verify_answer_file_existence cfg content) w true ->
  returns (_verify_answer_file_existence (with_flow cfg flow') content) w true.
Proof.
  intros Htrue. destruct Hrelaxes as (Hflag & _).
  apply (returns_of_runs _ _ _ _ _ (existence_runs cfg w content)) in Htrue.
  injection Htrue as Htrue.
  pose proof (existence_runs (with_flow cfg flow') w content) as Hruns.
  change (VERIFICATION_FLOW (with_flow cfg flow')) with flow' in Hruns.
  rewrite (relaxed_check _ _ _ Hflag Htrue) in Hruns.
  exact (runs_returns _ _ _ _ Hruns).
Qed.

Lemma format_relaxed content :
  returns (_verify_answer_format cfg content) w true ->
  returns (_verify_answer_format (with_flow cfg flow') content) w true.
Proof.
  intros Htrue. destruct Hrelaxes as (_ & Hflag & _).
  apply (returns_of_runs _ _ _ _ _ (format_runs cfg w content)) in Htrue.
  injection Htrue as Htrue.
  pose proof (format_runs (with_flow cfg flow') w content) as Hruns.
  cbv zeta in Hruns.
  change (VERIFICATION_FLOW (with_flow cfg flow')) with flow' in Hruns.
  change (the_pattern (with_flow cfg flow')) with (the_pattern cfg) in Hruns.
  rewrite (relaxed_check _ _ _ Hflag Htrue) in Hruns.
  exact (runs_returns _ _ _ _ Hruns).
Qed.

Lemma value_relaxed content :
  returns (_verify_answer_value cfg content) w true ->
  returns (_verify_answer_value (with_flow cfg flow') content) w true.
Proof.
  intros Htrue. destruct Hrelaxes as (_ & _ & Hflag & _).
  apply (returns_of_runs _ _ _ _ _ (value_runs cfg w content)) in Htrue.
  injection Htrue as Htrue.
  pose proof (value_runs (with_flow cfg flow') w content) as Hruns.
  cbv zeta in Hruns.
  change (VERIFICATION_FLOW (with_flow cfg flow')) with flow' in Hruns.
  change (the_expected (with_flow cfg flow')) with (the_expected cfg) in Hruns.
  rewrite (relaxed_check _ _ _ Hflag Htrue) in Hruns.
  exact (runs_returns _ _ _ _ Hruns).
Qed.

Lemma reference_relaxed content :
  returns (_verify_reference_file cfg content) w true ->
  returns (_verify_reference_file (with_flow cfg flow') content) w true.
Proof.
  intros Htrue. destruct Hrelaxes as (_ & _ & _ & Hflag & _).
  apply (returns_of_runs _ _ _ _ _ (reference_runs cfg w content)) in Htrue.
  injection Htrue as Htrue.
  pose proof (reference_runs (with_flow cfg flow') w content) as Hruns.
  change (VERIFICATION_FLOW (with_flow cfg flow')) with flow' in Hruns.
  rewrite (relaxed_check _ _ _ Hflag Htrue) in Hruns.
  exact (runs_returns _ _ _ _ Hruns).
Qed.

Lemma section_relaxed content :
  returns (_verify_required_section cfg content) w true ->
  returns (_verify_required_section (with_flow cfg flow') content) w true.
Proof.
  intros Htrue. destruct Hrelaxes as (_ & _ & _ & _ & Hflag & _).
  apply (returns_of_runs _ _ _ _ _ (section_runs cfg w content)) in Htrue.
  injection Htrue as Htrue.
  pose proof (section_runs (with_flow cfg flow') w content) as Hruns.
  cbv zeta in Hruns.
  change (VERIFICATION_FLOW (with_flow cfg flow')) with flow' in Hruns.
  change (the_section (with_flow cfg flow')) with (the_section cfg) in Hruns.
  rewrite (relaxed_check _ _ _ Hflag Htrue) in Hruns.
  exact (runs_returns _ _ _ _ Hruns).
Qed.

Lemma entries_relaxed content :
  returns (_verify_required_entries cfg content) w true ->
  returns (_verify_required_entries (with_flow cfg flow') content) w true.
Proof.
  intros Htrue. destruct Hrelaxes as (_ & _ & _ & _ & _ & Hflag).
  apply (returns_of_runs _ _ _ _ _ (entries_runs cfg w content)) in Htrue.
  injection Htrue as Htrue.
  pose proof (entries_runs (with_flow cfg flow') w content) as Hruns.
  cbv zeta in Hruns.
  change (VERIFICATION_FLOW (with_flow cfg flow')) with flow' in Hruns.
  change (FILES_TO_VERIFY (with_flow cfg flow')) with (FILES_TO_VERIFY cfg)
    in Hruns.
  change (the_entries (with_flow cfg flow')) with (the_entries cfg) in Hruns.
  assert (check_required_entries flow'
          && check_entries
               (content_checks (reference_file (FILES_TO_VERIFY cfg))) = true ->
          check_required_entries (VERIFICATION_FLOW cfg)
          && check_entries
               (content_checks (reference_file (FILES_TO_VERIFY cfg))) = true)
    as Hgate.
  { intros [Hon ->]%andb_true_iff. rewrite (Hflag Hon). reflexivity. }
  rewrite (relaxed_check _ _ _ Hgate Htrue) in Hruns.
  exact (runs_returns _ _ _ _ Hruns).
Qed.

End Relaxed.

(** ** The program at work

    Runs of the program under the reference library, on the sample
    surroundings. *)

Section Examples.
Let run (w : World) (st : State) : Exc bool * State :=
  @run_verification reference_unicode reference_codecs CONFIG w st.
Let diagnostics (st : State) : list event :=
  List.filter on_stderr (trace st).
Let requests (st : State) : list event :=
  List.filter is_request (trace st).
Let fetched (file_path : str) : event :=
  HttpGet (contents_request CONFIG file_path
             (_build_headers CONFIG (u "ghp_example")) (u "acme") None).

Example the_short_readme_decodes :
  @decode_content reference_codecs CONFIG
    (PDict [ (u "content", PStr short_readme_b64) ]) = Ret short_readme.
Proof. vm_compute. reflexivity. Qed.

Example a_good_run :
  fst (run good_world sample_state) = Ret true
  /\ diagnostics (snd (run good_world sample_state)) = []
  /\ requests (snd (run good_world sample_state))
     = [fetched (u "ANSWER.md"); fetched (u "README.md")]
  /\ last (trace (snd (run good_world sample_state))) = Some (Print stdout rule).
Proof. vm_compute. repeat split. Qed.

Example a_wrong_date :
  fst (run wrong_answer_world sample_state) = Ret false
  /\ diagnostics (snd (run wrong_answer_world sample_state))
     = [Print stderr (value_wrong CONFIG (u "2023-11-16"));
        Print stderr answer_failed]
  /\ requests (snd (run wrong_answer_world sample_state))
     = [fetched (u "ANSWER.md")].
Proof. vm_compute. repeat split. Qed.

Example a_missing_entry :
  fst (run short_readme_world sample_state) = Ret false
  /\ diagnostics (snd (run short_readme_world sample_state))
     = [Print stderr (entry_missing CONFIG (u "Vulkan-based Voxel Rendering"));
        Print stderr entries_incomplete;
        Print stderr reference_failed].
Proof. vm_compute. repeat split. Qed.

Example no_answer_file :
  fst (run empty_world sample_state) = Ret false
  /\ diagnostics (snd (run empty_world sample_state))
     = [Print stderr (api_not_found (u "contents/ANSWER.md?ref=main"));
        Print stderr (file_not_found (u "main") (u "ANSWER.md"));
        Print stderr (answer_missing CONFIG);
        Print stderr answer_failed].
Proof. vm_compute. repeat split. Qed.

Example a_garbled_answer :
  diagnostics (snd (run garbled_world sample_state))
  = [Print stderr
       (decode_failed (u "ANSWER.md")
          (Exception "binascii.Error"
             (u "Invalid base64-encoded string: number of data characters (1) cannot be 1 more than a multiple of 4")));
     Print stderr (answer_missing CONFIG);
     Print stderr answer_failed].
Proof. vm_compute. repeat split. Qed.

End Examples.

(** * The claims *)

(** C1. [run_verification] always returns a boolean, and it returns [True]
    exactly when loading the environment yields both credentials (each
    set and not empty), the answer file is fetched and its existence,
    format and value checks all pass, and the reference file is fetched and
    its existence, section and entries checks all pass. The exit status of
    the process is 0 when it returns [True] and 1 when it returns
    [False]. *)
Theorem run_verification_verdict `{UnicodeDB} `{Codecs}
    (w : World) (st : State) :
  let result := fst (run_verification CONFIG w st) in
  let fetch token org file_path :=
    _get_file_content CONFIG file_path (_build_headers CONFIG token) org None in
  (result = Ret true
   <-> exists token org answer reference,
         fst (_load_environment CONFIG w st) = Ret (Some token, Some org)
         /\ token <> [] /\ org <> []
         /\ returns (fetch token org (u "ANSWER.md")) w (Some answer)
         /\ returns (_verify_answer_file_existence CONFIG (Some answer)) w true
         /\ returns (_verify_answer_format CONFIG answer) w true
         /\ returns (_verify_answer_value CONFIG answer) w true
         /\ returns (fetch token org (u "README.md")) w (Some reference)
         /\ returns (_verify_reference_file CONFIG (Some reference)) w true
         /\ returns (_verify_required_section CONFIG reference) w true
         /\ returns (_verify_required_entries CONFIG reference) w true)
  /\ (result = Ret true \/ result = Ret false)
  /\ (result = Ret true -> fst (main CONFIG w st) = 0%Z)
  /\ (result = Ret false -> fst (main CONFIG w st) = 1%Z).
Proof.
  cbv zeta. split; [|split; [|split]].
  - rewrite run_verification_true, load_environment_eq. unfold fst at 1.
    change (answer_name CONFIG) with (u "ANSWER.md").
    change (reference_name CONFIG) with (u "README.md").
    split.
    + intros (token & org & answer & reference & Hcreds & Htoken & Horg
              & Ha & Hc & Hr & Hv).
      apply answer_checks_true in Hc as (s & [= <-] & _ & He & Hf & Hval).
      apply reference_checks_true in Hv as (s & [= <-] & _ & Hx & Hs & Hn).
      exists token, org, answer, reference. rewrite Hcreds.
      repeat split; try assumption; by (intros ->).
    + intros (token & org & answer & reference & Hcreds & Htoken & Horg
              & Ha & He & Hf & Hval & Hr & Hx & Hs & Hn).
      exists token, org, answer, reference.
      split; [congruence|]. split; [by destruct token|].
      split; [by destruct org|]. split; [exact Ha|].
      split; [|split; [exact Hr|]].
      * apply answer_checks_true. exists answer.
        pose proof (returns_of_runs _ _ _ _ _
                      (existence_runs CONFIG w (Some answer)) He) as Hfound.
        repeat split; try assumption. intros ->. discriminate.
      * apply reference_checks_true. exists reference.
        pose proof (returns_of_runs _ _ _ _ _
                      (reference_runs CONFIG w (Some reference)) Hx) as Hfound.
        repeat split; try assumption. intros ->. discriminate.
  - destruct (run_verification_returns CONFIG w st) as ([|] & out & ->);
      [by left | by right].
  - unfold main. destruct (run_verification CONFIG w st) as [result st'].
    simpl. intros ->. reflexivity.
  - unfold main. destruct (run_verification CONFIG w st) as [result st'].
    simpl. intros ->. reflexivity.
Qed.

(** Exit statuses: of a good run, of a run without the files, of a run
    without the token. *)
Lemma run_verification_verdict_witness :
  fst (@main reference_unicode reference_codecs CONFIG good_world sample_state)
  = 0%Z
  /\ fst (@main reference_unicode reference_codecs CONFIG empty_world
            sample_state) = 1%Z
  /\ fst (@main reference_unicode reference_codecs CONFIG good_world
            the_beginning) = 1%Z.
Proof.
  destruct (@run_verification_verdict reference_unicode reference_codecs
              good_world sample_state) as (_ & _ & Hgood & _).
  destruct (@run_verification_verdict reference_unicode reference_codecs
              empty_world sample_state) as (_ & _ & _ & Hempty).
  destruct (@run_verification_verdict reference_unicode reference_codecs
              good_world the_beginning) as (_ & _ & _ & Htokenless).
  split; [|split].
  - apply Hgood. vm_compute. reflexivity.
  - apply Hempty. vm_compute. reflexivity.
  - apply Htokenless. vm_compute. reflexivity.
Defined.

(** C2. [_get_file_content] always returns to its caller, a text or [None],
    and never raises. A 404, any other status than 200, an exception of the
    transport, a body that cannot be read, an empty body and an exception
    while decoding (base64 or text) all give [None], each after a line on
    standard error; [None] is all the caller gets, so it cannot tell these
    apart. *)
Theorem get_file_content_never_raises `{UnicodeDB} `{Codecs}
    (cfg : Config) (w : World) (file_path : str) (headers : list (str * str))
    (org : str) (ref : option str) :
  let fetch := _get_file_content cfg file_path headers org ref in
  let rq := contents_request cfg file_path headers org ref in
  let branch :=
    if truthy ref then default [] ref else target_branch (REPO_CONFIG cfg) in
  let endpoint := u "contents/" ++ file_path ++ u "?ref=" ++ branch in
  let lost := Print stderr (file_not_found branch file_path) in
  (exists content out,
     runs fetch w (Ret content) (HttpGet rq :: out)
     /\ forallb on_stderr out = true
     /\ (content = None <-> out <> []))
  /\ (forall body, requests_get w rq = Response 404 body ->
      runs fetch w (Ret None)
        [HttpGet rq; Print stderr (api_not_found endpoint); lost])
  /\ (forall status body,
      requests_get w rq = Response status body ->
      status <> 200%Z -> status <> 404%Z ->
      runs fetch w (Ret None)
        [HttpGet rq; Print stderr (api_failed endpoint status); lost])
  /\ (forall e, requests_get w rq = Raised e ->
      runs fetch w (Ret None)
        [HttpGet rq; Print stderr (api_exception endpoint e); lost])
  /\ (forall e, requests_get w rq = Response 200 (Raise e) ->
      runs fetch w (Ret None)
        [HttpGet rq; Print stderr (api_exception endpoint e); lost])
  /\ (forall v, requests_get w rq = Response 200 (Ret v) -> py_bool v = false ->
      runs fetch w (Ret None) [HttpGet rq; lost])
  /\ (forall v e, requests_get w rq = Response 200 (Ret v) -> py_bool v = true ->
      decode_content cfg v = Raise e ->
      runs fetch w (Ret None) [HttpGet rq; Print stderr (decode_failed file_path e)])
  /\ (forall d s e, requests_get w rq = Response 200 (Ret (PDict d)) ->
      assoc (u "content") d = Some (PStr s) ->
      b64decode (remove_char LF s) = Raise e
      \/ (exists raw, b64decode (remove_char LF s) = Ret raw
            /\ bytes_decode (answer_encoding (answer_file (FILES_TO_VERIFY cfg)))
                 raw = Raise e) ->
      runs fetch w (Ret None) [HttpGet rq; Print stderr (decode_failed file_path e)]).
Proof.
  cbv zeta. split; [apply fetch_total|].
  split.
  { intros body Hreply.
    pose proof (fetch_status cfg w file_path headers org ref 404%Z body Hreply
                  ltac:(discriminate)) as Hfetch.
    rewrite Z.eqb_refl in Hfetch. exact Hfetch. }
  split.
  { intros status body Hreply H200 H404.
    pose proof (fetch_status _ _ _ _ _ _ status body Hreply H200) as Hfetch.
    destruct (Z.eqb_spec status 404); [contradiction | exact Hfetch]. }
  split; [apply fetch_raised|]. split; [apply fetch_unreadable|].
  split; [apply fetch_empty|]. split; [apply fetch_undecodable|].
  intros d s e Hreply Hcontent Herror.
  eapply fetch_undecodable; [exact Hreply | | by eapply decode_content_raises].
  destruct d; [discriminate | reflexivity].
Qed.

(** A file the service does not have, and a file that is not base64: [None]
    after three events (the request and two lines) and after two. *)
Lemma get_file_content_witness :
  let fetch (w : World) :=
    @_get_file_content reference_codecs CONFIG (u "ANSWER.md")
      (_build_headers CONFIG (u "ghp_example")) (u "acme") None w sample_state in
  fst (fetch empty_world) = Ret None
  /\ length (trace (snd (fetch empty_world))) = 3%nat
  /\ fst (fetch garbled_world) = Ret None
  /\ length (trace (snd (fetch garbled_world))) = 2%nat.
Proof.
  destruct (@get_file_content_never_raises reference_unicode reference_codecs
              CONFIG empty_world (u "ANSWER.md")
              (_build_headers CONFIG (u "ghp_example")) (u "acme") None)
    as (_ & H404 & _).
  destruct (@get_file_content_never_raises reference_unicode reference_codecs
              CONFIG garbled_world (u "ANSWER.md")
              (_build_headers CONFIG (u "ghp_example")) (u "acme") None)
    as (_ & _ & _ & _ & _ & _ & _ & Hdecode).
  cbv beta zeta. rewrite (H404 _ eq_refl sample_state).
  rewrite (Hdecode _ (u "M") _ eq_refl eq_refl (or_introl eq_refl) sample_state).
  repeat split.
Defined.

(** C3. When a credential is missing after the environment is loaded (the
    token, the organisation or both: a variable that is not set, or set to
    the empty string), [run_verification] returns [False]; what it emits is
    its three opening lines, one line for each missing variable and the
    fatal line, so no HTTP request is sent. *)
Theorem missing_credentials_stop_the_run `{UnicodeDB} `{Codecs}
    (cfg : Config) (w : World) (st : State) (token org : option str) :
  fst (_load_environment cfg w st) = Ret (token, org) ->
  truthy token = false \/ truthy org = false ->
  let out := prologue ++ loading_messages cfg (token, org)
               ++ [Print stderr environment_incomplete] in
  run_verification cfg w st
  = (Ret false, {| os_environ := loaded cfg w st; trace := trace st ++ out |})
  /\ loading_messages cfg (token, org) <> []
  /\ forallb on_stderr (loading_messages cfg (token, org)) = true
  /\ existsb is_request out = false.
Proof.
  intros Hload Hmissing. rewrite load_environment_eq in Hload.
  assert (credentials cfg w st = (token, org)) as Hcreds
    by (unfold fst in Hload; congruence).
  clear Hload.
  assert (truthy token && truthy org = false) as Hboth.
  { destruct Hmissing as [-> | ->]; [reflexivity | apply andb_false_r]. }
  cbv zeta. split.
  - rewrite <- Hcreds. apply run_without_credentials. rewrite Hcreds.
    exact Hboth.
  - unfold loading_messages. simpl.
    destruct (truthy token), (truthy org); done.
Qed.

(** A process without the token: the run returns [False] and sends no
    request. *)
Lemma missing_credentials_witness :
  exists out,
    @run_verification reference_unicode reference_codecs CONFIG good_world
      the_beginning
    = (Ret false,
       {| os_environ := {[ u "GITHUB_EVAL_ORG" := u "acme" ]}; trace := out |})
    /\ existsb is_request out = false.
Proof.
  destruct (@missing_credentials_stop_the_run reference_unicode
              reference_codecs CONFIG good_world the_beginning
              None (Some (u "acme")) eq_refl (or_introl eq_refl))
    as (Hrun & _ & _ & Hquiet).
  eexists. split; [etransitivity; [exact Hrun | vm_compute; reflexivity]|].
  exact Hquiet.
Defined.

(** C4. For every content of the answer file: the format check passes
    exactly when the content, once stripped of the white space around it,
    matches the configured pattern [^\d{4}-\d{2}-\d{2}$], that is when it
    is four decimal digits, a hyphen, two digits, a hyphen and two digits;
    the value check passes exactly when the stripped content is the
    configured literal [2023-11-15]. For the content [2023-11-16] the
    format check passes and the value check fails, reporting the expected
    2023-11-15 and the actual 2023-11-16. *)
Theorem answer_format_and_value `{UnicodeDB} (w : World) (content : str) :
  (returns (_verify_answer_format CONFIG content) w true
   <-> is_match (re_match (the_pattern CONFIG) (strip content)) = true)
  /\ render (the_pattern CONFIG) = u "^\d{4}-\d{2}-\d{2}$"
  /\ (is_match (re_match (the_pattern CONFIG) (strip content)) = true
      <-> date_shaped (strip content))
  /\ (returns (_verify_answer_value CONFIG content) w true
      <-> strip content = u "2023-11-15")
  /\ runs (_verify_answer_format CONFIG (u "2023-11-16")) w (Ret true)
       [Print stdout (u "✅ 验证通过：内容格式正确（匹配 ^\d{4}-\d{2}-\d{2}$）")]
  /\ runs (_verify_answer_value CONFIG (u "2023-11-16")) w (Ret false)
       [Print stderr
          (u "❌ 验证失败：内容值不匹配（预期：2023-11-15，实际：2023-11-16）")].
Proof.
  destruct the_day_after as (Hstrip & Hshape & Hdiffer).
  split; [|split; [exact rendered_date_pattern|split; [|split; [|split]]]].
  - pose proof (format_runs CONFIG w content) as Hruns. cbv zeta in Hruns.
    simpl in Hruns. split.
    + intros Htrue. apply (returns_of_runs _ _ _ _ _ Hruns) in Htrue.
      congruence.
    + intros Hmatch. rewrite Hmatch in Hruns. eapply runs_returns, Hruns.
  - apply re_match_stripped.
  - pose proof (value_runs CONFIG w content) as Hruns. cbv zeta in Hruns.
    simpl in Hruns. change (the_expected CONFIG) with (u "2023-11-15") in Hruns.
    split.
    + intros Htrue. apply (returns_of_runs _ _ _ _ _ Hruns) in Htrue.
      injection Htrue as Htrue. by apply bool_decide_eq_true in Htrue.
    + intros Hvalue. rewrite bool_decide_true in Hruns by exact Hvalue.
      eapply runs_returns, Hruns.
  - pose proof (format_runs CONFIG w (u "2023-11-16")) as Hruns.
    cbv zeta in Hruns. simpl in Hruns.
    assert (is_match (re_match date_pattern (strip (u "2023-11-16"))) = true)
      as Hmatch by (apply re_match_stripped; rewrite Hstrip; exact Hshape).
    change (the_pattern CONFIG) with date_pattern in Hruns.
    rewrite Hmatch, format_right_text in Hruns. exact Hruns.
  - pose proof (value_runs CONFIG w (u "2023-11-16")) as Hruns.
    cbv zeta in Hruns. simpl in Hruns.
    change (the_expected CONFIG) with (u "2023-11-15") in Hruns.
    rewrite Hstrip, bool_decide_false, value_wrong_text in Hruns by exact Hdiffer.
    exact Hruns.
Qed.

(** C5. In the answer-file step the three checks are combined with "and":
    the step passes exactly when the content is present (not empty) and the
    existence, format and value checks all return [True]. The guard on the
    content cuts the later checks short: when the existence check fails,
    and whenever the fetched content is absent ([None] or empty), the
    format and the value check do not run, so the step emits what the
    existence check emits and nothing else, and it is false;
    [run_verification] then prints the failure line of the step and
    returns [False]. With the existence check switched on, that check
    returns [False] on absent content and its line is the only one. *)
Theorem answer_step_short_circuit `{UnicodeDB} `{Codecs}
    (cfg : Config) (w : World) (content : option str) :
  let flag := check_answer_file_existence (VERIFICATION_FLOW cfg) in
  let only := if flag then [Print stderr (answer_missing cfg)] else [] in
  (returns (answer_checks cfg content) w true
   <-> exists s, content = Some s /\ s <> []
       /\ returns (_verify_answer_file_existence cfg content) w true
       /\ returns (_verify_answer_format cfg s) w true
       /\ returns (_verify_answer_value cfg s) w true)
  /\ (forall out,
      runs (_verify_answer_file_existence cfg content) w (Ret false) out ->
      truthy content = false
      /\ runs (answer_checks cfg content) w (Ret false) out)
  /\ (truthy content = false ->
      runs (_verify_answer_file_existence cfg content) w (Ret (negb flag)) only
      /\ runs (answer_checks cfg content) w (Ret false) only
      /\ forall st token org out,
           fst (_load_environment cfg w st) = Ret (Some token, Some org) ->
           nonempty token = true -> nonempty org = true ->
           runs (_get_file_content cfg (answer_name cfg)
                   (_build_headers cfg token) org None) w (Ret content) out ->
           run_verification cfg w st
           = (Ret false,
              {| os_environ := loaded cfg w st;
                 trace := trace st ++ prologue
                            ++ [Print stdout (environment_loaded cfg org);
                                Print stdout step2]
                            ++ out ++ only ++ [Print stderr answer_failed] |})).
Proof.
  cbv zeta. split; [apply answer_checks_true|].
  pose proof (existence_runs cfg w content) as He. split.
  - intros out Hfails.
    destruct (runs_det _ _ _ _ _ _ He Hfails) as [[= Hresult] _].
    apply orb_false_iff in Hresult as [_ Hc].
    split; [exact Hc | exact (answer_checks_absent cfg w content _ _ Hc Hfails)].
  - intros Hc. rewrite Hc, orb_false_r in He.
    assert (runs (answer_checks cfg content) w (Ret false)
              (if check_answer_file_existence (VERIFICATION_FLOW cfg)
               then [Print stderr (answer_missing cfg)] else [])) as Hall
      by exact (answer_checks_absent cfg w content _ _ Hc He).
    split; [exact He|]. split; [exact Hall|].
    intros st token org out Hcreds Htoken Horg Hfetch.
    rewrite load_environment_returns in Hcreds.
    assert (credentials cfg w st = (Some token, Some org)) as Hfound
      by congruence.
    exact (run_answer_failed cfg w st token org content out _
             Hfound Htoken Horg Hfetch Hall).
Qed.

(** A run against a service without the answer file: after the first eight
    events come the line of the existence check and the failure line of
    the step, and one request was sent. *)
Lemma answer_step_witness :
  let out :=
    trace (snd (@run_verification reference_unicode reference_codecs CONFIG
                  empty_world sample_state)) in
  fst (@run_verification reference_unicode reference_codecs CONFIG empty_world
         sample_state) = Ret false
  /\ drop 8 out = [Print stderr (answer_missing CONFIG);
                   Print stderr answer_failed]
  /\ filter (fun e => is_request e = true) out
     = [HttpGet (contents_request CONFIG (u "ANSWER.md")
                   (_build_headers CONFIG (u "ghp_example")) (u "acme") None)].
Proof.
  destruct (@answer_step_short_circuit reference_unicode reference_codecs
              CONFIG empty_world None) as (_ & _ & Habsent).
  destruct (Habsent eq_refl) as (_ & _ & Hrun).
  pose proof (@fetch_status reference_codecs CONFIG empty_world (u "ANSWER.md")
                (_build_headers CONFIG (u "ghp_example")) (u "acme") None
                404%Z _ eq_refl ltac:(discriminate)) as H404.
  cbv zeta.
  rewrite (Hrun sample_state (u "ghp_example") (u "acme") _
             ltac:(vm_compute; reflexivity) eq_refl eq_refl H404).
  repeat split.
Defined.

(** C6. With the required-entries check switched on (both flags), for every
    content and every configured list of entries: the check returns [True]
    exactly when every entry is a substring of the content; when some are
    missing it prints one warning for each of them, in the order of the
    list, then the failure line, and returns [False]. The required-section
    check does not depend on it: when the heading is a substring of the
    content it passes, printing its line when it is switched on, and in
    the orchestrator's [all([...])] it runs before the entries check, so
    its line is printed even though the entries check, and with it the
    whole, fails. *)
Theorem required_entries_check (cfg : Config) (w : World) (content : str) :
  check_required_entries (VERIFICATION_FLOW cfg) = true ->
  check_entries (content_checks (reference_file (FILES_TO_VERIFY cfg))) = true ->
  let entries := the_entries cfg in
  let missing := filter (fun entry => ~ substring entry content) entries in
  let warnings :=
    map (fun entry => Print stderr (entry_missing cfg entry)) missing in
  (returns (_verify_required_entries cfg content) w true
   <-> Forall (fun entry => substring entry content) entries)
  /\ (missing = [] ->
      runs (_verify_required_entries cfg content) w (Ret true)
        [Print stdout (entries_complete cfg)])
  /\ (missing <> [] ->
      runs (_verify_required_entries cfg content) w (Ret false)
        (warnings ++ [Print stderr entries_incomplete]))
  /\ (substring (the_section cfg) content ->
      returns (_verify_required_section cfg content) w true
      /\ (check_section_existence (VERIFICATION_FLOW cfg) = true ->
          runs (_verify_required_section cfg content) w (Ret true)
            [Print stdout (section_found cfg)]
          /\ (nonempty content = true -> missing <> [] ->
              runs (reference_checks cfg (Some content)) w (Ret false)
                ((if check_reference_file (VERIFICATION_FLOW cfg)
                  then [Print stdout (reference_exists cfg)] else [])
                 ++ [Print stdout (section_found cfg)]
                 ++ warnings ++ [Print stderr entries_incomplete])))).
Proof.
  intros Hflow Hentries. cbv zeta. rewrite missing_entries.
  pose proof (entries_runs cfg w content) as Hruns. cbv zeta in Hruns.
  rewrite Hflow, Hentries in Hruns. simpl in Hruns.
  fold (warnings cfg content (the_entries cfg)).
  assert (List.filter (fun entry => negb (py_in entry content)) (the_entries cfg)
          <> [] ->
          runs (_verify_required_entries cfg content) w (Ret false)
            (warnings cfg content (the_entries cfg)
               ++ [Print stderr entries_incomplete])) as Hfails.
  { intros Hmissing. rewrite none_missing in Hmissing.
    apply not_true_is_false in Hmissing. rewrite Hmissing in Hruns.
    exact Hruns. }
  split; [|split; [|split; [exact Hfails|]]].
  - rewrite <- all_entries_present. split.
    + intros Htrue. apply (returns_of_runs _ _ _ _ _ Hruns) in Htrue.
      congruence.
    + intros Hall. rewrite Hall in Hruns. eapply runs_returns, Hruns.
  - intros Hnone. unfold warnings in Hruns. rewrite Hnone in Hruns.
    apply none_missing in Hnone. rewrite Hnone in Hruns. exact Hruns.
  - intros Hheading.
    pose proof (section_runs cfg w content) as Hs. cbv zeta in Hs.
    apply py_in_spec in Hheading. rewrite Hheading, orb_true_r in Hs.
    split; [eapply runs_returns, Hs|]. intros Hsection.
    rewrite Hsection in Hs. split; [exact Hs|]. intros Hcontent Hmissing.
    pose proof (reference_runs cfg w (Some content)) as Hr.
    simpl in Hr. rewrite Hcontent, orb_true_r in Hr.
    pose proof (reference_checks_present cfg w content _ _ _ _ _ _
                  Hcontent Hr Hs (Hfails Hmissing)) as Hall.
    destruct (check_reference_file _); exact Hall.
Qed.

(** The README without its second entry: the section line, then one
    warning and the failure line. *)
Lemma required_entries_witness :
  runs (reference_checks CONFIG (Some short_readme)) good_world (Ret false)
    [Print stdout (reference_exists CONFIG);
     Print stdout (section_found CONFIG);
     Print stderr (entry_missing CONFIG (u "Vulkan-based Voxel Rendering"));
     Print stderr entries_incomplete].
Proof.
  destruct (required_entries_check CONFIG good_world short_readme
              eq_refl eq_refl)
    as (_ & _ & _ & Hsection).
  destruct Hsection as [_ Hflag].
  { apply py_in_spec. vm_compute. reflexivity. }
  destruct (Hflag eq_refl) as [_ Hall].
  rewrite short_readme_missing in Hall. apply Hall; [reflexivity | discriminate].
Defined.

(** C7. Each of the six checks, when the flag of the verification flow that
    governs it is false, returns [True] and leaves the state of the process
    as it was (nothing is printed), whatever the content it is given. *)
Theorem disabled_checks_pass_silently `{UnicodeDB} `{Codecs}
    (cfg : Config) (w : World) (st : State) :
  let flow := VERIFICATION_FLOW cfg in
  (check_answer_file_existence flow = false ->
   forall content, _verify_answer_file_existence cfg content w st = (Ret true, st))
  /\ (check_answer_format flow = false ->
      forall content, _verify_answer_format cfg content w st = (Ret true, st))
  /\ (verify_answer_value flow = false ->
      forall content, _verify_answer_value cfg content w st = (Ret true, st))
  /\ (check_reference_file flow = false ->
      forall content, _verify_reference_file cfg content w st = (Ret true, st))
  /\ (check_section_existence flow = false ->
      forall content, _verify_required_section cfg content w st = (Ret true, st))
  /\ (check_required_entries flow = false ->
      forall content, _verify_required_entries cfg content w st = (Ret true, st)).
Proof.
  cbv zeta. repeat split; intros Hflag content.
  - rewrite (existence_runs cfg w content st), Hflag. apply f_equal, emits_nil.
  - rewrite (format_runs cfg w content st), Hflag. apply f_equal, emits_nil.
  - rewrite (value_runs cfg w content st), Hflag. apply f_equal, emits_nil.
  - rewrite (reference_runs cfg w content st), Hflag. apply f_equal, emits_nil.
  - rewrite (section_runs cfg w content st), Hflag. apply f_equal, emits_nil.
  - rewrite (entries_runs cfg w content st), Hflag. apply f_equal, emits_nil.
Qed.

(** The six checks of a configuration with every flag off, on contents that
    would fail each of them. *)
Lemma disabled_checks_witness :
  _verify_answer_file_existence unchecked None good_world sample_state
  = (Ret true, sample_state)
  /\ @_verify_answer_format reference_unicode unchecked (u "yesterday")
       good_world sample_state
     = (Ret true, sample_state)
  /\ @_verify_answer_value reference_unicode unchecked (u "2023-11-16")
       good_world sample_state
     = (Ret true, sample_state)
  /\ _verify_reference_file unchecked None good_world sample_state
     = (Ret true, sample_state)
  /\ _verify_required_section unchecked (u "# Empty") good_world sample_state
     = (Ret true, sample_state)
  /\ _verify_required_entries unchecked (u "# Empty") good_world sample_state
     = (Ret true, sample_state).
Proof.
  destruct (@disabled_checks_pass_silently reference_unicode reference_codecs
              unchecked good_world sample_state)
    as (He & Hf & Hv & Hr & Hs & Hn).
  exact (conj (He eq_refl _) (conj (Hf eq_refl _) (conj (Hv eq_refl _)
          (conj (Hr eq_refl _) (conj (Hs eq_refl _) (Hn eq_refl _)))))).
Defined.

(** C8. Two runs that load the same credentials and get the same replies
    to the two requests a run may send (for the answer file and for the
    reference file) return the same boolean and emit the same events in the
    same order, whatever else differs between the worlds and the states of
    the process they start in. *)
Theorem run_verification_deterministic `{UnicodeDB} `{Codecs} (cfg : Config)
    (w1 w2 : World) (st1 st2 : State) :
  fst (_load_environment cfg w1 st1) = fst (_load_environment cfg w2 st2) ->
  (forall token org file_path,
     fst (_load_environment cfg w1 st1) = Ret (Some token, Some org) ->
     file_path = answer_name cfg \/ file_path = reference_name cfg ->
     let rq :=
       contents_request cfg file_path (_build_headers cfg token) org None in
     requests_get w1 rq = requests_get w2 rq) ->
  exists result out,
    fst (run_verification cfg w1 st1) = Ret result
    /\ fst (run_verification cfg w2 st2) = Ret result
    /\ emitted_since st1 (snd (run_verification cfg w1 st1)) out
    /\ emitted_since st2 (snd (run_verification cfg w2 st2)) out.
Proof.
  rewrite !load_environment_returns. intros Hsame Hreplies.
  assert (credentials cfg w1 st1 = credentials cfg w2 st2) as Hcreds
    by congruence.
  destruct (run_verification_depends cfg w1 w2 st1 st2 Hcreds)
    as (result & out & -> & ->).
  - intros token org file_path Hfound. apply Hreplies. congruence.
  - exists result, out. repeat split.
Qed.

(** The verification run twice in a row in one process. *)
Lemma run_verification_deterministic_witness :
  let run := @run_verification reference_unicode reference_codecs CONFIG
               good_world in
  exists out,
    fst (run sample_state) = Ret true
    /\ fst (run (snd (run sample_state))) = Ret true
    /\ trace (snd (run sample_state)) = out
    /\ trace (snd (run (snd (run sample_state)))) = out ++ out.
Proof.
  cbv zeta.
  destruct (@run_verification_deterministic reference_unicode reference_codecs
              CONFIG good_world good_world sample_state
              (snd (@run_verification reference_unicode reference_codecs
                      CONFIG good_world sample_state)))
    as (result & out & H1 & H2 & H3 & H4).
  - vm_compute. reflexivity.
  - reflexivity.
  - exists out. unfold emitted_since in H3, H4. simpl in H3.
    assert (result = true) as ->.
    { assert (fst (@run_verification reference_unicode reference_codecs CONFIG
                     good_world sample_state) = Ret true) as Hrun
        by (vm_compute; reflexivity).
      congruence. }
    rewrite H4, H3. repeat split; assumption.
Defined.

(** C9. The required-entries check runs only when both
    [VERIFICATION_FLOW.check_required_entries] and the reference file's
    [content_checks.check_entries] are true: when either is false it returns
    [True] and prints nothing, whatever the content, entries missing or
    not. *)
Theorem required_entries_gate (cfg : Config) (w : World) (st : State)
    (content : str) :
  check_required_entries (VERIFICATION_FLOW cfg) = false
  \/ check_entries (content_checks (reference_file (FILES_TO_VERIFY cfg))) = false ->
  _verify_required_entries cfg content w st = (Ret true, st).
Proof.
  intros Hgate. rewrite (entries_runs cfg w content st).
  assert (check_required_entries (VERIFICATION_FLOW cfg)
          && check_entries (content_checks (reference_file (FILES_TO_VERIFY cfg)))
          = false) as ->.
  { destruct Hgate as [-> | ->]; [reflexivity | apply andb_false_r]. }
  apply f_equal, emits_nil.
Qed.

(** A content that lacks both entries passes when only [check_entries] is
    off. *)
Lemma required_entries_gate_witness :
  check_required_entries (VERIFICATION_FLOW entries_unchecked) = true
  /\ Exists (fun entry => ~ substring entry (u "# Empty"))
       (the_entries entries_unchecked)
  /\ _verify_required_entries entries_unchecked (u "# Empty") good_world
       sample_state = (Ret true, sample_state).
Proof.
  split; [reflexivity|]. split.
  - apply Exists_cons_hd. apply py_in_false. reflexivity.
  - apply required_entries_gate. right. reflexivity.
Defined.

(** C10. When the service answers 200 with a non-empty object that has no
    [content] field (and the configured encoding is utf-8),
    [_get_file_content] returns the empty string, not [None], and emits
    nothing but its request; the existence check then treats that empty
    string as it treats [None], and so fails on it when it is switched on. *)
Theorem missing_content_field_reads_as_empty `{UnicodeDB} `{Codecs}
    (cfg : Config) (w : World) (file_path : str) (headers : list (str * str))
    (org : str) (ref : option str) (d : list (str * pyval)) :
  let rq := contents_request cfg file_path headers org ref in
  answer_encoding (answer_file (FILES_TO_VERIFY cfg)) = u "utf-8" ->
  requests_get w rq = Response 200 (Ret (PDict d)) ->
  d <> [] -> assoc (u "content") d = None ->
  runs (_get_file_content cfg file_path headers org ref) w (Ret (Some []))
    [HttpGet rq]
  /\ (forall st,
        _verify_answer_file_existence cfg (Some []) w st
        = _verify_answer_file_existence cfg None w st)
  /\ (check_answer_file_existence (VERIFICATION_FLOW cfg) = true ->
      runs (_verify_answer_file_existence cfg (Some [])) w (Ret false)
        [Print stderr (answer_missing cfg)]).
Proof.
  cbv zeta. intros Hencoding Hreply Hd Hcontent. split; [|split].
  - eapply fetch_decoded; [exact Hreply | by destruct d |].
    unfold decode_content. simpl. rewrite Hcontent. simpl.
    rewrite b64decode_empty. simpl. rewrite Hencoding. apply bytes_decode_empty.
  - reflexivity.
  - intros Hflag. pose proof (existence_runs cfg w (Some [])) as Hruns.
    rewrite Hflag in Hruns. exact Hruns.
Qed.

(** The reply without [content] under the reference library. *)
Lemma missing_content_field_witness :
  runs (@_get_file_content reference_codecs CONFIG (u "ANSWER.md")
          (_build_headers CONFIG (u "ghp_example")) (u "acme") None)
    contentless_world (Ret (Some []))
    [HttpGet (contents_request CONFIG (u "ANSWER.md")
                (_build_headers CONFIG (u "ghp_example")) (u "acme") None)]
  /\ runs (_verify_answer_file_existence CONFIG (Some [])) contentless_world
       (Ret false) [Print stderr (answer_missing CONFIG)].
Proof.
  destruct (@missing_content_field_reads_as_empty reference_unicode
              reference_codecs CONFIG contentless_world (u "ANSWER.md")
              (_build_headers CONFIG (u "ghp_example")) (u "acme") None
              [ (u "name", PStr (u "ANSWER.md")) ]
              eq_refl eq_refl ltac:(discriminate) eq_refl)
    as (Hfetch & _ & Hcheck).
  exact (conj Hfetch (Hcheck eq_refl)).
Defined.

(** * Further properties

    What else the program guarantees, in the order of the source: the
    tools, the checks, the main flow, the configuration. *)




(** X3. [_call_github_api], for any endpoint, sends exactly one request, to
    [https://api.github.com/repos/{org}/{repo_name}/{endpoint}] with the
    headers it is given and the configured timeout, and always returns a
    pair: [(True, body)] exactly when the reply has status 200 and a body
    that parses, and nothing is printed then; in every other case
    [(False, None)] after exactly one line on standard error, which names
    the endpoint and says 404, the other status, or the text of the
    exception (of the transport, or of the parser of a 200 reply). *)
Theorem call_github_api_outcomes (cfg : Config) (w : World) (endpoint : str)
    (headers : list (str * str)) (org : str) :
  let rq := {|
    url := u "https://api.github.com/repos/" ++ org ++ u "/"
             ++ repo_name (REPO_CONFIG cfg) ++ u "/" ++ endpoint;
    headers := headers;
    timeout := repo_timeout (REPO_CONFIG cfg)
  |} in
  let call := _call_github_api cfg endpoint headers org in
  let failed line := runs call w (Ret (false, PNone))
                       [HttpGet rq; Print stderr line] in
  (exists success body out,
     runs call w (Ret (success, body)) (HttpGet rq :: out)
     /\ (success = true
         <-> exists v, requests_get w rq = Response 200 (Ret v))
     /\ (success = true -> out = [])
     /\ (success = false -> body = PNone /\ exists line, out = [Print stderr line]))
  /\ (forall v, requests_get w rq = Response 200 (Ret v) ->
      runs call w (Ret (true, v)) [HttpGet rq])
  /\ (forall body, requests_get w rq = Response 404 body ->
      failed (api_not_found endpoint))
  /\ (forall status body, requests_get w rq = Response status body ->
      status <> 200%Z -> status <> 404%Z ->
      failed (api_failed endpoint status))
  /\ (forall e, requests_get w rq = Raised e ->
      failed (api_exception endpoint e))
  /\ (forall e, requests_get w rq = Response 200 (Raise e) ->
      failed (api_exception endpoint e)).
Proof.
  intros rq call failed. split; [|split; [|split; [|split; [|split]]]].
  - destruct (requests_get w rq) as [e | status [v | e]] eqn:Hreply.
    + exists false, PNone, [Print stderr (api_exception endpoint e)].
      split; [exact (api_raised cfg w endpoint headers org e Hreply)|].
      split; [split; [discriminate | intros [v Hv]; discriminate]|].
      split; [discriminate | eauto].
    + destruct (Z.eq_dec status 200%Z) as [-> | Hstatus].
      * exists true, v, [].
        split; [exact (api_success cfg w endpoint headers org v Hreply)|].
        split; [split; eauto|]. split; [reflexivity | discriminate].
      * eexists false, PNone, [_].
        split; [exact (api_status cfg w endpoint headers org status _ Hreply
                         Hstatus)|].
        split; [split; [discriminate | intros [v' [= ? ?]]; contradiction]|].
        split; [discriminate | eauto].
    + destruct (Z.eq_dec status 200%Z) as [-> | Hstatus].
      * exists false, PNone, [Print stderr (api_exception endpoint e)].
        split; [exact (api_unreadable cfg w endpoint headers org e Hreply)|].
        split; [split; [discriminate | intros [v Hv]; discriminate]|].
        split; [discriminate | eauto].
      * eexists false, PNone, [_].
        split; [exact (api_status cfg w endpoint headers org status _ Hreply
                         Hstatus)|].
        split; [split; [discriminate | intros [v' [= ? ?]]; contradiction]|].
        split; [discriminate | eauto].
  - intros v Hreply. exact (api_success cfg w endpoint headers org v Hreply).
  - intros body Hreply.
    pose proof (api_status cfg w endpoint headers org 404%Z body Hreply) as Hcall.
    rewrite Z.eqb_refl in Hcall. apply Hcall. discriminate.
  - intros status body Hreply H200 H404.
    pose proof (api_status cfg w endpoint headers org status body Hreply H200)
      as Hcall.
    destruct (Z.eqb_spec status 404) as [|_]; [contradiction | exact Hcall].
  - intros e Hreply. exact (api_raised cfg w endpoint headers org e Hreply).
  - intros e Hreply. exact (api_unreadable cfg w endpoint headers org e Hreply).
Qed.

(** X4. [_get_file_content] returns a text exactly in one case: the reply
    has status 200, its body parses to a non-empty object whose [content]
    is a string (or is missing, which reads as the empty string), that
    string without its newlines is accepted by [base64.b64decode], and the
    bytes it gives are accepted by [bytes.decode] under the encoding
    configured for the answer file; the text returned is the decoded one.
    In every other case it returns [None]. *)
Theorem fetch_succeeds_exactly_when `{Codecs} (cfg : Config) (w : World)
    (file_path : str) (headers : list (str * str)) (org : str)
    (ref : option str) (text : str) :
  let fetch := _get_file_content cfg file_path headers org ref in
  let rq := contents_request cfg file_path headers org ref in
  let encoding := answer_encoding (answer_file (FILES_TO_VERIFY cfg)) in
  (returns fetch w (Some text)
   <-> exists d s raw,
         requests_get w rq = Response 200 (Ret (PDict d)) /\ d <> []
         /\ (assoc (u "content") d = Some (PStr s)
             \/ (assoc (u "content") d = None /\ s = []))
         /\ b64decode (remove_char LF s) = Ret raw
         /\ bytes_decode encoding raw = Ret text)
  /\ (returns fetch w None \/ exists decoded, returns fetch w (Some decoded)).
Proof.
  cbv zeta. split; [split|].
  - intros Hreturns.
    destruct (requests_get w _) as [e | status [v | e]] eqn:Hreply.
    + pose proof (fetch_raised cfg w file_path headers org ref e Hreply) as Hf.
      apply (returns_of_runs _ _ _ _ _ Hf) in Hreturns. discriminate.
    + destruct (Z.eq_dec status 200%Z) as [-> | Hstatus].
      2:{ pose proof (fetch_status cfg w file_path headers org ref status _
                        Hreply Hstatus) as Hf.
          apply (returns_of_runs _ _ _ _ _ Hf) in Hreturns. discriminate. }
      destruct (py_bool v) eqn:Hv.
      2:{ pose proof (fetch_empty cfg w file_path headers org ref v Hreply Hv)
            as Hf.
          apply (returns_of_runs _ _ _ _ _ Hf) in Hreturns. discriminate. }
      destruct (decode_content cfg v) as [decoded | e] eqn:Hdecode.
      2:{ pose proof (fetch_undecodable cfg w file_path headers org ref v e
                        Hreply Hv Hdecode) as Hf.
          apply (returns_of_runs _ _ _ _ _ Hf) in Hreturns. discriminate. }
      pose proof (fetch_decoded cfg w file_path headers org ref v decoded
                    Hreply Hv Hdecode) as Hf.
      apply (returns_of_runs _ _ _ _ _ Hf) in Hreturns.
      injection Hreturns as ->.
      destruct v as [| | | | |l|d]; try discriminate Hdecode.
      unfold decode_content in Hdecode. simpl in Hdecode.
      destruct (assoc (u "content") d) as [x|] eqn:Hcontent.
      * destruct x as [| | | |s| |]; try discriminate Hdecode.
        simpl in Hdecode.
        destruct (b64decode (remove_char LF s)) as [raw|] eqn:Hraw;
          [|discriminate].
        exists d, s, raw.
        split; [reflexivity|]. split; [by destruct d|].
        split; [left; exact Hcontent|]. split; [exact Hraw | exact Hdecode].
      * simpl in Hdecode.
        destruct (b64decode _) as [raw|] eqn:Hraw;
          [|discriminate].
        exists d, [], raw.
        split; [reflexivity|]. split; [by destruct d|].
        split; [right; split; [exact Hcontent | reflexivity]|].
        split; [exact Hraw | exact Hdecode].
    + destruct (Z.eq_dec status 200%Z) as [-> | Hstatus].
      * pose proof (fetch_unreadable cfg w file_path headers org ref e Hreply)
          as Hf.
        apply (returns_of_runs _ _ _ _ _ Hf) in Hreturns. discriminate.
      * pose proof (fetch_status cfg w file_path headers org ref status _
                      Hreply Hstatus) as Hf.
        apply (returns_of_runs _ _ _ _ _ Hf) in Hreturns. discriminate.
  - intros (d & s & raw & Hreply & Hd & Hcontent & Hraw & Htext).
    eapply runs_returns, fetch_decoded; [exact Hreply | by destruct d |].
    unfold decode_content. simpl.
    destruct Hcontent as [-> | [-> ->]]; simpl in Hraw |- *; rewrite Hraw;
      exact Htext.
  - destruct (fetch_anyhow cfg w file_path headers org ref)
      as ([decoded|] & out & Hf).
    + right. exists decoded. exact (runs_returns _ _ _ _ Hf).
    + left. exact (runs_returns _ _ _ _ Hf).
Qed.

(** X5. A 200 reply whose body is not the object the program expects is
    reported as a decoding failure of the file, and [_get_file_content]
    returns [None]: a body that is true but not a dict (a list, as the
    contents API sends for a directory; a string; a number) fails at
    [file_data.get], and a dict whose [content] is not a string ([null], a
    number, a list) fails at [.replace]; the line on standard error
    carries the text of that [AttributeError]. *)
Theorem malformed_reply_is_a_decoding_failure `{Codecs} (cfg : Config)
    (w : World) (file_path : str) (headers : list (str * str)) (org : str)
    (ref : option str) :
  let fetch := _get_file_content cfg file_path headers org ref in
  let rq := contents_request cfg file_path headers org ref in
  (forall v, requests_get w rq = Response 200 (Ret v) -> py_bool v = true ->
     (forall d, v <> PDict d) ->
     runs fetch w (Ret None)
       [HttpGet rq;
        Print stderr (decode_failed file_path (AttributeError v "get"))])
  /\ (forall d x, requests_get w rq = Response 200 (Ret (PDict d)) ->
      assoc (u "content") d = Some x -> (forall s, x <> PStr s) ->
      runs fetch w (Ret None)
        [HttpGet rq;
         Print stderr (decode_failed file_path (AttributeError x "replace"))]).
Proof.
  cbv zeta. split.
  - intros v Hreply Hv Hshape.
    eapply fetch_undecodable; [exact Hreply | exact Hv |].
    apply decode_content_not_a_dict, Hshape.
  - intros d x Hreply Hcontent Hshape.
    eapply fetch_undecodable; [exact Hreply | |].
    + exact (assoc_nonempty _ _ _ Hcontent).
    + apply decode_content_not_a_string; assumption.
Qed.

(** A directory where the answer file should be, and an answer file with
    [null] for content: the two lines. *)
Lemma malformed_reply_is_a_decoding_failure_witness :
  let fetch (w : World) :=
    @_get_file_content reference_codecs CONFIG (u "ANSWER.md")
      (_build_headers CONFIG (u "ghp_example")) (u "acme") None w sample_state in
  let rq := contents_request CONFIG (u "ANSWER.md")
              (_build_headers CONFIG (u "ghp_example")) (u "acme") None in
  fetch directory_world
  = (Ret None,
     emits sample_state
       [HttpGet rq;
        Print stderr
          (u "❌ 文件 'ANSWER.md' 解码失败（错误：'list' object has no attribute 'get'）")])
  /\ fetch null_content_world
     = (Ret None,
        emits sample_state
          [HttpGet rq;
           Print stderr
             (u "❌ 文件 'ANSWER.md' 解码失败（错误：'NoneType' object has no attribute 'replace'）")]).
Proof.
  destruct (@malformed_reply_is_a_decoding_failure reference_codecs CONFIG
              directory_world (u "ANSWER.md")
              (_build_headers CONFIG (u "ghp_example")) (u "acme") None)
    as [Hlist _].
  destruct (@malformed_reply_is_a_decoding_failure reference_codecs CONFIG
              null_content_world (u "ANSWER.md")
              (_build_headers CONFIG (u "ghp_example")) (u "acme") None)
    as [_ Hnull].
  cbv beta zeta. split.
  - rewrite (Hlist _ eq_refl eq_refl ltac:(discriminate) sample_state).
    vm_compute. reflexivity.
  - rewrite (Hnull _ PNone eq_refl eq_refl ltac:(discriminate) sample_state).
    vm_compute. reflexivity.
Defined.

(** X6. Of a 200 reply that is an object with a string for [content],
    [_get_file_content] reads that field and nothing else, and it does not
    see the line breaks in it: two replies whose [content] fields are equal
    once the newlines are removed give the same result and the same
    diagnostics, whatever their other fields ([encoding], [size], ...)
    hold. The result is the text that [base64.b64decode] and then
    [bytes.decode], under the encoding configured for the answer file,
    make of the field without its newlines, and [None] when either
    raises. *)
Theorem fetch_reads_the_content_only `{Codecs} (cfg : Config) (w1 w2 : World)
    (file_path : str) (headers : list (str * str)) (org : str)
    (ref : option str) (d1 d2 : list (str * pyval)) (s1 s2 : str) :
  let fetch := _get_file_content cfg file_path headers org ref in
  let rq := contents_request cfg file_path headers org ref in
  let encoding := answer_encoding (answer_file (FILES_TO_VERIFY cfg)) in
  requests_get w1 rq = Response 200 (Ret (PDict d1)) ->
  requests_get w2 rq = Response 200 (Ret (PDict d2)) ->
  assoc (u "content") d1 = Some (PStr s1) ->
  assoc (u "content") d2 = Some (PStr s2) ->
  remove_char LF s1 = remove_char LF s2 ->
  exists content out,
    runs fetch w1 (Ret content) out
    /\ runs fetch w2 (Ret content) out
    /\ content = match raw ← b64decode (remove_char LF s1);
                       bytes_decode encoding raw with
                 | Ret text => Some text
                 | Raise _ => None
                 end.
Proof.
  cbv zeta. intros Hreply1 Hreply2 Hcontent1 Hcontent2 Hsame.
  pose proof (decode_content_string cfg d1 s1 Hcontent1) as Hdecode1.
  pose proof (decode_content_string cfg d2 s2 Hcontent2) as Hdecode2.
  rewrite <- Hsame in Hdecode2. rewrite <- Hdecode1 in Hdecode2 |- *.
  pose proof (assoc_nonempty _ _ _ Hcontent1) as Hd1.
  pose proof (assoc_nonempty _ _ _ Hcontent2) as Hd2.
  destruct (decode_content cfg (PDict d1)) as [text | e] eqn:Hdecode.
  - eexists _, _. split; [|split; [|reflexivity]].
    + exact (fetch_decoded cfg w1 file_path headers org ref _ text Hreply1 Hd1
               Hdecode).
    + exact (fetch_decoded cfg w2 file_path headers org ref _ text Hreply2 Hd2
               Hdecode2).
  - eexists _, _. split; [|split; [|reflexivity]].
    + exact (fetch_undecodable cfg w1 file_path headers org ref _ e Hreply1 Hd1
               Hdecode).
    + exact (fetch_undecodable cfg w2 file_path headers org ref _ e Hreply2 Hd2
               Hdecode2).
Qed.

(** The answer file sent in one line and with no other field reads as the
    one the sample service sends: the date and a newline. *)
Lemma fetch_reads_the_content_only_witness :
  returns (@_get_file_content reference_codecs CONFIG (u "ANSWER.md")
             (_build_headers CONFIG (u "ghp_example")) (u "acme") None)
    bare_world (Some (u "2023-11-15" ++ [LF])).
Proof.
  destruct (@fetch_reads_the_content_only reference_codecs CONFIG good_world
              bare_world (u "ANSWER.md")
              (_build_headers CONFIG (u "ghp_example")) (u "acme") None
              _ _ answer_b64 (u "MjAyMy0xMS0xNQo=")
              eq_refl eq_refl eq_refl eq_refl eq_refl)
    as (content & out & _ & Hbare & Hcontent).
  assert (content = Some (u "2023-11-15" ++ [LF])) as Htext
    by (rewrite Hcontent; vm_compute; reflexivity).
  rewrite Htext in Hbare. exact (runs_returns _ _ _ _ Hbare).
Defined.

(** X7. White space before and after the content of the answer file does
    not matter to the format check or to the value check: on the padded
    content each returns what it returns on the content itself and prints
    the same line (the value it reports as actual is the stripped one). *)
Theorem answer_checks_ignore_padding `{UnicodeDB} (cfg : Config) (w : World)
    (st : State) (before content after : str) :
  forallb isspace before = true -> forallb isspace after = true ->
  _verify_answer_format cfg (before ++ content ++ after) w st
  = _verify_answer_format cfg content w st
  /\ _verify_answer_value cfg (before ++ content ++ after) w st
     = _verify_answer_value cfg content w st.
Proof.
  intros Hbefore Hafter.
  unfold _verify_answer_format, _verify_answer_value.
  rewrite (strip_padding before content after Hbefore Hafter). split; reflexivity.
Qed.

(** The date between a space and a tab before it and a carriage return and
    a newline after it passes both checks. *)
Lemma answer_checks_ignore_padding_witness :
  let padded := [32; 9] ++ u "2023-11-15" ++ [13; 10] in
  @_verify_answer_format reference_unicode CONFIG padded good_world sample_state
  = (Ret true, emits sample_state [Print stdout (format_right CONFIG)])
  /\ @_verify_answer_value reference_unicode CONFIG padded good_world sample_state
     = (Ret true, emits sample_state [Print stdout (value_right CONFIG)]).
Proof.
  destruct (@answer_checks_ignore_padding reference_unicode CONFIG good_world
              sample_state [32; 9] (u "2023-11-15") [13; 10] eq_refl eq_refl)
    as [Hformat Hvalue].
  split.
  - etransitivity; [exact Hformat | vm_compute; reflexivity].
  - etransitivity; [exact Hvalue | vm_compute; reflexivity].
Defined.

(** X8. With the configured pattern and expected value, a content that
    passes the value check passes the format check too: the expected date
    has the shape the pattern asks for. *)
Theorem value_check_implies_format_check `{UnicodeDB} (w : World)
    (content : str) :
  returns (_verify_answer_value CONFIG content) w true ->
  returns (_verify_answer_format CONFIG content) w true.
Proof.
  intros Hvalue.
  pose proof (value_runs CONFIG w content) as Hv. cbv zeta in Hv.
  apply (returns_of_runs _ _ _ _ _ Hv) in Hvalue. simpl in Hvalue.
  injection Hvalue as Hvalue. apply bool_decide_eq_true in Hvalue.
  change (the_expected CONFIG) with (u "2023-11-15") in Hvalue.
  pose proof (format_runs CONFIG w content) as Hf. cbv zeta in Hf.
  assert (is_match (re_match (the_pattern CONFIG) (strip content)) = true)
    as Hmatch.
  { change (the_pattern CONFIG) with date_pattern.
    apply re_match_stripped. rewrite Hvalue.
    assert (u "2023-11-15" = [50; 48; 50; 51; 45; 49; 49; 45; 49; 53]) as ->
      by (vm_compute; reflexivity).
    eexists _, _, _, _, _, _, _, _. split; [reflexivity|].
    repeat constructor; rewrite isdecimal_ascii by lia; reflexivity. }
  rewrite Hmatch, orb_true_r in Hf. eapply runs_returns, Hf.
Qed.

(** The expected date followed by a newline. *)
Lemma value_check_implies_format_check_witness :
  fst (@_verify_answer_format reference_unicode CONFIG
         (u "2023-11-15" ++ [LF]) good_world sample_state) = Ret true.
Proof.
  apply (@value_check_implies_format_check reference_unicode good_world
           (u "2023-11-15" ++ [LF])).
  intros st. vm_compute. reflexivity.
Defined.

(** X9. Text added before or after the content of the reference file never
    turns a passing check into a failing one: when the required-section
    check, the required-entries check, or all the reference checks
    together pass on a content, they pass on any content that contains it
    as a contiguous part. *)
Theorem reference_checks_survive_additions (cfg : Config) (w : World)
    (before content after : str) :
  (returns (_verify_required_section cfg content) w true ->
   returns (_verify_required_section cfg (before ++ content ++ after)) w true)
  /\ (returns (_verify_required_entries cfg content) w true ->
      returns (_verify_required_entries cfg (before ++ content ++ after)) w true)
  /\ (returns (reference_checks cfg (Some content)) w true ->
      returns (reference_checks cfg (Some (before ++ content ++ after))) w true).
Proof.
  assert (returns (_verify_required_section cfg content) w true ->
          returns (_verify_required_section cfg (before ++ content ++ after))
            w true) as Hsection.
  { intros Htrue.
    pose proof (section_runs cfg w content) as Hs.
    pose proof (section_runs cfg w (before ++ content ++ after)) as Hs'.
    cbv zeta in Hs, Hs'.
    apply (returns_of_runs _ _ _ _ _ Hs) in Htrue. injection Htrue as Htrue.
    assert (negb (check_section_existence (VERIFICATION_FLOW cfg))
            || py_in (the_section cfg) (before ++ content ++ after) = true)
      as Hok.
    { apply orb_true_iff in Htrue as [-> | Hin]; [reflexivity|].
      rewrite (py_in_extended _ _ before after Hin). apply orb_true_r. }
    rewrite Hok in Hs'. eapply runs_returns, Hs'. }
  assert (returns (_verify_required_entries cfg content) w true ->
          returns (_verify_required_entries cfg (before ++ content ++ after))
            w true) as Hentries.
  { intros Htrue.
    pose proof (entries_runs cfg w content) as Hs.
    pose proof (entries_runs cfg w (before ++ content ++ after)) as Hs'.
    cbv zeta in Hs, Hs'.
    apply (returns_of_runs _ _ _ _ _ Hs) in Htrue. injection Htrue as Htrue.
    set (gate := check_required_entries (VERIFICATION_FLOW cfg)
                 && check_entries
                      (content_checks (reference_file (FILES_TO_VERIFY cfg))))
      in *.
    assert (negb gate
            || forallb (fun entry => py_in entry (before ++ content ++ after))
                 (the_entries cfg) = true) as Hok.
    { apply orb_true_iff in Htrue as [-> | Hall]; [reflexivity|].
      apply orb_true_iff. right. exact (all_entries_extended _ _ _ _ Hall). }
    rewrite Hok in Hs'. eapply runs_returns, Hs'. }
  split; [exact Hsection|]. split; [exact Hentries|].
  intros (s & [= <-] & Hs & Hx & Hsec & Hent)%reference_checks_true.
  apply reference_checks_true. exists (before ++ content ++ after).
  split; [reflexivity|].
  assert (before ++ content ++ after <> []) as Hfull.
  { intros Hnil. apply app_eq_nil in Hnil as [_ Hnil].
    apply app_eq_nil in Hnil as [Hnil _]. contradiction. }
  split; [exact Hfull|]. split; [|split; [exact (Hsection Hsec) | exact (Hentries Hent)]].
  pose proof (reference_runs cfg w (Some (before ++ content ++ after))) as Hr.
  assert (truthy (Some (before ++ content ++ after)) = true) as Htruthy
    by (simpl; destruct (before ++ content ++ after); [contradiction | reflexivity]).
  rewrite Htruthy, orb_true_r in Hr. eapply runs_returns, Hr.
Qed.

(** The short README passes the section check, and so does the README made
    of it, of a title before it and of a further line after it. *)
Lemma reference_checks_survive_additions_witness :
  returns (_verify_required_section CONFIG short_readme) good_world true
  /\ returns (_verify_required_section CONFIG
               ((u "Contents" ++ [LF]) ++ short_readme
                ++ u "- Vulkan-based Voxel Rendering")) good_world true.
Proof.
  assert (returns (_verify_required_section CONFIG short_readme) good_world
            true) as Hshort.
  { pose proof (section_runs CONFIG good_world short_readme) as Hs.
    cbv zeta in Hs.
    assert (py_in (the_section CONFIG) short_readme = true) as Hin
      by (vm_compute; reflexivity).
    rewrite Hin in Hs. eapply runs_returns, Hs. }
  split; [exact Hshort|].
  exact (proj1 (reference_checks_survive_additions CONFIG good_world _ _ _)
           Hshort).
Defined.

(** X10. Each of the six checks reports on the stream that tells its
    verdict. When it returns [True] it prints its one line of success on
    standard output, or nothing when it is switched off; when it returns
    [False] everything it prints goes to standard error, and it prints at
    least one line there. No check sends a request, and none depends on
    the world. *)
Theorem checks_report_on_the_stream_of_their_verdict `{UnicodeDB}
    (cfg : Config) (content : option str) (text : str) :
  let flow := VERIFICATION_FLOW cfg in
  reports (_verify_answer_file_existence cfg content)
    (passing_line (check_answer_file_existence flow) (answer_exists cfg))
  /\ reports (_verify_answer_format cfg text)
       (passing_line (check_answer_format flow) (format_right cfg))
  /\ reports (_verify_answer_value cfg text)
       (passing_line (verify_answer_value flow) (value_right cfg))
  /\ reports (_verify_reference_file cfg content)
       (passing_line (check_reference_file flow) (reference_exists cfg))
  /\ reports (_verify_required_section cfg text)
       (passing_line (check_section_existence flow) (section_found cfg))
  /\ reports (_verify_required_entries cfg text)
       (passing_line
          (check_required_entries flow
           && check_entries
                (content_checks (reference_file (FILES_TO_VERIFY cfg))))
          (entries_complete cfg)).
Proof.
  cbv zeta.
  split; [apply existence_reports|]. split; [apply format_reports|].
  split; [apply value_reports|]. split; [apply reference_reports|].
  split; [apply section_reports | apply entries_reports].
Qed.

(** X11. When the content of a file is present, every check of its step
    runs, whatever the checks before it returned: each prints its line,
    and the step returns the conjunction. With the three checks of the
    answer file switched on, a content that fails the format check is
    still given to the value check, and both failures are reported; with
    the checks of the reference file switched on, a missing section does
    not stop the check of the entries. *)
Theorem every_check_of_a_present_file_runs `{UnicodeDB} (cfg : Config)
    (w : World) (s : str) :
  s <> [] ->
  let flow := VERIFICATION_FLOW cfg in
  (check_answer_file_existence flow = true -> check_answer_format flow = true ->
   verify_answer_value flow = true ->
   let format_ok := is_match (re_match (the_pattern cfg) (strip s)) in
   let value_ok := bool_decide (strip s = the_expected cfg) in
   runs (answer_checks cfg (Some s)) w (Ret (format_ok && value_ok))
     [Print stdout (answer_exists cfg);
      if format_ok then Print stdout (format_right cfg)
      else Print stderr (format_wrong cfg);
      if value_ok then Print stdout (value_right cfg)
      else Print stderr (value_wrong cfg (strip s))])
  /\ (check_reference_file flow = true -> check_section_existence flow = true ->
      check_required_entries flow = true ->
      check_entries (content_checks (reference_file (FILES_TO_VERIFY cfg)))
      = true ->
      let section_ok := py_in (the_section cfg) s in
      let entries_ok := forallb (fun entry => py_in entry s) (the_entries cfg) in
      runs (reference_checks cfg (Some s)) w (Ret (section_ok && entries_ok))
        ([Print stdout (reference_exists cfg);
          if section_ok then Print stdout (section_found cfg)
          else Print stderr (section_missing cfg)]
         ++ warnings cfg s (the_entries cfg)
         ++ [if entries_ok then Print stdout (entries_complete cfg)
             else Print stderr entries_incomplete])).
Proof.
  intros Hs. assert (nonempty s = true) as Hc by (by destruct s).
  cbv zeta. split.
  - intros He Hf Hv.
    pose proof (answer_checks_present cfg w s _ _ _ _ _ _ Hc
                  (existence_runs cfg w (Some s)) (format_runs cfg w s)
                  (value_runs cfg w s)) as Hall.
    cbv zeta in Hall. rewrite He, Hf, Hv in Hall.
    change (truthy (Some s)) with (nonempty s) in Hall. rewrite Hc in Hall.
    exact Hall.
  - intros Hr Hsection Hentries Hlist.
    pose proof (reference_checks_present cfg w s _ _ _ _ _ _ Hc
                  (reference_runs cfg w (Some s)) (section_runs cfg w s)
                  (entries_runs cfg w s)) as Hall.
    cbv zeta in Hall. rewrite Hr, Hsection, Hentries, Hlist in Hall.
    change (truthy (Some s)) with (nonempty s) in Hall. rewrite Hc in Hall.
    exact Hall.
Qed.

(** An answer file that holds a word: the line of the file found, then
    both failures. *)
Lemma every_check_of_a_present_file_runs_witness :
  runs (@answer_checks reference_unicode CONFIG (Some (u "soon"))) good_world
    (Ret false)
    [Print stdout (answer_exists CONFIG);
     Print stderr (format_wrong CONFIG);
     Print stderr (value_wrong CONFIG (u "soon"))].
Proof.
  destruct (@every_check_of_a_present_file_runs reference_unicode CONFIG
              good_world (u "soon")) as [Hanswer _].
  { vm_compute. discriminate. }
  specialize (Hanswer eq_refl eq_refl eq_refl). cbv zeta in Hanswer.
  assert (is_match (@re_match reference_unicode (the_pattern CONFIG)
                      (@strip reference_unicode (u "soon"))) = false)
    as Hformat by (vm_compute; reflexivity).
  assert (bool_decide (@strip reference_unicode (u "soon") = the_expected CONFIG)
          = false) as Hvalue by (vm_compute; reflexivity).
  assert (@strip reference_unicode (u "soon") = u "soon") as Hstrip
    by (vm_compute; reflexivity).
  rewrite Hformat, Hvalue, Hstrip in Hanswer. exact Hanswer.
Defined.

(** X12. A run fails exactly when it writes to standard error: it returns
    [True] if and only if none of the lines it printed went there. When it
    returns [False] the last thing it emits is one of its three fatal
    lines, on standard error. The exit status of the process is 1 when
    something was written to standard error and 0 otherwise. *)
Theorem run_fails_exactly_when_it_writes_to_stderr `{UnicodeDB} `{Codecs}
    (cfg : Config) (w : World) (st : State) :
  exists result out,
    run_verification cfg w st
    = (Ret result,
       {| os_environ := loaded cfg w st; trace := trace st ++ out |})
    /\ (result = true <-> existsb on_stderr out = false)
    /\ (result = false ->
        exists before line,
          out = before ++ [Print stderr line]
          /\ (line = environment_incomplete \/ line = answer_failed
              \/ line = reference_failed))
    /\ fst (main cfg w st) = (if existsb on_stderr out then 1 else 0)%Z.
Proof.
  assert (forall before line,
            run_verification cfg w st
            = (Ret false,
               {| os_environ := loaded cfg w st;
                  trace := trace st ++ before ++ [Print stderr line] |}) ->
            line = environment_incomplete \/ line = answer_failed
            \/ line = reference_failed ->
            exists result out,
              run_verification cfg w st
              = (Ret result,
                 {| os_environ := loaded cfg w st; trace := trace st ++ out |})
              /\ (result = true <-> existsb on_stderr out = false)
              /\ (result = false ->
                  exists before line,
                    out = before ++ [Print stderr line]
                    /\ (line = environment_incomplete \/ line = answer_failed
                        \/ line = reference_failed))
              /\ fst (main cfg w st)
                 = (if existsb on_stderr out then 1 else 0)%Z) as Hfailed.
  { intros before line Hrun Hline.
    exists false, (before ++ [Print stderr line]).
    split; [exact Hrun|]. rewrite stderr_at_the_end.
    split; [split; discriminate|]. split; [eauto|].
    unfold main. rewrite Hrun. reflexivity. }
  destruct (run_verification_cases cfg w st)
    as [[_ Hrun]
       | (token & org & a & err_a & ok_a & out_c & _ & _ & _ & Ha & _
          & Hnone_a & Hc & _ & Hpc
          & [[-> Hrun]
            | [-> (r & err_r & ok & out_v & Hr & _ & Hnone_r & Hv & _ & Hpv
                   & Hrun)]])].
  - apply (Hfailed (prologue ++ loading_messages cfg (credentials cfg w st))
             environment_incomplete); [|left; reflexivity].
    rewrite Hrun, <- !app_assoc. reflexivity.
  - cbv zeta in Hrun.
    apply (Hfailed
             ((prologue ++ [Print stdout (environment_loaded cfg org);
                            Print stdout step2])
              ++ (HttpGet (contents_request cfg (answer_name cfg)
                             (_build_headers cfg token) org None) :: err_a)
              ++ out_c)
             answer_failed); [|right; left; reflexivity].
    rewrite Hrun, <- !app_assoc. reflexivity.
  - cbv zeta in Hrun, Ha, Hr. destruct ok.
    + destruct (proj1 (answer_checks_true cfg w a) (runs_returns _ _ _ _ Hc))
        as (answer & Hanswer & _).
      destruct (proj1 (reference_checks_true cfg w r) (runs_returns _ _ _ _ Hv))
        as (reference & Hreference & _).
      pose proof (fetched_quietly _ _ _ Hanswer Hnone_a) as ->.
      pose proof (fetched_quietly _ _ _ Hreference Hnone_r) as ->.
      rewrite (Hpc eq_refl), (Hpv eq_refl) in Hrun.
      eexists true, _. split; [exact Hrun|].
      assert (existsb on_stderr
                ((prologue ++ [Print stdout (environment_loaded cfg org);
                               Print stdout step2])
                 ++ [HttpGet (contents_request cfg (answer_name cfg)
                                (_build_headers cfg token) org None)]
                 ++ answer_passed cfg ++ [Print stdout step3]
                 ++ [HttpGet (contents_request cfg (reference_name cfg)
                                (_build_headers cfg token) org None)]
                 ++ reference_passed cfg ++ summary cfg org) = false) as Hquiet.
      { rewrite !existsb_app, summary_quiet,
          (proj1 (answer_passed_quiet cfg)),
          (proj1 (reference_passed_quiet cfg)).
        reflexivity. }
      rewrite Hquiet. split; [split; reflexivity|]. split; [discriminate|].
      unfold main. rewrite Hrun. reflexivity.
    + apply (Hfailed
               ((prologue ++ [Print stdout (environment_loaded cfg org);
                              Print stdout step2])
                ++ (HttpGet (contents_request cfg (answer_name cfg)
                               (_build_headers cfg token) org None) :: err_a)
                ++ out_c ++ [Print stdout step3]
                ++ (HttpGet (contents_request cfg (reference_name cfg)
                               (_build_headers cfg token) org None) :: err_r)
                ++ out_v)
               reference_failed); [|right; right; reflexivity].
      rewrite Hrun, <- !app_assoc. reflexivity.
Qed.

(** X13. A run sends at most two requests: none when a credential is
    missing; otherwise the request for the answer file, and after it the
    request for the reference file exactly when the step of the answer
    file passed. Both go to the contents endpoint of the
    configured repository, on the target branch, under the headers built
    from the token. *)
Theorem run_sends_at_most_two_requests `{UnicodeDB} `{Codecs}
    (cfg : Config) (w : World) (st : State) :
  exists result out,
    run_verification cfg w st
    = (Ret result,
       {| os_environ := loaded cfg w st; trace := trace st ++ out |})
    /\ ((requests_sent out = []
         /\ exists token org,
              fst (_load_environment cfg w st) = Ret (token, org)
              /\ (truthy token = false \/ truthy org = false))
        \/ exists token org answer_content answer_ok,
             let sent := _build_headers cfg token in
             let for_answer :=
               contents_request cfg (answer_name cfg) sent org None in
             let for_reference :=
               contents_request cfg (reference_name cfg) sent org None in
             fst (_load_environment cfg w st) = Ret (Some token, Some org)
             /\ token <> [] /\ org <> []
             /\ returns (_get_file_content cfg (answer_name cfg) sent org None)
                  w answer_content
             /\ returns (answer_checks cfg answer_content) w answer_ok
             /\ requests_sent out
                = HttpGet for_answer
                    :: (if answer_ok then [HttpGet for_reference] else [])).
Proof.
  destruct (run_verification_cases cfg w st)
    as [[Hmissing Hrun]
       | (token & org & a & err_a & ok_a & out_c & Hcreds & Htoken & Horg & Ha
          & Herr_a & _ & Hc & Hqc & _
          & [[-> Hrun]
            | [-> (r & err_r & ok & out_v & Hr & Herr_r & _ & Hv & Hqv & _
                   & Hrun)]])].
  - eexists _, _. split; [exact Hrun|]. left. split.
    + rewrite !requests_sent_app. change (requests_sent prologue) with (@nil event).
      unfold loading_messages.
      destruct (truthy _), (truthy _); reflexivity.
    + rewrite load_environment_returns.
      destruct (credentials cfg w st) as [token org]. exists token, org.
      split; [reflexivity|]. simpl in Hmissing.
      destruct (truthy token); [right; exact Hmissing | left; reflexivity].
  - cbv zeta in Hrun, Ha. eexists _, _. split; [exact Hrun|]. right.
    exists token, org, a, false. cbv zeta.
    rewrite load_environment_returns.
    split; [exact (f_equal Ret Hcreds)|]. split; [by destruct token|].
    split; [by destruct org|].
    split; [exact (runs_returns _ _ _ _ Ha)|].
    split; [exact (runs_returns _ _ _ _ Hc)|].
    rewrite !requests_sent_app, (no_request_sent _ Hqc).
    change (requests_sent (HttpGet ?rq :: err_a))
      with (HttpGet rq :: requests_sent err_a).
    rewrite (no_request_sent _ (stderr_no_request _ Herr_a)). reflexivity.
  - cbv zeta in Hrun, Ha, Hr. eexists _, _. split; [exact Hrun|]. right.
    exists token, org, a, true. cbv zeta.
    rewrite load_environment_returns.
    split; [exact (f_equal Ret Hcreds)|]. split; [by destruct token|].
    split; [by destruct org|].
    split; [exact (runs_returns _ _ _ _ Ha)|].
    split; [exact (runs_returns _ _ _ _ Hc)|].
    rewrite !requests_sent_app, (no_request_sent _ Hqc),
      (no_request_sent _ Hqv).
    change (requests_sent (HttpGet ?rq :: err_a))
      with (HttpGet rq :: requests_sent err_a).
    change (requests_sent (HttpGet ?rq :: err_r))
      with (HttpGet rq :: requests_sent err_r).
    rewrite (no_request_sent _ (stderr_no_request _ Herr_a)),
      (no_request_sent _ (stderr_no_request _ Herr_r)).
    destruct ok; reflexivity.
Qed.

(** X14. What a successful run emits is fixed by the configuration and the
    credentials; nothing of what the two files hold shows in it. It is, in
    order: the three opening lines, the line of the loaded environment,
    the banner of step 2, the request for the answer file, the lines of
    its checks that are switched on, the banner of step 3, the request for
    the reference file, the lines of its checks, and the eight lines of
    the summary. *)
Theorem successful_run_transcript `{UnicodeDB} `{Codecs} (cfg : Config)
    (w : World) (st : State) :
  fst (run_verification cfg w st) = Ret true ->
  exists token org,
    let sent := _build_headers cfg token in
    fst (_load_environment cfg w st) = Ret (Some token, Some org)
    /\ emitted_since st (snd (run_verification cfg w st))
         (prologue
          ++ [Print stdout (environment_loaded cfg org); Print stdout step2;
              HttpGet (contents_request cfg (answer_name cfg) sent org None)]
          ++ answer_passed cfg
          ++ [Print stdout step3;
              HttpGet (contents_request cfg (reference_name cfg) sent org None)]
          ++ reference_passed cfg
          ++ summary cfg org).
Proof.
  intros Htrue.
  destruct (run_verification_cases cfg w st)
    as [[_ Hrun]
       | (token & org & a & err_a & ok_a & out_c & Hcreds & _ & _ & Ha & _
          & Hnone_a & Hc & _ & Hpc
          & [[-> Hrun]
            | [-> (r & err_r & ok & out_v & Hr & _ & Hnone_r & Hv & _ & Hpv
                   & Hrun)]])];
    cbv zeta in *; rewrite Hrun in Htrue; try discriminate.
  injection Htrue as ->.
  destruct (proj1 (answer_checks_true cfg w a) (runs_returns _ _ _ _ Hc))
    as (answer & Hanswer & _).
  destruct (proj1 (reference_checks_true cfg w r) (runs_returns _ _ _ _ Hv))
    as (reference & Hreference & _).
  pose proof (fetched_quietly _ _ _ Hanswer Hnone_a) as ->.
  pose proof (fetched_quietly _ _ _ Hreference Hnone_r) as ->.
  exists token, org. rewrite load_environment_returns.
  split; [exact (f_equal Ret Hcreds)|].
  unfold emitted_since. rewrite Hrun, (Hpc eq_refl), (Hpv eq_refl).
  cbn [snd trace]. rewrite <- !app_assoc. reflexivity.
Qed.

(** The run on the sample surroundings. *)
Lemma successful_run_transcript_witness :
  exists token org,
    let sent := _build_headers CONFIG token in
    fst (_load_environment CONFIG good_world sample_state)
    = Ret (Some token, Some org)
    /\ emitted_since sample_state
         (snd (@run_verification reference_unicode reference_codecs CONFIG
                 good_world sample_state))
         (prologue
          ++ [Print stdout (environment_loaded CONFIG org); Print stdout step2;
              HttpGet (contents_request CONFIG (answer_name CONFIG) sent org
                         None)]
          ++ answer_passed CONFIG
          ++ [Print stdout step3;
              HttpGet (contents_request CONFIG (reference_name CONFIG) sent
                         org None)]
          ++ reference_passed CONFIG
          ++ summary CONFIG org).
Proof.
  apply (@successful_run_transcript reference_unicode reference_codecs CONFIG
           good_world sample_state).
  vm_compute. reflexivity.
Defined.



(** X16. Switching checks off never turns a passing run into a failing
    one: when a run returns [True], so does the run, in the same world and
    process, under a verification flow that switches on no check that the
    configured flow has off. *)
Theorem switching_checks_off_keeps_a_run_passing `{UnicodeDB} `{Codecs}
    (cfg : Config) (flow' : VerificationFlow) (w : World) (st : State) :
  relaxes flow' (VERIFICATION_FLOW cfg) ->
  fst (run_verification cfg w st) = Ret true ->
  fst (run_verification (with_flow cfg flow') w st) = Ret true.
Proof.
  intros Hrelaxes Htrue.
  apply run_verification_true in Htrue
    as (token & org & answer & reference & Hcreds & Htoken & Horg & Ha & Hac
        & Hr & Hrc).
  apply answer_checks_true in Hac as (s & [= <-] & Hs & He & Hf & Hv).
  apply reference_checks_true in Hrc as (t & [= <-] & Ht & Hx & Hsection & He').
  apply run_verification_true. exists token, org, answer, reference.
  split; [exact Hcreds|]. split; [exact Htoken|]. split; [exact Horg|].
  split; [exact Ha|]. split; [|split; [exact Hr|]].
  - apply answer_checks_true. exists answer.
    split; [reflexivity|]. split; [exact Hs|].
    split; [exact (existence_relaxed cfg flow' w Hrelaxes _ He)|].
    split; [exact (format_relaxed cfg flow' w Hrelaxes _ Hf)
           | exact (value_relaxed cfg flow' w Hrelaxes _ Hv)].
  - apply reference_checks_true. exists reference.
    split; [reflexivity|]. split; [exact Ht|].
    split; [exact (reference_relaxed cfg flow' w Hrelaxes _ Hx)|].
    split; [exact (section_relaxed cfg flow' w Hrelaxes _ Hsection)
           | exact (entries_relaxed cfg flow' w Hrelaxes _ He')].
Qed.

(** The run on the sample surroundings passes, and so it does with every
    check switched off. *)
Lemma switching_checks_off_keeps_a_run_passing_witness :
  fst (@run_verification reference_unicode reference_codecs
         (with_flow CONFIG (VERIFICATION_FLOW unchecked)) good_world
         sample_state) = Ret true.
Proof.
  apply (@switching_checks_off_keeps_a_run_passing reference_unicode
           reference_codecs CONFIG (VERIFICATION_FLOW unchecked) good_world
           sample_state).
  - repeat split; discriminate.
  - vm_compute. reflexivity.
Defined.

(** X17. Four settings of the configuration are never read: [must_exist] of
    the answer file and of the reference file, [format] of the content
    schema, and [encoding] of the reference file (the reference file is
    decoded under the encoding of the answer file, as every file is).
    Whatever they are set to, [run_verification] is the same: in
    particular [must_exist] set to false does not make a file optional. *)
Theorem unread_settings `{UnicodeDB} `{Codecs} (cfg : Config)
    (answer_must reference_must : bool) (encoding date_format : str) :
  let answer := answer_file (FILES_TO_VERIFY cfg) in
  let reference := reference_file (FILES_TO_VERIFY cfg) in
  let cfg' := {|
    ENV_CONFIG := ENV_CONFIG cfg;
    REPO_CONFIG := REPO_CONFIG cfg;
    FILES_TO_VERIFY := {|
      answer_file := {|
        answer_path := answer_path answer;
        answer_must_exist := answer_must;
        answer_encoding := answer_encoding answer;
        content_schema := {|
          format := date_format;
          pattern := pattern (content_schema answer);
          expected_value := expected_value (content_schema answer)
        |}
      |};
      reference_file := {|
        reference_path := reference_path reference;
        reference_must_exist := reference_must;
        reference_encoding := encoding;
        content_checks := content_checks reference
      |}
    |};
    VERIFICATION_FLOW := VERIFICATION_FLOW cfg
  |} in
  run_verification cfg' = run_verification cfg
  /\ forall file_path headers org ref,
       _get_file_content cfg' file_path headers org ref
       = _get_file_content cfg file_path headers org ref.
Proof.
  destruct cfg as [env repo [[ap am ae [af apat aexp]] [rp rm re rc]] flow].
  cbv beta iota zeta delta
    [ENV_CONFIG REPO_CONFIG FILES_TO_VERIFY VERIFICATION_FLOW answer_file
     reference_file answer_path answer_must_exist answer_encoding
     content_schema format pattern expected_value reference_path
     reference_must_exist reference_encoding content_checks
     run_verification _load_environment _build_headers _get_file_content
     _call_github_api decode_content answer_checks reference_checks
     _verify_answer_file_existence _verify_answer_format _verify_answer_value
     _verify_reference_file _verify_required_section _verify_required_entries
     answer_name reference_name the_pattern the_expected the_section
     the_entries variable_missing answer_missing answer_exists format_wrong
     format_right value_wrong value_right reference_missing reference_exists
     section_missing section_found entry_missing entries_complete
     environment_loaded summary_repo summary_branch summary_answer
     summary_reference].
  split; [|intros file_path headers org ref]; reflexivity.
Qed.
